(** * VoiceBoard model builder: [scripts/build_models.py]

    A shallow embedding of the script and the properties of its three
    functions [download_file], [verify_file_size] and [main].

    - Python [float] is IEEE 754 binary64; it is modelled by the Standard
      Library's executable specification [SpecFloat] at precision 53,
      so every rounding the script performs is performed here too.
    - Python [int] is [Z]; a file size in bytes is [N].
    - The models directory is a finite map from file names to byte counts;
      the program only ever asks a file for its existence and its
      [st_size], and only ever creates, extends or unlinks files.
    - The network is an oracle from URLs to the outcome of a streamed GET.
    - Exceptions are values of [exn], threaded by a state-and-exception
      monad over the [world]. *)

From Stdlib Require Import ZArith NArith QArith Qabs Qpower Lia Lqa.
From Stdlib Require Import Floats.SpecFloat.
From stdpp Require Import base option gmap strings list fin_maps.

Local Open Scope Z_scope.

(** ** Binary64 *)

Module Float64.

Definition prec : Z := 53.
Definition emax : Z := 1024.

Definition add : spec_float -> spec_float -> spec_float := SFadd prec emax.
Definition sub : spec_float -> spec_float -> spec_float := SFsub prec emax.
Definition mul : spec_float -> spec_float -> spec_float := SFmul prec emax.
Definition div : spec_float -> spec_float -> spec_float := SFdiv prec emax.
Definition leb : spec_float -> spec_float -> bool := SFleb.

(** Nearest binary64 value of an integer, ties to even; an infinity when
    the integer is beyond the largest finite value. *)
Definition of_Z (z : Z) : spec_float := binary_normalize prec emax z 0 false.

(** An integer taken as it is, mantissa and exponent zero, with no
    rounding.  Only used as an operand of [div], which rounds once. *)
Definition exact_Z (z : Z) : spec_float :=
  match z with
  | Z0 => S754_zero false
  | Zpos p => S754_finite false p 0
  | Zneg p => S754_finite true p 0
  end.

Definition is_infinity (x : spec_float) : bool :=
  match x with S754_infinity _ => true | _ => false end.

(** The rational a finite float stands for. *)
Definition to_Q (x : spec_float) : option Q :=
  match x with
  | S754_zero _ => Some 0%Q
  | S754_finite s m e =>
      let a := if s then Zneg m else Zpos m in
      Some (if 0 <=? e then inject_Z (a * 2 ^ e) else Qmake a (Z.to_pos (2 ^ (- e))))
  | _ => None
  end.

End Float64.

Abbreviation float := spec_float.

(** ** Exceptions and results *)

Inductive exn : Type :=
| OverflowError
| ZeroDivisionError
| ValueError
| ConnectionError        (* requests.exceptions.ConnectionError and the like *)
| HTTPError (status : Z) (* raised by Response.raise_for_status *)
| ChunkedEncodingError   (* the body stream broke *)
| FileNotFoundError
| SystemExit (code : Z).

(** [SystemExit] derives from [BaseException], not from [Exception]: an
    [except Exception] clause lets it through. *)
Definition is_Exception (e : exn) : bool :=
  match e with SystemExit _ => false | _ => true end.

Inductive result (A : Type) : Type :=
| Ok (a : A)
| Raise (e : exn).
Arguments Ok {A} a.
Arguments Raise {A} e.

Definition result_bind {A B} (r : result A) (k : A -> result B) : result B :=
  match r with Ok a => k a | Raise e => Raise e end.

Declare Scope result_scope.
Delimit Scope result_scope with result.
Notation "'let*' x := c 'in' k" := (result_bind c (fun x => k))
  (at level 10, x name, c at level 100, k at level 200) : result_scope.

(** ** Python's numeric operators on the operand types the script uses *)

(** [float(z)] as done implicitly by a mixed [int]/[float] operation. *)
Definition int_to_float (z : Z) : result float :=
  let f := Float64.of_Z z in
  if Float64.is_infinity f then Raise OverflowError else Ok f.

(** [a / b] on two [int]s.  CPython returns the exact quotient rounded once
    to binary64, raises [ZeroDivisionError] on a zero divisor and
    [OverflowError] when the rounded quotient is not finite. *)
Definition int_truediv (a b : Z) : result float :=
  if b =? 0 then Raise ZeroDivisionError
  else
    let q := Float64.div (Float64.exact_Z a) (Float64.exact_Z b) in
    if Float64.is_infinity q then Raise OverflowError else Ok q.

(** [z - x], [z + x] and [z * x] with [z] an [int] and [x] a [float]. *)
Definition int_sub_float (z : Z) (x : float) : result float :=
  (let* z' := int_to_float z in Ok (Float64.sub z' x))%result.

Definition int_add_float (z : Z) (x : float) : result float :=
  (let* z' := int_to_float z in Ok (Float64.add z' x))%result.

Definition int_mul_float (z : Z) (x : float) : result float :=
  (let* z' := int_to_float z in Ok (Float64.mul z' x))%result.

(** The literal [0.1]: the binary64 value nearest to one tenth. *)
Definition default_tolerance : float := Float64.div (Float64.of_Z 1) (Float64.of_Z 10).

(** ** The models directory

    Every [Path] the script builds is [models_dir / name]; a path is
    modelled by that name, and the directory by a map from names to the
    [st_size] of the file of that name. *)

Abbreviation path := string.

(** ** [verify_file_size] *)

Definition verify_file_size (fs : gmap path N) (filepath : path)
    (expected_size_mb : Z) (tolerance : float) : result bool :=
  match fs !! filepath with
  | None => Ok false
  | Some st_size =>
      (let* actual_size_mb := int_truediv (Z.of_N st_size) (1024 * 1024) in
       let* one_minus := int_sub_float 1 tolerance in
       let* expected_min := int_mul_float expected_size_mb one_minus in
       let* one_plus := int_add_float 1 tolerance in
       let* expected_max := int_mul_float expected_size_mb one_plus in
       Ok (Float64.leb expected_min actual_size_mb
           && Float64.leb actual_size_mb expected_max))%result
  end.

(** ** The catalog *)

Record model_info : Type := {
  original : string;
  ggml : string;
  size_mb : Z;
  description : string }.

#[global] Instance model_info_eq_dec : EqDecision model_info.
Proof. solve_decision. Defined.

(** A Python [dict] is iterated in insertion order: an association list. *)
Definition MODELS : list (string * model_info) :=
  [ ("tiny.en",
     {| original := "https://openaipublic.azureedge.net/main/whisper/models/d3dd57d32accea0b295c96e26691aa14d8822fac7d9d27d5dc00b4ca2826dd03/tiny.en.pt";
        ggml := "https://huggingface.co/ggerganov/whisper.cpp/resolve/main/ggml-tiny.en-q5_1.bin";
        size_mb := 39;
        description := "Fastest, lowest accuracy - good for testing" |});
    ("base.en",
     {| original := "https://openaipublic.azureedge.net/main/whisper/models/25a8566e1d0c1e2231d1c762132cd20e0f96a85d16145c3a00adf5d1ac670ead/base.en.pt";
        ggml := "https://huggingface.co/ggerganov/whisper.cpp/resolve/main/ggml-base.en-q5_1.bin";
        size_mb := 148;
        description := "Balanced speed and accuracy - recommended default" |});
    ("small.en",
     {| original := "https://openaipublic.azureedge.net/main/whisper/models/f953ad0fd29cacd07d5a9eda5624af0f6bcf2258be67c92b79389873d91e0872/small.en.pt";
        ggml := "https://huggingface.co/ggerganov/whisper.cpp/resolve/main/ggml-small.en-q5_1.bin";
        size_mb := 244;
        description := "Slower, higher accuracy - for powerful devices" |}) ].

(** [f"ggml-{model_name}-q5_1.bin"], the name of the file inside the models
    directory. *)
Definition ggml_filename_of (model_name : string) : string :=
  "ggml-" +:+ model_name +:+ "-q5_1.bin".

(** ** The manifest *)

Module Manifest.

Record entry : Type := {
  filename : string;
  size_bytes : N;
  size_mb : float;
  description : string;
  format : string }.

Record t : Type := {
  models : gmap string entry;
  created_at : string;
  version : string }.

Definition set_model (name : string) (e : entry) (m : t) : t :=
  {| models := <[name := e]> (models m);
     created_at := created_at m;
     version := version m |}.

End Manifest.

(** ** [round(x, 1)]

    CPython rounds the exact binary value of [x] to one decimal, ties to
    even, and returns the binary64 value nearest to that decimal. *)

(** Nearest integer to [a / b] for [0 < b], ties to even. *)
Definition round_half_even (a b : Z) : Z :=
  let q := a / b in
  match 2 * (a mod b) ?= b with
  | Lt => q
  | Gt => q + 1
  | Eq => if Z.even q then q else q + 1
  end.

(** The number of tenths nearest to the magnitude [m * 2^e]. *)
Definition tenths (m : positive) (e : Z) : Z :=
  if 0 <=? e then 10 * Zpos m * 2 ^ e
  else round_half_even (10 * Zpos m) (2 ^ (- e)).

(** The binary64 value nearest to [k / 10], signed by [s]. *)
Definition decimal1 (s : bool) (k : Z) : float :=
  match k with
  | Zpos p => Float64.div (S754_finite s p 0) (Float64.of_Z 10)
  | _ => S754_zero s
  end.

Definition round1 (x : float) : float :=
  match x with
  | S754_finite s m e => decimal1 s (tenths m e)
  | _ => x
  end.

(** ** The network *)

Inductive header : Type :=
| header_absent
| header_int (n : Z)
| header_malformed.

(** What a streamed GET hands to the script once a response arrives: the
    status line, the [content-length] header, the lengths of the chunks
    that [iter_content] yields, and whether the stream breaks after them. *)
Record response : Type := {
  status_code : Z;
  content_length : header;
  chunks : list N;
  truncated : bool }.

Inductive outcome : Type :=
| Unreachable
| Responded (r : response).

(** ** What the script prints *)

Inductive line : Type :=
| Banner | Rule | ModelsDirectory | Blank
| Processing (model_name : string)
| Description (text : string)
| SizeApprox (mb : Z)
| AlreadyVerified (file : string)
| Downloading (file : string)
| DownloadedVerified (file : string)
| VerificationFailed (file : string)
| DownloadFailed (file : string)
| ErrorDownloading (url : string) (e : exn)
| CreatedManifest
| SummaryHeader
| ModelsDownloaded (count : nat)
| TotalSize
| Location
| SetupComplete
| FollowUp
| NoModels
| TopLevelError (e : exn).

(** ** The world the script runs in

    [manifest.json] lives in the models directory too.  Its name is not the
    name of a model file and the script never asks for its size, so it is
    kept apart from [fs], as the document it holds.  The script has no
    access to [clock]: the field is there for statements about time. *)

Record world : Type := {
  internet : string -> outcome;          (* what a GET of each URL yields *)
  clock : Z;                             (* wall-clock time, seconds since the epoch *)
  fs : gmap path N;                      (* models directory: file name to st_size *)
  manifest_json : option Manifest.t;     (* the document in manifest.json, if any *)
  requests : list string;                (* URLs requested, in order *)
  stdout : list line }.                  (* lines printed, in order *)

Definition set_fs (f : gmap path N -> gmap path N) (w : world) : world :=
  {| internet := internet w; clock := clock w; fs := f (fs w);
     manifest_json := manifest_json w; requests := requests w; stdout := stdout w |}.

Definition set_manifest_json (m : Manifest.t) (w : world) : world :=
  {| internet := internet w; clock := clock w; fs := fs w;
     manifest_json := Some m; requests := requests w; stdout := stdout w |}.

Definition log_request (url : string) (w : world) : world :=
  {| internet := internet w; clock := clock w; fs := fs w;
     manifest_json := manifest_json w; requests := requests w ++ [url];
     stdout := stdout w |}.

Definition log_line (l : line) (w : world) : world :=
  {| internet := internet w; clock := clock w; fs := fs w;
     manifest_json := manifest_json w; requests := requests w;
     stdout := stdout w ++ [l] |}.

(** ** State and exceptions *)

Definition M (A : Type) : Type := world -> result A * world.

Definition ret {A} (a : A) : M A := fun w => (Ok a, w).

Definition bind {A B} (c : M A) (k : A -> M B) : M B :=
  fun w => match c w with
           | (Ok a, w') => k a w'
           | (Raise e, w') => (Raise e, w')
           end.

Definition raise {A} (e : exn) : M A := fun w => (Raise e, w).

Definition lift {A} (r : result A) : M A := fun w => (r, w).

(** [try: body except Exception as e: handler e] *)
Definition try_except {A} (body : M A) (handler : exn -> M A) : M A :=
  fun w => match body w with
           | (Raise e, w') => if is_Exception e then handler e w' else (Raise e, w')
           | r => r
           end.

Declare Scope M_scope.
Delimit Scope M_scope with M.
Notation "'do' x <- c ; k" := (bind c (fun x => k))
  (at level 10, x name, c at level 100, k at level 200) : M_scope.
Notation "c ;; k" := (bind c (fun _ => k))
  (at level 100, k at level 200, right associativity) : M_scope.

(** [for x in xs: body x] *)
Fixpoint for_each {A} (xs : list A) (body : A -> M unit) : M unit :=
  match xs with
  | [] => ret tt
  | x :: xs' => (body x ;; for_each xs' body)%M
  end.

(** A loop that carries a local variable. *)
Fixpoint fold_M {A S} (step : S -> A -> M S) (s : S) (xs : list A) : M S :=
  match xs with
  | [] => ret s
  | x :: xs' => (do s' <- step s x ; fold_M step s' xs')%M
  end.

Definition print (l : line) : M unit := fun w => (Ok tt, log_line l w).

Definition path_exists (p : path) : M bool :=
  fun w => (Ok (bool_decide (is_Some (fs w !! p))), w).

Definition unlink (p : path) : M unit :=
  fun w => (Ok tt, set_fs (delete p) w).

(** [open(p, 'wb')]: create the file, or truncate the one that is there. *)
Definition open_wb (p : path) : M unit :=
  fun w => (Ok tt, set_fs <[p := 0%N]> w).

(** [file.write(chunk)] on the file opened at [p]. *)
Definition file_write (p : path) (chunk : N) : M unit :=
  fun w => (Ok tt, set_fs (fun f => <[p := (default 0 (f !! p) + chunk)%N]> f) w).

(** [requests.get(url, stream=True)] *)
Definition requests_get (url : string) : M response :=
  fun w => match internet w url with
           | Unreachable => (Raise ConnectionError, log_request url w)
           | Responded r => (Ok r, log_request url w)
           end.

(** [Response.raise_for_status]: an [HTTPError] for the client and server
    error statuses, 400 to 599, and nothing for any other status. *)
Definition is_error_status (status : Z) : bool := (400 <=? status) && (status <? 600).

Definition raise_for_status (r : response) : M unit :=
  if is_error_status (status_code r)
  then raise (HTTPError (status_code r))
  else ret tt.

(** [int(response.headers.get('content-length', 0))] *)
Definition content_length_int (r : response) : M Z :=
  match content_length r with
  | header_absent => ret 0
  | header_int n => ret n
  | header_malformed => raise ValueError
  end.

(** [for chunk in response.iter_content(chunk_size=8192)]: the chunks
    arrive one by one, then the iterator ends or raises. *)
Definition iter_content (r : response) (body : N -> M unit) : M unit :=
  (for_each (chunks r) body ;;
   if truncated r then raise ChunkedEncodingError else ret tt)%M.

(** ** [download_file]

    The [tqdm] progress bar, for which [total_size] and [description] are
    computed, only draws on the terminal and is left out. *)

Definition download_file (url : string) (filepath : path) (description : string)
  : M bool :=
  try_except
    (do response <- requests_get url ;
     raise_for_status response ;;
     do total_size <- content_length_int response ;
     open_wb filepath ;;
     iter_content response
       (fun chunk => if (0 <? chunk)%N then file_write filepath chunk else ret tt) ;;
     ret true)%M
    (fun e =>
       print (ErrorDownloading url e) ;;
       do present <- path_exists filepath ;
       (if present then unlink filepath else ret tt) ;;
       ret false)%M.

(** [verify_file_size] reads the directory and changes nothing. *)
Definition verify (filepath : path) (expected_size_mb : Z) : M bool :=
  fun w => (verify_file_size (fs w) filepath expected_size_mb default_tolerance, w).

(** ** [main] *)

(** The body of the first loop. *)
Definition process_model (item : string * model_info) : M unit :=
  let '(model_name, model_info) := item in
  (print (Processing model_name) ;;
   print (Description (description model_info)) ;;
   print (SizeApprox (size_mb model_info)) ;;
   let ggml_filename := ggml_filename_of model_name in
   let ggml_filepath : path := ggml_filename in
   do present <- path_exists ggml_filepath ;
   do verified <- (if present then verify ggml_filepath (size_mb model_info)
                   else ret false) ;
   if verified then
     print (AlreadyVerified ggml_filename) ;;
     print Blank
   else
     print (Downloading ggml_filename) ;;
     do fetched <- download_file (ggml model_info) ggml_filepath
                     (model_name +:+ " GGML") ;
     if fetched then
       do ok <- verify ggml_filepath (size_mb model_info) ;
       (if ok then print (DownloadedVerified ggml_filename)
        else print (VerificationFailed ggml_filename)) ;;
       print Blank
     else
       print (DownloadFailed ggml_filename))%M.

Definition empty_manifest : Manifest.t :=
  {| Manifest.models := ∅;
     Manifest.created_at := "2024-01-01T00:00:00Z";
     Manifest.version := "1.0.0" |}.

(** [Path.stat().st_size] *)
Definition stat_size (p : path) : M N :=
  fun w => match fs w !! p with
           | Some n => (Ok n, w)
           | None => (Raise FileNotFoundError, w)
           end.

(** The body of the second loop. *)
Definition record_model (manifest : Manifest.t) (item : string * model_info)
  : M Manifest.t :=
  let '(model_name, model_info) := item in
  let ggml_filename := ggml_filename_of model_name in
  let ggml_filepath : path := ggml_filename in
  (do present <- path_exists ggml_filepath ;
   if present then
     do st_size <- stat_size ggml_filepath ;
     do mb <- lift (int_truediv (Z.of_N st_size) (1024 * 1024)) ;
     ret (Manifest.set_model model_name
            {| Manifest.filename := ggml_filename;
               Manifest.size_bytes := st_size;
               Manifest.size_mb := round1 mb;
               Manifest.description := description model_info;
               Manifest.format := "ggml-q5_1" |}
            manifest)
   else ret manifest)%M.

(** [json.dump(manifest, f)] on a freshly opened manifest.json. *)
Definition json_dump (manifest : Manifest.t) : M unit :=
  fun w => (Ok tt, set_manifest_json manifest w).

Definition sys_exit {A} (code : Z) : M A := raise (SystemExit code).

(** [models_dir.mkdir(exist_ok=True)] creates the directory that [fs]
    stands for and has no effect on the files inside it.  The summary
    prints the sum of the [size_mb] fields; [TotalSize] stands for that
    line without its number. *)
Definition main : M unit :=
  (print Banner ;; print Rule ;;
   print ModelsDirectory ;; print Blank ;;
   for_each MODELS process_model ;;
   do manifest <- fold_M record_model empty_manifest MODELS ;
   json_dump manifest ;;
   print CreatedManifest ;; print Blank ;;
   print SummaryHeader ;;
   print (ModelsDownloaded (size (Manifest.models manifest))) ;;
   print TotalSize ;; print Location ;; print Blank ;;
   if bool_decide (0 < size (Manifest.models manifest))%nat then
     print SetupComplete ;; print Blank ;; print FollowUp
   else
     print NoModels ;; sys_exit 1)%M.

(** The [if __name__ == "__main__"] block: the exit status of the process
    and the world it leaves.  The [except KeyboardInterrupt] clause has no
    counterpart here: the world holds no signal from the keyboard, and
    [main] raises no [KeyboardInterrupt] of its own, so [run] is the run
    that the user does not interrupt. *)
Definition run (w : world) : Z * world :=
  match main w with
  | (Ok _, w') => (0, w')
  | (Raise (SystemExit code), w') => (code, w')
  | (Raise e, w') => (1, log_line (TopLevelError e) w')
  end.

(** * Notions the properties are stated with *)

(** The mantissa and the exponent of [n / 2^20] in binary64, for a byte
    count [n] of at most 53 bits: the quotient is exact. *)
Definition MiB_mantissa (n : positive) : positive :=
  Z.to_pos (Zpos n * 2 ^ (53 - Zpos (digits2_pos n))).
Definition MiB_exponent (n : positive) : Z := Zpos (digits2_pos n) - 73.

(** The size of a file in megabytes, as an exact rational. *)
Definition size_in_MB (n : N) : Q := Qmake (Z.of_N n) 1048576.

(** The interval of the specification, in exact rational arithmetic:
    [E * (1 - t) <= size <= E * (1 + t)]. *)
Definition within_tolerance (E : Z) (t : Q) (n : N) : Prop :=
  (inject_Z E * (1 - t) <= size_in_MB n)%Q /\ (size_in_MB n <= inject_Z E * (1 + t))%Q.

Definition catalog_sizes : list Z := (fun item => size_mb (snd item)) <$> MODELS.

(** The number of bytes a response carries. *)
Definition body_size (r : response) : N := foldr N.add 0%N (chunks r).

Definition header_ok (h : header) : bool :=
  match h with header_malformed => false | _ => true end.

(** The GET delivered a complete body under a status that
    [raise_for_status] accepts. *)
Definition fetch_succeeds (o : outcome) : bool :=
  match o with
  | Unreachable => false
  | Responded r =>
      negb (is_error_status (status_code r)) && header_ok (content_length r)
      && negb (truncated r)
  end.

Definition item_path (item : string * model_info) : path := ggml_filename_of (fst item).
Definition item_url (item : string * model_info) : string := ggml (snd item).

(** The check at the head of the first loop passes. *)
Definition verified_in (f : gmap path N) (item : string * model_info) : bool :=
  match verify_file_size f (item_path item) (size_mb (snd item)) default_tolerance with
  | Ok true => true
  | _ => false
  end.

(** The directory after one call of [download_file]. *)
Definition fetched_fs (o : outcome) (p : path) (f : gmap path N) : gmap path N :=
  match o with
  | Responded r => if fetch_succeeds o then <[p := body_size r]> f else delete p f
  | Unreachable => delete p f
  end.

(** Every byte count the run can meet is below [2^53] (8 PiB), so that
    dividing it by [2^20] in binary64 is exact and never overflows. *)
Definition sizes_ok (f : gmap path N) : Prop :=
  forall p n, f !! p = Some n -> (n < 2 ^ 53)%N.
Definition bodies_ok (net : string -> outcome) : Prop :=
  forall url r, net url = Responded r -> (body_size r < 2 ^ 53)%N.
Definition world_ok (w : world) : Prop := sizes_ok (fs w) /\ bodies_ok (internet w).

Definition convertible (E : Z) : Prop := exists f, int_to_float E = Ok f.

(** The file an item ends the first loop with. *)
Definition settled (w : world) (item : string * model_info) : option N :=
  if verified_in (fs w) item then fs w !! item_path item
  else match internet w (item_url item) with
       | Responded r => if fetch_succeeds (Responded r) then Some (body_size r) else None
       | Unreachable => None
       end.

(** The URLs the first loop requests, in order. *)
Definition attempted (f : gmap path N) (cat : list (string * model_info)) : list string :=
  item_url <$> filter (fun item => verified_in f item = false) cat.

(** The entry the second loop writes for an item whose file has [n] bytes
    and whose size in megabytes came out as [mb]. *)
Definition manifest_entry (item : string * model_info) (n : N) (mb : float)
  : Manifest.entry :=
  {| Manifest.filename := item_path item;
     Manifest.size_bytes := n;
     Manifest.size_mb := round1 mb;
     Manifest.description := description (snd item);
     Manifest.format := "ggml-q5_1" |}.

(** The lines [main] prints before the first loop. *)
Definition prelude (w : world) : world :=
  log_line Blank (log_line ModelsDirectory (log_line Rule (log_line Banner w))).

Definition exit_status (m : Manifest.t) : Z :=
  if bool_decide (0 < size (Manifest.models m))%nat then 0 else 1.

(** A float that is positive: a positive finite number of the normal range,
    or plus infinity. *)
Definition positive_float (x : float) : Prop :=
  (exists m e, x = S754_finite false m e /\ -1074 <= Zpos (digits2_pos m) + e - 53)
  \/ x = S754_infinity false.

(** ** Notions for the properties of whole runs *)

(** What the [except] clause of [download_file] gets to report: the first
    thing that goes wrong, in the order the [try] block meets it. *)
Definition download_error (o : outcome) : option exn :=
  match o with
  | Unreachable => Some ConnectionError
  | Responded r =>
      if is_error_status (status_code r) then Some (HTTPError (status_code r))
      else if negb (header_ok (content_length r)) then Some ValueError
      else if truncated r then Some ChunkedEncodingError
      else None
  end.

(** The lines [main] prints once the manifest is written, for a manifest
    of [count] entries. *)
Definition summary (count : nat) : list line :=
  [CreatedManifest; Blank; SummaryHeader; ModelsDownloaded count; TotalSize; Location; Blank]
  ++ (if bool_decide (0 < count)%nat then [SetupComplete; Blank; FollowUp] else [NoModels]).

(** The catalog entries whose file is in the directory. *)
Definition present_in (f : gmap path N) : list (string * model_info) :=
  filter (fun item => is_Some (f !! item_path item)) MODELS.

(** A computation keeps the relation [R] between the world it starts in
    and the world it ends in, and raises only exceptions that satisfy [P]. *)
Definition keeps (R : world -> world -> Prop) (P : exn -> Prop) {A} (c : M A) : Prop :=
  forall w, R w (snd (c w))
            /\ match fst (c w) with Raise e => P e | Ok _ => True end.

(** ** Worlds used as concrete inputs *)

(** A world with an empty models directory whose network serves the three
    models at their catalog sizes. *)
Definition good_network (url : string) : outcome :=
  Responded {| status_code := 200;
               content_length := header_absent;
               chunks := if decide (url = "https://huggingface.co/ggerganov/whisper.cpp/resolve/main/ggml-tiny.en-q5_1.bin")
                         then [40894464%N]
                         else if decide (url = "https://huggingface.co/ggerganov/whisper.cpp/resolve/main/ggml-base.en-q5_1.bin")
                         then [155189248%N]
                         else [255852544%N];
               truncated := false |}.

Definition fresh_world (net : string -> outcome) (files : gmap path N) : world :=
  {| internet := net; clock := 1700000000; fs := files;
     manifest_json := None; requests := []; stdout := [] |}.

(** The network of [good_network], except that the smallest model is gone
    from the server. *)
Definition tiny_is_gone (url : string) : outcome :=
  if decide (url = "https://huggingface.co/ggerganov/whisper.cpp/resolve/main/ggml-tiny.en-q5_1.bin")
  then Responded {| status_code := 404; content_length := header_int 9;
                    chunks := [9%N]; truncated := false |}
  else good_network url.

(** A network on which every GET fails to connect. *)
Definition no_network (url : string) : outcome := Unreachable.

(** A server that answers every GET with 304 Not Modified and no body. *)
Definition not_modified (url : string) : outcome :=
  Responded {| status_code := 304; content_length := header_absent;
               chunks := []; truncated := false |}.

(** A server whose bodies are a single byte. *)
Definition tiny_bodies (url : string) : outcome :=
  Responded {| status_code := 200; content_length := header_int 1;
               chunks := [1%N]; truncated := false |}.

(** The same world at another time of day. *)
Definition at_time (t : Z) (w : world) : world :=
  {| internet := internet w; clock := t; fs := fs w;
     manifest_json := manifest_json w; requests := requests w; stdout := stdout w |}.

(** The second entry of the catalog. *)
Definition base_en : string * model_info :=
  ("base.en",
   {| original := "https://openaipublic.azureedge.net/main/whisper/models/25a8566e1d0c1e2231d1c762132cd20e0f96a85d16145c3a00adf5d1ac670ead/base.en.pt";
      ggml := "https://huggingface.co/ggerganov/whisper.cpp/resolve/main/ggml-base.en-q5_1.bin";
      size_mb := 148;
      description := "Balanced speed and accuracy - recommended default" |}).

(** A models directory that holds the smallest model at its catalog size
    and a file that is none of the script's. *)
Definition tiny_and_notes : gmap path N :=
  {[ "ggml-tiny.en-q5_1.bin" := 40894464%N; "notes.txt" := 12%N ]}.

(** A manifest left over from some earlier run. *)
Definition stale_manifest : Manifest.t :=
  {| Manifest.models := ∅; Manifest.created_at := "1999-12-31T23:59:59Z";
     Manifest.version := "0.0.1" |}.

(** The first entry of the catalog. *)
Definition tiny_en : string * model_info :=
  ("tiny.en",
   {| original := "https://openaipublic.azureedge.net/main/whisper/models/d3dd57d32accea0b295c96e26691aa14d8822fac7d9d27d5dc00b4ca2826dd03/tiny.en.pt";
      ggml := "https://huggingface.co/ggerganov/whisper.cpp/resolve/main/ggml-tiny.en-q5_1.bin";
      size_mb := 39;
      description := "Fastest, lowest accuracy - good for testing" |}).

(** * Sanity checks against CPython's values *)

Example default_tolerance_bits :
  default_tolerance = S754_finite false 7205759403792794 (-56).
Proof. reflexivity. Qed.

Example verify_39_lower_edge :
  verify_file_size {[ "f" := 36805018%N ]} "f" 39 default_tolerance = Ok true
  /\ verify_file_size {[ "f" := 36805017%N ]} "f" 39 default_tolerance = Ok false.
Proof. split; vm_compute; reflexivity. Qed.

(** * Facts about binary64 rounding *)

(** ** Binary digits *)

Section Digits.

Lemma digits2_pos_bounds (p : positive) :
  2 ^ (Zpos (digits2_pos p) - 1) <= Zpos p < 2 ^ Zpos (digits2_pos p).
Proof.
  induction p as [p IH | p IH |]; cbn [digits2_pos].
  - rewrite Pos2Z.inj_succ, Z.pow_succ_r by lia.
    replace (Z.succ (Zpos (digits2_pos p)) - 1) with (Z.succ (Zpos (digits2_pos p) - 1)) by lia.
    rewrite Z.pow_succ_r by lia. lia.
  - rewrite Pos2Z.inj_succ, Z.pow_succ_r by lia.
    replace (Z.succ (Zpos (digits2_pos p)) - 1) with (Z.succ (Zpos (digits2_pos p) - 1)) by lia.
    rewrite Z.pow_succ_r by lia. lia.
  - cbn. lia.
Qed.

Lemma digits2_pos_unique (p : positive) (d : Z) :
  2 ^ (d - 1) <= Zpos p < 2 ^ d -> Zpos (digits2_pos p) = d.
Proof.
  intros [Hlo Hhi].
  pose proof (digits2_pos_bounds p) as [Hlo' Hhi'].
  assert (0 < d).
  { destruct (Z.ltb_spec 0 d); [done|].
    destruct (Z.eq_dec d 0) as [->|]; [cbn in *; lia|].
    rewrite Z.pow_neg_r in Hhi by lia. lia. }
  destruct (Z.lt_trichotomy (Zpos (digits2_pos p)) d) as [Hlt | [Heq | Hgt]]; [|done|].
  - assert (2 ^ Zpos (digits2_pos p) <= 2 ^ (d - 1)) by (apply Z.pow_le_mono_r; lia). lia.
  - assert (2 ^ d <= 2 ^ (Zpos (digits2_pos p) - 1)) by (apply Z.pow_le_mono_r; lia). lia.
Qed.

End Digits.

Lemma div_eucl_exact (a b q : Z) :
  0 < b -> a = q * b -> Z.div_eucl a b = (q, 0).
Proof.
  intros Hb ->.
  pose proof (Z_div_mod (q * b) b ltac:(lia)) as H.
  destruct (Z.div_eucl (q * b) b) as [q' r']. destruct H as [H1 H2].
  assert (q' = q) by nia. subst. f_equal. lia.
Qed.

(** Rounding a 54-bit even mantissa: one exact shift. *)
Lemma binary_round_aux_even54 (pm : positive) (e : Z) :
  2 ^ 52 <= Zpos pm < 2 ^ 53 ->
  -1074 <= e + 1 <= 971 ->
  binary_round_aux Float64.prec Float64.emax false (Zpos pm~0) e loc_Exact
  = S754_finite false pm (e + 1).
Proof.
  intros Hm He.
  assert (Hd54 : Zpos (digits2_pos pm~0) = 54).
  { apply digits2_pos_unique. rewrite Pos2Z.inj_xO. change (54 - 1) with 53.
    change (2 ^ 54) with (2 * 2 ^ 53). change (2^53) with (2 * 2^52). lia. }
  assert (Hd53 : Zpos (digits2_pos pm) = 53).
  { apply digits2_pos_unique. exact Hm. }
  unfold binary_round_aux, shr_fexp, Zdigits2.
  rewrite Hd54.
  replace (fexp Float64.prec Float64.emax (54 + e) - e) with 1
    by (unfold fexp, emin, Float64.prec, Float64.emax; lia).
  cbn [shr shr_record_of_loc SpecFloat.iter_pos shr_1 orb loc_of_shr_record round_nearest_even shr_m shr_r shr_s].
  rewrite Hd53.
  replace (fexp Float64.prec Float64.emax (53 + (e + 1)) - (e + 1)) with 0
    by (unfold fexp, emin, Float64.prec, Float64.emax; lia).
  cbn [shr shr_m].
  replace (e + 1 <=? Float64.emax - Float64.prec) with true; [done|].
  symmetry. apply Z.leb_le. unfold Float64.emax, Float64.prec. lia.
Qed.

Lemma MiB_mantissa_spec (n : positive) :
  Zpos n < 2 ^ 53 ->
  let d := Zpos (digits2_pos n) in
  1 <= d <= 53 /\ Zpos (MiB_mantissa n) = Zpos n * 2 ^ (53 - d)
  /\ 2 ^ 52 <= Zpos (MiB_mantissa n) < 2 ^ 53.
Proof.
  intros Hn d.
  pose proof (digits2_pos_bounds n) as [Hlo Hhi]. fold d in Hlo, Hhi.
  assert (Hd : 1 <= d <= 53).
  { split; [unfold d; lia|].
    destruct (Z.leb_spec d 53); [done|].
    assert (2 ^ 53 <= 2 ^ (d - 1)) by (apply Z.pow_le_mono_r; lia). lia. }
  assert (Hp : 0 < 2 ^ (53 - d)) by (apply Z.pow_pos_nonneg; lia).
  assert (Hm : Zpos (MiB_mantissa n) = Zpos n * 2 ^ (53 - d)).
  { unfold MiB_mantissa. fold d. rewrite Z2Pos.id; [done|]. lia. }
  split; [done|]. split; [done|]. rewrite Hm.
  assert (E1 : 2 ^ (d - 1) * 2 ^ (53 - d) = 2 ^ 52).
  { rewrite <- Z.pow_add_r by lia. f_equal. lia. }
  assert (E2 : 2 ^ d * 2 ^ (53 - d) = 2 ^ 53).
  { rewrite <- Z.pow_add_r by lia. f_equal. lia. }
  split; [rewrite <- E1 | rewrite <- E2]; nia.
Qed.

Lemma int_truediv_MiB (n : positive) :
  Zpos n < 2 ^ 53 ->
  int_truediv (Zpos n) (1024 * 1024)
  = Ok (S754_finite false (MiB_mantissa n) (MiB_exponent n)).
Proof.
  intros Hn.
  destruct (MiB_mantissa_spec n Hn) as (Hd & Hm & Hr).
  set (d := Zpos (digits2_pos n)) in *.
  unfold int_truediv. change (1024 * 1024 =? 0) with false. cbv iota.
  change (Float64.exact_Z (1024 * 1024)) with (S754_finite false 1048576 0).
  cbn [Float64.exact_Z]. unfold Float64.div, SFdiv.
  assert (Hcore : SFdiv_core_binary Float64.prec Float64.emax (Zpos n) 0 (Zpos 1048576) 0
                  = (Zpos (MiB_mantissa n)~0, d - 74, loc_Exact)).
  { unfold SFdiv_core_binary, Zdigits2. fold d.
    change (Zpos (digits2_pos 1048576)) with 21.
    replace (Z.min (fexp Float64.prec Float64.emax (d + 0 - (21 + 0))) (0 - 0)) with (d - 74)
      by (unfold fexp, emin, Float64.prec, Float64.emax; lia).
    destruct (0 - 0 - (d - 74)) as [|s|s] eqn:Hs; [lia| |lia].
    rewrite Z.shiftl_mul_pow2 by lia. rewrite <- Hs.
    rewrite (div_eucl_exact _ _ (Zpos (MiB_mantissa n)~0)); [done|lia|].
    rewrite (Pos2Z.inj_xO (MiB_mantissa n)), Hm.
    replace (0 - 0 - (d - 74)) with ((53 - d) + 1 + 20) by lia.
    rewrite !Z.pow_add_r by lia. change (2 ^ 20) with 1048576. lia. }
  rewrite Hcore. cbn [xorb].
  rewrite binary_round_aux_even54 by (try done; lia).
  cbn [Float64.is_infinity]. unfold MiB_exponent. fold d. do 2 f_equal. lia.
Qed.

(** Order of two positive floats with full 53-bit mantissas, on a common
    scale [2^e0]. *)
Lemma leb_normal (m1 m2 : positive) (e1 e2 e0 : Z) :
  2 ^ 52 <= Zpos m1 < 2 ^ 53 ->
  2 ^ 52 <= Zpos m2 < 2 ^ 53 ->
  e0 <= e1 -> e0 <= e2 ->
  Float64.leb (S754_finite false m1 e1) (S754_finite false m2 e2) = true
  <-> Zpos m1 * 2 ^ (e1 - e0) <= Zpos m2 * 2 ^ (e2 - e0).
Proof.
  intros H1 H2 He1 He2.
  unfold Float64.leb, SFleb, SFcompare.
  rewrite Pos.compare_cont_spec. cbn [Pos.switch_Eq].
  assert (P1 : 0 < 2 ^ (e1 - e0)) by (apply Z.pow_pos_nonneg; lia).
  assert (P2 : 0 < 2 ^ (e2 - e0)) by (apply Z.pow_pos_nonneg; lia).
  destruct (Z.compare_spec e1 e2) as [-> | Hlt | Hgt].
  - destruct (Pos.compare_spec m1 m2) as [-> | Hm | Hm]; split; intros; try done; try nia.
  - split; [intros _ | done].
    assert (2 * 2 ^ (e1 - e0) <= 2 ^ (e2 - e0)).
    { rewrite <- Z.pow_succ_r by lia. apply Z.pow_le_mono_r; lia. }
    change (2 ^ 53) with (2 * 2 ^ 52) in H1. nia.
  - split; [done | intros Hle; exfalso].
    assert (2 * 2 ^ (e2 - e0) <= 2 ^ (e1 - e0)).
    { rewrite <- Z.pow_succ_r by lia. apply Z.pow_le_mono_r; lia. }
    change (2 ^ 53) with (2 * 2 ^ 52) in H2. nia.
Qed.

Lemma MiB_scaled (n : positive) :
  Zpos n < 2 ^ 53 ->
  Zpos (MiB_mantissa n) * 2 ^ (MiB_exponent n - (-73)) = Zpos n * 2 ^ 53.
Proof.
  intros Hn. destruct (MiB_mantissa_spec n Hn) as (Hd & Hm & _).
  rewrite Hm. unfold MiB_exponent.
  rewrite <- Z.mul_assoc, <- Z.pow_add_r by lia. do 2 f_equal. lia.
Qed.

(** One catalog size, with the two bounds [lo] and [hi] that binary64
    gives: both comparisons are moved to the integers on the scale
    [2^-73], and what is left is linear in the byte count. *)
Local Ltac settle_catalog_size n lo hi Hs :=
  exists (Float64.leb lo (S754_finite false (MiB_mantissa n) (MiB_exponent n))
          && Float64.leb (S754_finite false (MiB_mantissa n) (MiB_exponent n)) hi);
  split;
  [ reflexivity
  | rewrite andb_true_iff, !(leb_normal _ _ _ _ (-73)) by (try done; lia);
    rewrite Hs; cbn; lia ].

Lemma verify_file_size_catalog (fs : gmap string N) (p : string) (n : N) (E : Z) :
  E ∈ catalog_sizes ->
  fs !! p = Some n ->
  (n < 2 ^ 53)%N ->
  exists b, verify_file_size fs p E default_tolerance = Ok b
            /\ (b = true <-> within_tolerance E (1 # 10) n).
Proof.
  intros HE Hp Hn. unfold verify_file_size. rewrite Hp.
  assert (Hn' : Z.of_N n < 2 ^ 53) by lia.
  unfold within_tolerance, size_in_MB, Qle; cbn [Z.of_N Qnum Qden].
  unfold catalog_sizes in HE. cbn in HE.
  destruct n as [|n]; cbn [Z.of_N].
  - (* an empty file *)
    change (int_truediv 0 (1024 * 1024)) with (Ok (S754_zero false)).
    repeat (apply elem_of_cons in HE as [-> | HE]); [ | | | by apply elem_of_nil in HE];
      (eexists; split; [vm_compute; reflexivity | cbn; split; [done | lia]]).
  - rewrite int_truediv_MiB by done.
    destruct (MiB_mantissa_spec n Hn') as (Hd & _ & Hr).
    pose proof (MiB_scaled n Hn') as Hs.
    assert (He0 : -73 <= MiB_exponent n) by (unfold MiB_exponent; lia).
    repeat (apply elem_of_cons in HE as [-> | HE]); [ | | | by apply elem_of_nil in HE].
    + settle_catalog_size n (S754_finite false 4939885841272013 (-47))
        (S754_finite false 6037638250443572 (-47)) Hs.
    + settle_catalog_size n (S754_finite false 4686558362232423 (-45))
        (S754_finite false 5728015776061850 (-45)) Hs.
    + settle_catalog_size n (S754_finite false 7726488110707507 (-45))
        (S754_finite false 4721742734321255 (-44)) Hs.
Qed.

(** ** Right shifts and the sign of a rounded number *)

Section Shifts.

Lemma shr_1_m (r : shr_record) :
  0 <= shr_m r -> shr_m (shr_1 r) = shr_m r / 2.
Proof.
  destruct r as [m r s]. cbn [shr_m]. intros Hm.
  destruct m as [|p|p]; [reflexivity | | lia].
  destruct p as [p|p|]; cbn [shr_1 shr_m].
  - apply Z.div_unique with (r := 1); lia.
  - apply Z.div_unique with (r := 0); lia.
  - reflexivity.
Qed.

Lemma shr_iter_m (k : positive) (r : shr_record) :
  0 <= shr_m r ->
  shr_m (SpecFloat.iter_pos shr_1 k r) = shr_m r / 2 ^ Zpos k.
Proof.
  revert r. induction k as [k IH | k IH |]; intros r Hr; cbn [SpecFloat.iter_pos].
  - assert (H1 : 0 <= shr_m (shr_1 r)) by (rewrite shr_1_m by done; apply Z.div_pos; lia).
    assert (H2 : 0 <= shr_m (SpecFloat.iter_pos shr_1 k (shr_1 r))).
    { rewrite IH by done. apply Z.div_pos; [done|]. apply Z.pow_pos_nonneg; lia. }
    rewrite IH, IH, shr_1_m by done.
    assert (P : 0 < 2 ^ Zpos k) by (apply Z.pow_pos_nonneg; lia).
    rewrite !Z.div_div by lia. f_equal.
    replace (Zpos k~1) with (1 + Zpos k + Zpos k) by lia.
    rewrite !Z.pow_add_r by lia. change (2 ^ 1) with 2. lia.
  - assert (H2 : 0 <= shr_m (SpecFloat.iter_pos shr_1 k r)).
    { rewrite IH by done. apply Z.div_pos; [done|]. apply Z.pow_pos_nonneg; lia. }
    rewrite IH, IH by done.
    assert (P : 0 < 2 ^ Zpos k) by (apply Z.pow_pos_nonneg; lia).
    rewrite !Z.div_div by lia. f_equal.
    replace (Zpos k~0) with (Zpos k + Zpos k) by lia.
    rewrite !Z.pow_add_r by lia. lia.
  - rewrite shr_1_m by done. reflexivity.
Qed.

Lemma shr_record_of_loc_m (m : Z) (l : location) : shr_m (shr_record_of_loc m l) = m.
Proof. by destruct l as [|[]]. Qed.

Lemma round_nearest_even_ge (m : Z) (l : location) : m <= round_nearest_even m l <= m + 1.
Proof. destruct l as [|[]]; cbn; try lia. destruct (Z.even m); lia. Qed.

Lemma digits2_pos_lower (p : positive) (x : Z) :
  0 <= x -> 2 ^ x <= Zpos p -> x + 1 <= Zpos (digits2_pos p).
Proof.
  intros Hx Hp. pose proof (digits2_pos_bounds p) as [_ Hhi].
  destruct (Z.leb_spec (x + 1) (Zpos (digits2_pos p))); [done|].
  assert (2 ^ Zpos (digits2_pos p) <= 2 ^ x) by (apply Z.pow_le_mono_r; lia). lia.
Qed.

(** The first step of rounding, on a positive mantissa of the normal
    range: the leading bit survives the shift. *)
Lemma shr_fexp_positive (m : positive) (e : Z) (l : location) :
  -1074 <= Zpos (digits2_pos m) + e - 53 ->
  let r := shr_fexp Float64.prec Float64.emax (Zpos m) e l in
  let x := Zpos (digits2_pos m) + e - 1 - snd r in
  0 <= x /\ 2 ^ x <= shr_m (fst r).
Proof.
  intros Hn.
  pose proof (digits2_pos_bounds m) as [Hlo Hhi].
  unfold shr_fexp, Zdigits2.
  replace (fexp Float64.prec Float64.emax (Zpos (digits2_pos m) + e) - e)
    with (Zpos (digits2_pos m) - 53)
    by (unfold fexp, emin, Float64.prec, Float64.emax; lia).
  destruct (Zpos (digits2_pos m) - 53) as [|k|k] eqn:Hk; cbn [shr fst snd].
  - rewrite shr_record_of_loc_m. split; [lia|].
    replace (Zpos (digits2_pos m) + e - 1 - e) with (Zpos (digits2_pos m) - 1) by lia. done.
  - rewrite shr_iter_m, shr_record_of_loc_m by (rewrite shr_record_of_loc_m; lia).
    split; [lia|].
    apply Z.div_le_lower_bound; [apply Z.pow_pos_nonneg; lia|].
    rewrite <- Z.pow_add_r by lia.
    replace (Zpos k + (Zpos (digits2_pos m) + e - 1 - (e + Zpos k)))
      with (Zpos (digits2_pos m) - 1) by lia.
    done.
  - rewrite shr_record_of_loc_m. split; [lia|].
    replace (Zpos (digits2_pos m) + e - 1 - e) with (Zpos (digits2_pos m) - 1) by lia. done.
Qed.

(** Rounding a positive number of the normal range gives a positive
    number of the normal range, or overflows. *)
Lemma binary_round_aux_positive (m : positive) (e : Z) (l : location) :
  -1074 <= Zpos (digits2_pos m) + e - 53 ->
  positive_float (binary_round_aux Float64.prec Float64.emax false (Zpos m) e l).
Proof.
  intros Hn. unfold binary_round_aux.
  pose proof (shr_fexp_positive m e l Hn) as Hs. cbv zeta in Hs.
  destruct (shr_fexp Float64.prec Float64.emax (Zpos m) e l) as [r1 e1].
  cbn [fst snd] in Hs. destruct Hs as [Hx Hs].
  pose proof (round_nearest_even_ge (shr_m r1) (loc_of_shr_record r1)) as Hr.
  assert (0 < 2 ^ (Zpos (digits2_pos m) + e - 1 - e1)) by (apply Z.pow_pos_nonneg; lia).
  destruct (round_nearest_even (shr_m r1) (loc_of_shr_record r1)) as [|m1|m1]; try lia.
  pose proof (digits2_pos_lower m1 _ Hx ltac:(lia)) as Hd1.
  assert (Hn1 : -1074 <= Zpos (digits2_pos m1) + e1 - 53) by lia.
  pose proof (shr_fexp_positive m1 e1 loc_Exact Hn1) as Hs2. cbv zeta in Hs2.
  destruct (shr_fexp Float64.prec Float64.emax (Zpos m1) e1 loc_Exact) as [r2 e2].
  cbn [fst snd] in Hs2. destruct Hs2 as [Hx2 Hs2].
  assert (0 < 2 ^ (Zpos (digits2_pos m1) + e1 - 1 - e2)) by (apply Z.pow_pos_nonneg; lia).
  destruct (shr_m r2) as [|m2|m2]; try lia.
  destruct (e2 <=? Float64.emax - Float64.prec); [left | by right].
  exists m2, e2. split; [done|].
  pose proof (digits2_pos_lower m2 _ Hx2 Hs2). lia.
Qed.

End Shifts.

Lemma iter_xO_Z (k m : positive) : Zpos (Pos.iter xO m k) = Zpos m * 2 ^ Zpos k.
Proof.
  induction k as [|k IH] using Pos.peano_ind.
  - cbn. lia.
  - rewrite Pos.iter_succ, Pos2Z.inj_xO, IH, Pos2Z.inj_succ, Z.pow_succ_r by lia. lia.
Qed.

(** A mantissa that already has 53 bits is kept as it is. *)
Lemma binary_round_aux_exact53 (m : positive) (e : Z) :
  2 ^ 52 <= Zpos m < 2 ^ 53 ->
  -1074 <= e <= 971 ->
  binary_round_aux Float64.prec Float64.emax false (Zpos m) e loc_Exact
  = S754_finite false m e.
Proof.
  intros Hm He.
  assert (Hd : Zpos (digits2_pos m) = 53) by (apply digits2_pos_unique; exact Hm).
  unfold binary_round_aux, shr_fexp, Zdigits2. rewrite Hd.
  replace (fexp Float64.prec Float64.emax (53 + e) - e) with 0
    by (unfold fexp, emin, Float64.prec, Float64.emax; lia).
  cbn [shr shr_record_of_loc loc_of_shr_record round_nearest_even shr_m shr_r shr_s].
  rewrite Hd.
  replace (fexp Float64.prec Float64.emax (53 + e) - e) with 0
    by (unfold fexp, emin, Float64.prec, Float64.emax; lia).
  cbn [shr shr_m].
  replace (e <=? Float64.emax - Float64.prec) with true; [done|].
  symmetry. apply Z.leb_le. unfold Float64.emax, Float64.prec. lia.
Qed.

(** Integers of at most 53 bits convert without rounding. *)
Lemma int_to_float_exact (n : positive) :
  Zpos n < 2 ^ 53 ->
  int_to_float (Zpos n)
  = Ok (S754_finite false (MiB_mantissa n) (Zpos (digits2_pos n) - 53)).
Proof.
  intros Hn.
  destruct (MiB_mantissa_spec n Hn) as (Hd & Hm & Hr).
  set (d := Zpos (digits2_pos n)) in *.
  unfold int_to_float, Float64.of_Z, binary_normalize, binary_round.
  fold d.
  replace (fexp Float64.prec Float64.emax (d + 0)) with (d - 53)
    by (unfold fexp, emin, Float64.prec, Float64.emax; lia).
  unfold shl_align.
  destruct (d - 53 - 0) as [|k|k] eqn:Hk; [|lia|].
  - assert (Hmn : MiB_mantissa n = n).
    { apply Pos2Z.inj. rewrite Hm. replace (53 - d) with 0 by lia. lia. }
    rewrite Hmn in *.
    rewrite binary_round_aux_exact53 by (try done; lia).
    cbn [Float64.is_infinity]. do 2 f_equal. lia.
  - assert (Hmn : Pos.iter xO n k = MiB_mantissa n).
    { apply Pos2Z.inj. rewrite Hm, iter_xO_Z. do 2 f_equal. lia. }
    rewrite Hmn.
    rewrite binary_round_aux_exact53 by (try done; lia).
    reflexivity.
Qed.

Section Positive.

Lemma shl_align_fst (m : positive) (e e' : Z) :
  e' <= e -> Zpos (fst (shl_align m e e')) = Zpos m * 2 ^ (e - e').
Proof.
  intros He. unfold shl_align. destruct (e' - e) as [|d|d] eqn:Hd; cbn [fst]; try lia.
  - replace (e - e') with 0 by lia. lia.
  - rewrite iter_xO_Z. do 2 f_equal. lia.
Qed.

Lemma digits2_pos_shift (m : positive) (k : positive) :
  Zpos (digits2_pos (Pos.iter xO m k)) = Zpos (digits2_pos m) + Zpos k.
Proof.
  apply digits2_pos_unique. rewrite iter_xO_Z.
  pose proof (digits2_pos_bounds m) as [Hlo Hhi].
  replace (Zpos (digits2_pos m) + Zpos k - 1) with (Zpos (digits2_pos m) - 1 + Zpos k) by lia.
  rewrite !Z.pow_add_r by lia.
  assert (0 < 2 ^ Zpos k) by (apply Z.pow_pos_nonneg; lia). nia.
Qed.

(** [binary_round] first aligns the mantissa, which keeps the magnitude. *)
Lemma binary_round_positive (m : positive) (e : Z) :
  -1074 <= Zpos (digits2_pos m) + e - 53 ->
  positive_float (binary_round Float64.prec Float64.emax false m e).
Proof.
  intros Hn. unfold binary_round, shl_align.
  destruct (fexp Float64.prec Float64.emax (Zpos (digits2_pos m) + e) - e) as [|d|d] eqn:Hd.
  - by apply binary_round_aux_positive.
  - by apply binary_round_aux_positive.
  - apply binary_round_aux_positive. rewrite digits2_pos_shift.
    unfold fexp, emin, Float64.prec, Float64.emax in *. lia.
Qed.

Lemma digits2_pos_mul (a b : positive) :
  Zpos (digits2_pos a) + Zpos (digits2_pos b) - 1 <= Zpos (digits2_pos (a * b)).
Proof.
  pose proof (digits2_pos_bounds a) as [Ha _].
  pose proof (digits2_pos_bounds b) as [Hb _].
  replace (Zpos (digits2_pos a) + Zpos (digits2_pos b) - 1)
    with ((Zpos (digits2_pos a) - 1 + (Zpos (digits2_pos b) - 1)) + 1) by lia.
  apply digits2_pos_lower; [lia|].
  rewrite Z.pow_add_r by lia. rewrite Pos2Z.inj_mul.
  assert (0 < 2 ^ (Zpos (digits2_pos a) - 1)) by (apply Z.pow_pos_nonneg; lia).
  assert (0 < 2 ^ (Zpos (digits2_pos b) - 1)) by (apply Z.pow_pos_nonneg; lia).
  nia.
Qed.

(** The product of a positive integer of at most 53 bits and a positive
    float is positive. *)
Lemma int_mul_float_positive (n : positive) (x : float) :
  Zpos n < 2 ^ 53 ->
  positive_float x ->
  exists y, int_mul_float (Zpos n) x = Ok y /\ positive_float y.
Proof.
  intros Hn Hx. unfold int_mul_float. rewrite int_to_float_exact by done.
  cbn [result_bind]. eexists. split; [reflexivity|].
  destruct Hx as [(m & e & -> & Hmag) | ->]; [|by right].
  unfold Float64.mul, SFmul. cbn [xorb].
  destruct (MiB_mantissa_spec n Hn) as (Hd & _ & Hr).
  apply binary_round_aux_positive.
  pose proof (digits2_pos_mul (MiB_mantissa n) m).
  assert (Zpos (digits2_pos (MiB_mantissa n)) = 53) by (by apply digits2_pos_unique).
  lia.
Qed.

(** The integer that [SFsub] hands to rounding when it computes [1 - t]
    for a positive [t] below one, on the scale [2^ez]: it is positive, and
    stands for a value of at least [2^-53]. *)
Lemma one_minus_difference (m : positive) (e : Z) :
  Zpos m < 2 ^ 53 ->
  e < -52 \/ (e = -52 /\ Zpos m < 2 ^ 52) ->
  let ez := Z.min (-52) e in
  0 < 2 ^ (- ez) - Zpos m * 2 ^ (e - ez)
  /\ (ez <= -53 -> 2 ^ (-53 - ez) <= 2 ^ (- ez) - Zpos m * 2 ^ (e - ez)).
Proof.
  intros Hm [He | [-> Hm52]]; cbv zeta.
  - rewrite Z.min_r by lia. rewrite Z.sub_diag. change (2 ^ 0) with 1.
    assert (H53 : 2 ^ 53 <= 2 ^ (- e)) by (apply Z.pow_le_mono_r; lia).
    split; [lia|]. intros _.
    destruct (Z.eq_dec e (-53)) as [-> | Hne].
    + change (-53 - -53) with 0. change (2 ^ 0) with 1. lia.
    + assert (H1 : 2 ^ 53 <= 2 ^ (- e - 1)) by (apply Z.pow_le_mono_r; lia).
      assert (H2 : 2 ^ (- e) = 2 * 2 ^ (- e - 1)).
      { rewrite <- Z.pow_succ_r by lia. f_equal. lia. }
      assert (H3 : 2 ^ (-53 - e) <= 2 ^ (- e - 1)) by (apply Z.pow_le_mono_r; lia).
      rewrite H2. clear H2 H53. lia.
  - rewrite Z.min_id. change (-52 - -52) with 0. change (- -52) with 52.
    change (2 ^ 0) with 1. split; lia.
Qed.

(** [1 - t] is positive for every valid [t] below one. *)
Lemma one_minus_positive (t : float) :
  valid_binary Float64.prec Float64.emax t = true ->
  SFltb t (Float64.of_Z 1) = true ->
  positive_float (Float64.sub (Float64.of_Z 1) t).
Proof.
  intros Hvalid Hlt.
  change (Float64.of_Z 1) with (S754_finite false 4503599627370496 (-52)) in *.
  destruct t as [s | s | | s m e].
  - left. exists 4503599627370496%positive, (-52). split; [reflexivity | cbn; lia].
  - destruct s; [by right | done].
  - done.
  - cbn [valid_binary] in Hvalid. unfold bounded, canonical_mantissa in Hvalid.
    apply andb_true_iff in Hvalid as [Hcanon _]. apply Z.eqb_eq in Hcanon.
    assert (Hdm : Zpos (digits2_pos m) <= 53 /\ -1074 <= e).
    { unfold fexp, emin, Float64.prec, Float64.emax in Hcanon. lia. }
    clear Hcanon.
    assert (Hm53 : Zpos m < 2 ^ 53).
    { pose proof (digits2_pos_bounds m) as [_ Hm].
      eapply Z.lt_le_trans; [exact Hm|]. apply Z.pow_le_mono_r; lia. }
    unfold Float64.sub, SFsub.
    set (ez := Z.min (-52) e).
    assert (Hez : ez <= -52 /\ ez <= e) by (unfold ez; lia).
    rewrite !shl_align_fst by lia.
    change (Zpos 4503599627370496) with (2 ^ 52).
    rewrite <- Z.pow_add_r by lia.
    replace (52 + (-52 - ez)) with (- ez) by lia.
    assert (Hdiff : exists D : positive,
               cond_Zopp false (2 ^ (- ez)) - cond_Zopp s (Zpos m * 2 ^ (e - ez)) = Zpos D
               /\ (ez <= -53 -> 2 ^ (-53 - ez) <= Zpos D)).
    { destruct s; cbn [cond_Zopp].
      - (* 1 + |t| *)
        assert (Hp1 : 0 < 2 ^ (- ez)) by (apply Z.pow_pos_nonneg; lia).
        assert (Hp2 : 0 < 2 ^ (e - ez)) by (apply Z.pow_pos_nonneg; lia).
        assert (Hmono : 2 ^ (-53 - ez) <= 2 ^ (- ez)) by (apply Z.pow_le_mono_r; lia).
        assert (Hprod : 0 < Zpos m * 2 ^ (e - ez)) by (apply Z.mul_pos_pos; lia).
        exists (Z.to_pos (2 ^ (- ez) - - (Zpos m * 2 ^ (e - ez)))).
        rewrite Z2Pos.id by lia. split; [done|]. intros _. lia.
      - (* 1 - t with t < 1 *)
        assert (Hcases : e < -52 \/ (e = -52 /\ Zpos m < 2 ^ 52)).
        { unfold SFltb, SFcompare in Hlt.
          destruct (Z.compare_spec e (-52)) as [He | He | He]; try done; [right | by left].
          rewrite Pos.compare_cont_spec in Hlt. cbn [Pos.switch_Eq] in Hlt.
          destruct (Pos.compare_spec m 4503599627370496) as [|Hmlt|]; done. }
        destruct (one_minus_difference m e Hm53 Hcases) as [Hpos Hlow]. fold ez in Hpos, Hlow.
        exists (Z.to_pos (2 ^ (- ez) - Zpos m * 2 ^ (e - ez))).
        rewrite Z2Pos.id by exact Hpos. split; [done | exact Hlow]. }
    destruct Hdiff as (D & -> & HD).
    unfold binary_normalize. apply binary_round_positive.
    destruct (Z.leb_spec ez (-53)) as [Hle | Hgt].
    + pose proof (digits2_pos_lower D (-53 - ez) ltac:(lia) (HD Hle)). lia.
    + pose proof (digits2_pos_bounds D) as [_ HDhi].
      assert (1 <= Zpos (digits2_pos D)) by lia. lia.
Qed.

Lemma leb_positive_zero (x : float) (s : bool) :
  positive_float x -> Float64.leb x (S754_zero s) = false.
Proof. by intros [(m & e & -> & _) | ->]. Qed.

Lemma verify_file_size_empty_file (fs : gmap string N) (p : string) (E : Z) (t : float) :
  0 < E < 2 ^ 53 ->
  valid_binary Float64.prec Float64.emax t = true ->
  SFltb t (Float64.of_Z 1) = true ->
  fs !! p = Some 0%N ->
  verify_file_size fs p E t = Ok false.
Proof.
  intros [HE0 HE] Hvalid Hlt Hp. unfold verify_file_size. rewrite Hp.
  change (int_truediv (Z.of_N 0) (1024 * 1024)) with (Ok (S754_zero false)).
  change (int_sub_float 1 t) with (Ok (Float64.sub (Float64.of_Z 1) t)).
  change (int_add_float 1 t) with (Ok (Float64.add (Float64.of_Z 1) t)).
  cbn [result_bind].
  destruct E as [|n|n]; try lia.
  destruct (int_mul_float_positive n _ HE (one_minus_positive t Hvalid Hlt))
    as (lo & -> & Hlo).
  cbn [result_bind].
  unfold int_mul_float. rewrite int_to_float_exact by done. cbn [result_bind].
  by rewrite leb_positive_zero.
Qed.

End Positive.

(** * Running monadic code *)

Section Monad.

Lemma bind_print {B} (l : line) (k : unit -> M B) (w : world) :
  bind (print l) k w = k tt (log_line l w).
Proof. reflexivity. Qed.

Lemma bind_bind {A B C} (c : M A) (k : A -> M B) (h : B -> M C) (w : world) :
  bind (bind c k) h w = bind c (fun a => bind (k a) h) w.
Proof. unfold bind. by destruct (c w) as [[a|e] w']. Qed.

Lemma bind_value {A B} (c : M A) (k : A -> M B) (w w' : world) (a : A) :
  c w = (Ok a, w') -> bind c k w = k a w'.
Proof. intros H. unfold bind. by rewrite H. Qed.

Lemma bind_raise {A B} (c : M A) (k : A -> M B) (w w' : world) (e : exn) :
  c w = (Raise e, w') -> bind c k w = (Raise e, w').
Proof. intros H. unfold bind. by rewrite H. Qed.

Lemma try_except_raise {A} (body : M A) (handler : exn -> M A) (w w' : world) (e : exn) :
  body w = (Raise e, w') -> is_Exception e = true ->
  try_except body handler w = handler e w'.
Proof. intros Hb He. unfold try_except. by rewrite Hb, He. Qed.

End Monad.

(** * The fetcher *)

Section Download.

Lemma write_chunks (p : string) (cs : list N) (w : world) (cur : N) :
  fs w !! p = Some cur ->
  for_each cs (fun chunk => if (0 <? chunk)%N then file_write p chunk else ret tt) w
  = (Ok tt, set_fs <[p := (cur + foldr N.add 0 cs)%N]> w).
Proof.
  revert w cur. induction cs as [|c cs IH]; intros w cur Hp; cbn [for_each foldr].
  - unfold ret. f_equal. rewrite N.add_0_r. destruct w as [i c f m r s]; cbn in *.
    unfold set_fs; cbn. f_equal. by rewrite insert_id.
  - unfold bind. destruct (N.ltb_spec 0 c) as [Hc | Hc].
    + unfold file_write at 1. rewrite (IH _ (cur + c)%N).
      * f_equal. unfold set_fs; cbn. f_equal. rewrite Hp; cbn.
        rewrite insert_insert_eq. f_equal. lia.
      * cbn. rewrite Hp. cbn. by rewrite lookup_insert_eq.
    + unfold ret at 1. rewrite (IH _ cur Hp). do 3 f_equal. lia.
Qed.

Lemma download_file_succeeds (url : string) (p : string) (d : string) (w : world) (r : response) :
  internet w url = Responded r ->
  fetch_succeeds (Responded r) = true ->
  download_file url p d w
  = (Ok true,
     {| internet := internet w; clock := clock w;
        fs := <[p := body_size r]> (fs w);
        manifest_json := manifest_json w;
        requests := requests w ++ [url];
        stdout := stdout w |}).
Proof.
  intros Hnet Hok. cbn in Hok.
  apply andb_true_iff in Hok as [Hok Htr]. apply andb_true_iff in Hok as [Hst Hh].
  apply negb_true_iff in Hst, Htr.
  unfold download_file, try_except, bind, requests_get. rewrite Hnet.
  unfold raise_for_status. rewrite Hst. unfold ret at 1.
  assert (Hcl : exists n, content_length_int r = ret n).
  { unfold content_length_int. destruct (content_length r); eauto. done. }
  destruct Hcl as [n ->]. unfold ret at 1. unfold open_wb.
  unfold iter_content, bind.
  rewrite (write_chunks p (chunks r) _ 0%N) by (cbn; by rewrite lookup_insert_eq).
  rewrite Htr. unfold ret, body_size, set_fs, log_request. cbn.
  by rewrite insert_insert_eq.
Qed.

(** The [except] clause of [download_file]. *)
Lemma download_file_handler (url p : string) (e : exn) (w : world) :
  (print (ErrorDownloading url e) ;;
   do present <- path_exists p ;
   (if present then unlink p else ret tt) ;; ret false)%M w
  = (Ok false, set_fs (delete p) (log_line (ErrorDownloading url e) w)).
Proof.
  unfold bind, print, path_exists, unlink, ret. cbn.
  case_bool_decide as Hex; [done|].
  f_equal. unfold set_fs; cbn. f_equal.
  rewrite delete_id; [done|]. by apply eq_None_not_Some.
Qed.

Lemma download_file_fails (url : string) (p : string) (d : string) (w : world) :
  fetch_succeeds (internet w url) = false ->
  exists e,
    download_file url p d w
    = (Ok false,
       {| internet := internet w; clock := clock w;
          fs := delete p (fs w);
          manifest_json := manifest_json w;
          requests := requests w ++ [url];
          stdout := stdout w ++ [ErrorDownloading url e] |}).
Proof.
  intros Hfail. unfold download_file.
  destruct (internet w url) as [|r] eqn:Hnet.
  { exists ConnectionError.
    erewrite try_except_raise; [ | unfold bind, requests_get; by rewrite Hnet | done].
    apply download_file_handler. }
  destruct (is_error_status (status_code r)) eqn:Hst.
  { exists (HTTPError (status_code r)).
    erewrite try_except_raise; cycle 1.
    { unfold bind, requests_get, raise_for_status. rewrite Hnet. by rewrite Hst. }
    { done. }
    apply download_file_handler. }
  destruct (header_ok (content_length r)) eqn:Hh.
  2:{ exists ValueError.
      erewrite try_except_raise; cycle 1.
      { unfold bind, requests_get, raise_for_status, content_length_int. rewrite Hnet.
        rewrite Hst.
        destruct (content_length r); done. }
      { done. }
      apply download_file_handler. }
  destruct (truncated r) eqn:Htr.
  2:{ cbn in Hfail. by rewrite Hst, Hh, Htr in Hfail. }
  exists ChunkedEncodingError.
  erewrite try_except_raise; cycle 1.
  { unfold bind at 1, requests_get. rewrite Hnet.
      unfold bind at 1, raise_for_status. rewrite Hst. unfold ret at 1.
      unfold bind at 1.
      assert (Hcl : exists n, content_length_int r = ret n).
      { unfold content_length_int. destruct (content_length r); eauto. done. }
      destruct Hcl as [n ->]. unfold ret at 1.
      unfold bind at 1, open_wb. unfold bind at 1, iter_content, bind at 1.
      rewrite (write_chunks p (chunks r) _ 0%N) by (cbn; by rewrite lookup_insert_eq).
      rewrite Htr. unfold raise. reflexivity. }
  { done. }
  rewrite download_file_handler.
  unfold set_fs, log_line, log_request. cbn. do 2 f_equal.
  by rewrite insert_insert_eq, delete_insert_eq.
Qed.

End Download.

(** * The size verifier never raises on the catalog *)

Section Verify.

Lemma verify_file_size_missing (f : gmap string N) (p : string) (E : Z) (t : float) :
  f !! p = None -> verify_file_size f p E t = Ok false.
Proof. intros H. unfold verify_file_size. by rewrite H. Qed.

Lemma verify_file_size_local (f g : gmap string N) (p : string) (E : Z) (t : float) :
  f !! p = g !! p -> verify_file_size f p E t = verify_file_size g p E t.
Proof. intros H. unfold verify_file_size. by rewrite H. Qed.

Lemma int_truediv_total (n : N) :
  (n < 2 ^ 53)%N -> exists x, int_truediv (Z.of_N n) (1024 * 1024) = Ok x.
Proof.
  intros Hn. destruct n as [|n]; cbn [Z.of_N].
  - by exists (S754_zero false).
  - rewrite int_truediv_MiB by lia. eauto.
Qed.

Lemma verify_file_size_total (f : gmap string N) (p : string) (E : Z) :
  sizes_ok f -> convertible E ->
  exists b, verify_file_size f p E default_tolerance = Ok b.
Proof.
  intros Hf [x Hx]. unfold verify_file_size.
  destruct (f !! p) as [n|] eqn:Hp; [|eauto].
  destruct (int_truediv_total n (Hf _ _ Hp)) as [a ->].
  change (int_sub_float 1 default_tolerance)
    with (Ok (S754_finite false 8106479329266893 (-53))).
  change (int_add_float 1 default_tolerance)
    with (Ok (S754_finite false 4953959590107546 (-52))).
  unfold int_mul_float. rewrite Hx. cbn [result_bind]. eauto.
Qed.

End Verify.

(** * The two loops of [main] *)

Section FirstLoop.

Lemma sizes_ok_insert (f : gmap string N) (p : string) (n : N) :
  sizes_ok f -> (n < 2 ^ 53)%N -> sizes_ok (<[p := n]> f).
Proof.
  intros Hf Hn q m. rewrite lookup_insert. case_decide; [naive_solver|]. apply Hf.
Qed.

Lemma sizes_ok_delete (f : gmap string N) (p : string) :
  sizes_ok f -> sizes_ok (delete p f).
Proof.
  intros Hf q m. rewrite lookup_delete. case_decide; [done|]. apply Hf.
Qed.

Lemma sizes_ok_fetched (o : outcome) (p : string) (f : gmap string N) :
  sizes_ok f -> (forall r, o = Responded r -> (body_size r < 2 ^ 53)%N) ->
  sizes_ok (fetched_fs o p f).
Proof.
  intros Hf Ho. unfold fetched_fs. destruct o as [|r].
  - by apply sizes_ok_delete.
  - destruct (fetch_succeeds _); [apply sizes_ok_insert; auto | by apply sizes_ok_delete].
Qed.

(** The test [ggml_filepath.exists() and verify_file_size(...)]. *)
Lemma precheck (p : string) (E : Z) (w : world) :
  (do present <- path_exists p ;
   if present then verify p E else ret false)%M w
  = (verify_file_size (fs w) p E default_tolerance, w).
Proof.
  unfold bind, path_exists, verify, ret.
  case_bool_decide as Hex; [done|].
  rewrite verify_file_size_missing; [done|]. by apply eq_None_not_Some.
Qed.

Lemma verify_run (p : string) (E : Z) (w : world) :
  verify p E w = (verify_file_size (fs w) p E default_tolerance, w).
Proof. reflexivity. Qed.

Lemma process_model_skip (name : string) (info : model_info) (w : world) :
  verify_file_size (fs w) (ggml_filename_of name) (size_mb info) default_tolerance = Ok true ->
  process_model (name, info) w
  = (Ok tt,
     {| internet := internet w; clock := clock w; fs := fs w;
        manifest_json := manifest_json w; requests := requests w;
        stdout := stdout w ++ [Processing name; Description (description info);
                               SizeApprox (size_mb info);
                               AlreadyVerified (ggml_filename_of name); Blank] |}).
Proof.
  intros Hv. unfold process_model. cbv beta iota zeta.
  rewrite !bind_print.
  rewrite <- bind_bind.
  erewrite bind_value; [|rewrite precheck; cbn [fs log_line]; rewrite Hv; reflexivity].
  cbv beta iota.
  rewrite !bind_print. unfold print, log_line. cbn.
  rewrite <- !app_assoc. reflexivity.
Qed.

Lemma process_model_fetched (name : string) (info : model_info) (w : world)
    (r : response) (b : bool) :
  let p := ggml_filename_of name in
  verify_file_size (fs w) p (size_mb info) default_tolerance = Ok false ->
  internet w (ggml info) = Responded r ->
  fetch_succeeds (Responded r) = true ->
  verify_file_size (<[p := body_size r]> (fs w)) p (size_mb info) default_tolerance = Ok b ->
  process_model (name, info) w
  = (Ok tt,
     {| internet := internet w; clock := clock w;
        fs := <[p := body_size r]> (fs w);
        manifest_json := manifest_json w;
        requests := requests w ++ [ggml info];
        stdout := stdout w ++ [Processing name; Description (description info);
                               SizeApprox (size_mb info); Downloading p;
                               if b then DownloadedVerified p else VerificationFailed p;
                               Blank] |}).
Proof.
  intros p Hv Hnet Hok Hv'. unfold process_model. cbv beta iota zeta. fold p.
  rewrite !bind_print.
  rewrite <- bind_bind.
  erewrite bind_value; [|rewrite precheck; cbn [fs log_line]; rewrite Hv; reflexivity].
  cbv beta iota.
  rewrite !bind_print.
  erewrite bind_value; [|by apply download_file_succeeds].
  cbv beta iota.
  erewrite bind_value; [|rewrite verify_run; cbn [fs log_line]; rewrite Hv'; reflexivity].
  cbv beta iota.
  destruct b; rewrite !bind_print; unfold print, log_line; cbn;
    rewrite <- !app_assoc; reflexivity.
Qed.

Lemma process_model_fetch_failed (name : string) (info : model_info) (w : world) :
  let p := ggml_filename_of name in
  verify_file_size (fs w) p (size_mb info) default_tolerance = Ok false ->
  fetch_succeeds (internet w (ggml info)) = false ->
  exists e,
    process_model (name, info) w
    = (Ok tt,
       {| internet := internet w; clock := clock w;
          fs := delete p (fs w);
          manifest_json := manifest_json w;
          requests := requests w ++ [ggml info];
          stdout := stdout w ++ [Processing name; Description (description info);
                                 SizeApprox (size_mb info); Downloading p;
                                 ErrorDownloading (ggml info) e; DownloadFailed p] |}).
Proof.
  intros p Hv Hfail.
  destruct (download_file_fails (ggml info) p (name +:+ " GGML")
              (log_line (Downloading p)
                 (log_line (SizeApprox (size_mb info))
                    (log_line (Description (description info))
                       (log_line (Processing name) w)))) Hfail) as [e He].
  exists e. unfold process_model. cbv beta iota zeta. fold p.
  rewrite !bind_print.
  rewrite <- bind_bind.
  erewrite bind_value; [|rewrite precheck; cbn [fs log_line]; rewrite Hv; reflexivity].
  cbv beta iota.
  rewrite !bind_print.
  erewrite bind_value; [|exact He].
  cbv beta iota.
  unfold print, log_line; cbn. rewrite <- !app_assoc. reflexivity.
Qed.

(** What one pass of the first loop does to the world, whatever it prints. *)
Lemma process_model_effect (item : string * model_info) (w : world) :
  world_ok w -> convertible (size_mb (snd item)) ->
  exists w',
    process_model item w = (Ok tt, w')
    /\ internet w' = internet w /\ clock w' = clock w
    /\ manifest_json w' = manifest_json w
    /\ fs w' = (if verified_in (fs w) item then fs w
                else fetched_fs (internet w (item_url item)) (item_path item) (fs w))
    /\ requests w' = requests w ++ (if verified_in (fs w) item then [] else [item_url item]).
Proof.
  intros [Hs Hb] Hc. destruct item as [name info]. unfold verified_in, item_path, item_url.
  cbn [fst snd] in *.
  destruct (verify_file_size_total (fs w) (ggml_filename_of name) _ Hs Hc) as [b0 Hv].
  rewrite Hv. destruct b0.
  { eexists. split; [by apply process_model_skip|]. cbn. by rewrite app_nil_r. }
  unfold fetched_fs.
  destruct (fetch_succeeds (internet w (ggml info))) eqn:Hf.
  - destruct (internet w (ggml info)) as [|r] eqn:Hnet; [done|].
    destruct (verify_file_size_total (<[ggml_filename_of name := body_size r]> (fs w))
                (ggml_filename_of name) _
                (sizes_ok_insert _ _ _ Hs (Hb _ _ Hnet)) Hc) as [b1 Hv1].
    eexists. split; [by eapply process_model_fetched|]. done.
  - destruct (process_model_fetch_failed name info w Hv Hf) as [e He].
    eexists. split; [exact He|]. cbn.
    by destruct (internet w (ggml info)).
Qed.

Lemma verified_in_local (f g : gmap string N) (item : string * model_info) :
  f !! item_path item = g !! item_path item -> verified_in f item = verified_in g item.
Proof.
  intros H. unfold verified_in.
  by rewrite (verify_file_size_local f g _ _ _ H).
Qed.

Lemma fetched_fs_lookup (o : outcome) (p : string) (f : gmap string N) :
  fetched_fs o p f !! p
  = match o with
    | Responded r => if fetch_succeeds (Responded r) then Some (body_size r) else None
    | Unreachable => None
    end.
Proof.
  unfold fetched_fs. destruct o as [|r]; [by rewrite lookup_delete_eq|].
  destruct (fetch_succeeds _); [by rewrite lookup_insert_eq | by rewrite lookup_delete_eq].
Qed.

Lemma fetched_fs_lookup_ne (o : outcome) (p q : string) (f : gmap string N) :
  p <> q -> fetched_fs o p f !! q = f !! q.
Proof.
  intros Hne. unfold fetched_fs. destruct o as [|r]; [by rewrite lookup_delete_ne|].
  destruct (fetch_succeeds _); [by rewrite lookup_insert_ne | by rewrite lookup_delete_ne].
Qed.

Lemma filter_ext_elem {A} (P Q : A -> Prop) `{!forall x, Decision (P x)}
    `{!forall x, Decision (Q x)} (l : list A) :
  (forall x, x ∈ l -> P x <-> Q x) -> filter P l = filter Q l.
Proof.
  induction l as [|a l IH]; intros Hext; [done|].
  rewrite !filter_cons.
  rewrite IH by (intros x Hx; apply Hext; by right).
  pose proof (Hext a ltac:(by left)) as Ha.
  destruct (decide (P a)) as [HP|HP], (decide (Q a)) as [HQ|HQ]; try done; tauto.
Qed.

Lemma first_loop (cat : list (string * model_info)) (w : world) :
  world_ok w ->
  Forall (fun item => convertible (size_mb (snd item))) cat ->
  NoDup (item_path <$> cat) ->
  exists w',
    for_each cat process_model w = (Ok tt, w')
    /\ internet w' = internet w /\ clock w' = clock w
    /\ manifest_json w' = manifest_json w
    /\ world_ok w'
    /\ (forall item, item ∈ cat -> fs w' !! item_path item = settled w item)
    /\ (forall p, p ∉ item_path <$> cat -> fs w' !! p = fs w !! p)
    /\ requests w' = requests w ++ attempted (fs w) cat.
Proof.
  revert w. induction cat as [|item cat IH]; intros w Hw Hc Hnd.
  - exists w. cbn. unfold attempted. cbn. rewrite app_nil_r.
    split; [done|]. split; [done|]. split; [done|]. split; [done|]. split; [done|].
    split; [|done]. intros item Hin. by apply elem_of_nil in Hin.
  - apply Forall_cons in Hc as [Hc1 Hc]. rewrite fmap_cons in Hnd.
    apply NoDup_cons in Hnd as [Hfresh Hnd].
    destruct (process_model_effect item w Hw Hc1)
      as (w1 & Hrun1 & Hnet1 & Hclk1 & Hman1 & Hfs1 & Hreq1).
    assert (Hw1 : world_ok w1).
    { destruct Hw as [Hs Hb]. split; [|by rewrite Hnet1].
      rewrite Hfs1. destruct (verified_in (fs w) item); [done|].
      apply sizes_ok_fetched; [done|]. intros r Hr. eapply Hb, Hr. }
    assert (Hframe1 : forall q, q <> item_path item -> fs w1 !! q = fs w !! q).
    { intros q Hq. rewrite Hfs1. destruct (verified_in (fs w) item); [done|].
      by apply fetched_fs_lookup_ne. }
    assert (Hown1 : fs w1 !! item_path item = settled w item).
    { rewrite Hfs1. unfold settled. destruct (verified_in (fs w) item); [done|].
      apply fetched_fs_lookup. }
    assert (Htail : forall item', item' ∈ cat -> item_path item' <> item_path item).
    { intros item' Hin Heq. apply Hfresh. rewrite <- Heq. by apply list_elem_of_fmap_2. }
    destruct (IH w1 Hw1 Hc Hnd)
      as (w' & Hrun & Hnet & Hclk & Hman & Hw' & Hown & Hframe & Hreq).
    exists w'. split.
    { cbn [for_each]. erewrite bind_value; [exact Hrun | exact Hrun1]. }
    split; [congruence|]. split; [congruence|]. split; [congruence|].
    split; [done|]. split; [|split].
    + intros item' Hin. apply elem_of_cons in Hin as [-> | Hin].
      * rewrite Hframe; [done|]. done.
      * rewrite (Hown _ Hin). unfold settled. rewrite Hnet1.
        rewrite (verified_in_local (fs w1) (fs w)) by (apply Hframe1; auto).
        rewrite Hframe1 by auto. done.
    + intros p Hp. rewrite fmap_cons in Hp. apply not_elem_of_cons in Hp as [Hp1 Hp2].
      rewrite Hframe by done. by apply Hframe1.
    + rewrite Hreq, Hreq1, <- app_assoc. f_equal.
      unfold attempted. rewrite filter_cons.
      assert (Heq : filter (fun i => verified_in (fs w1) i = false) cat
                    = filter (fun i => verified_in (fs w) i = false) cat).
      { apply filter_ext_elem. intros i Hi.
        by rewrite (verified_in_local (fs w1) (fs w)) by (apply Hframe1; auto). }
      rewrite Heq. case_decide as Hv.
      * rewrite Hv. done.
      * apply not_false_is_true in Hv. rewrite Hv. done.
Qed.

End FirstLoop.

Section SecondLoop.

Lemma record_model_present (m : Manifest.t) (item : string * model_info) (w : world)
    (n : N) (mb : float) :
  fs w !! item_path item = Some n ->
  int_truediv (Z.of_N n) (1024 * 1024) = Ok mb ->
  record_model m item w
  = (Ok (Manifest.set_model (fst item) (manifest_entry item n mb) m), w).
Proof.
  intros Hp Hmb. destruct item as [name info]. unfold item_path in Hp. cbn [fst] in Hp.
  unfold record_model, bind, path_exists, stat_size, lift, ret.
  rewrite bool_decide_eq_true_2 by (rewrite Hp; eauto). rewrite Hp. cbv beta iota.
  by rewrite Hmb.
Qed.

Lemma record_model_absent (m : Manifest.t) (item : string * model_info) (w : world) :
  fs w !! item_path item = None -> record_model m item w = (Ok m, w).
Proof.
  intros Hp. destruct item as [name info]. unfold item_path in Hp. cbn [fst] in Hp.
  unfold record_model, bind, path_exists, ret.
  rewrite Hp. rewrite bool_decide_eq_false_2; [done|]. by intros [? ?].
Qed.

(** The second loop only reads the world. *)
Lemma record_model_frame (m : Manifest.t) (item : string * model_info) (w : world) :
  snd (record_model m item w) = w.
Proof.
  destruct item as [name info].
  unfold record_model, bind, path_exists, stat_size, lift, ret.
  case_bool_decide; [|done].
  destruct (fs w !! ggml_filename_of name); [|done].
  by destruct (int_truediv _ _).
Qed.

Lemma second_loop_frame (cat : list (string * model_info)) (m : Manifest.t) (w : world) :
  snd (fold_M record_model m cat w) = w.
Proof.
  revert m. induction cat as [|item cat IH]; intros m; [done|].
  cbn [fold_M]. unfold bind.
  pose proof (record_model_frame m item w) as H.
  destruct (record_model m item w) as [[m'|e] w']; cbn in H; subst w'; [apply IH | done].
Qed.

Lemma second_loop (cat : list (string * model_info)) (m0 : Manifest.t) (w : world) :
  sizes_ok (fs w) ->
  NoDup (fst <$> cat) ->
  exists m,
    fold_M record_model m0 cat w = (Ok m, w)
    /\ Manifest.created_at m = Manifest.created_at m0
    /\ Manifest.version m = Manifest.version m0
    /\ (forall name, name ∉ fst <$> cat ->
          Manifest.models m !! name = Manifest.models m0 !! name)
    /\ (forall item, item ∈ cat ->
          match fs w !! item_path item with
          | Some n => exists mb, int_truediv (Z.of_N n) (1024 * 1024) = Ok mb
                        /\ Manifest.models m !! fst item = Some (manifest_entry item n mb)
          | None => Manifest.models m !! fst item = Manifest.models m0 !! fst item
          end).
Proof.
  intros Hs. revert m0. induction cat as [|item cat IH]; intros m0 Hnd.
  - exists m0. split; [done|]. split; [done|]. split; [done|]. split; [done|].
    intros item Hin. by apply elem_of_nil in Hin.
  - rewrite fmap_cons in Hnd. apply NoDup_cons in Hnd as [Hfresh Hnd].
    assert (Hstep : exists m1,
      record_model m0 item w = (Ok m1, w)
      /\ Manifest.created_at m1 = Manifest.created_at m0
      /\ Manifest.version m1 = Manifest.version m0
      /\ (forall name, name <> fst item ->
            Manifest.models m1 !! name = Manifest.models m0 !! name)
      /\ match fs w !! item_path item with
         | Some n => exists mb, int_truediv (Z.of_N n) (1024 * 1024) = Ok mb
                       /\ Manifest.models m1 !! fst item = Some (manifest_entry item n mb)
         | None => Manifest.models m1 !! fst item = Manifest.models m0 !! fst item
         end).
    { destruct (fs w !! item_path item) as [n|] eqn:Hp.
      - destruct (int_truediv_total n (Hs _ _ Hp)) as [mb Hmb].
        eexists. split; [by apply record_model_present|].
        split; [done|]. split; [done|]. split.
        + intros name Hne. cbn. by rewrite lookup_insert_ne.
        + exists mb. split; [done|]. cbn. by rewrite lookup_insert_eq.
      - exists m0. split; [by apply record_model_absent|]. done. }
    destruct Hstep as (m1 & Hrun1 & Hc1 & Hv1 & Hother1 & Hown1).
    destruct (IH m1 Hnd) as (m & Hrun & Hc & Hv & Hother & Hown).
    exists m. split.
    { cbn [fold_M]. erewrite bind_value; [exact Hrun | exact Hrun1]. }
    split; [congruence|]. split; [congruence|]. split.
    + intros name Hn. rewrite fmap_cons in Hn. apply not_elem_of_cons in Hn as [Hn1 Hn2].
      rewrite Hother by done. by apply Hother1.
    + intros item' Hin. apply elem_of_cons in Hin as [-> | Hin].
      * rewrite Hother by done. exact Hown1.
      * specialize (Hown _ Hin).
        assert (Hne : fst item' <> fst item).
        { intros Heq. apply Hfresh. rewrite <- Heq. by apply list_elem_of_fmap_2. }
        destruct (fs w !! item_path item'); [done|].
        rewrite Hown. by apply Hother1.
Qed.

End SecondLoop.

Section Main.

(** [main] from the end of the first loop on. *)
Lemma main_after_first_loop (w w1 : world) :
  for_each MODELS process_model (prelude w) = (Ok tt, w1) ->
  match fold_M record_model empty_manifest MODELS w1 with
  | (Ok m, _) =>
      exists w2, run w = (exit_status m, w2)
                 /\ manifest_json w2 = Some m
                 /\ fs w2 = fs w1 /\ requests w2 = requests w1
                 /\ internet w2 = internet w1 /\ clock w2 = clock w1
  | (Raise e, _) =>
      exists w2, run w = ((match e with SystemExit c => c | _ => 1 end), w2)
                 /\ manifest_json w2 = manifest_json w1
                 /\ fs w2 = fs w1 /\ requests w2 = requests w1
                 /\ internet w2 = internet w1 /\ clock w2 = clock w1
  end.
Proof.
  intros Hloop.
  pose proof (second_loop_frame MODELS empty_manifest w1) as Hframe.
  unfold run, main. rewrite !bind_print. fold (prelude w).
  erewrite bind_value; [|exact Hloop]. cbv beta.
  destruct (fold_M record_model empty_manifest MODELS w1) as [[m|e] w1'] eqn:H2;
    cbn [snd] in Hframe; subst w1'.
  - erewrite bind_value; [|exact H2]. cbv beta.
    unfold exit_status. unfold json_dump at 1. unfold bind at 1.
    rewrite !bind_print.
    case_bool_decide.
    + rewrite !bind_print. unfold print. eexists. split; [reflexivity|]. done.
    + rewrite !bind_print. unfold sys_exit, raise. eexists. split; [reflexivity|]. done.
  - erewrite bind_raise; [|exact H2].
    destruct e; eexists; (split; [reflexivity|]); done.
Qed.

End Main.

(** ** The catalog and one whole run *)

Section Catalog.

Lemma MODELS_paths_NoDup : NoDup (item_path <$> MODELS).
Proof. apply (bool_decide_unpack _). vm_compute. exact I. Qed.

Lemma MODELS_names_NoDup : NoDup (fst <$> MODELS).
Proof. apply (bool_decide_unpack _). vm_compute. exact I. Qed.

Lemma MODELS_urls_NoDup : NoDup (item_url <$> MODELS).
Proof. apply (bool_decide_unpack _). vm_compute. exact I. Qed.

Lemma MODELS_convertible :
  Forall (fun item => convertible (size_mb (snd item))) MODELS.
Proof. repeat constructor; eexists; vm_compute; reflexivity. Qed.

End Catalog.

Section Run.

Lemma world_ok_prelude (w : world) : world_ok w -> world_ok (prelude w).
Proof. done. Qed.

Lemma world_ok_fresh (net : string -> outcome) (files : gmap string N) :
  sizes_ok files -> bodies_ok net -> world_ok (fresh_world net files).
Proof. by split. Qed.

Lemma sizes_ok_empty : sizes_ok ∅.
Proof. intros p n H. by rewrite lookup_empty in H. Qed.

(** One whole run in a world whose byte counts convert exactly. *)
Lemma run_spec (w : world) :
  world_ok w ->
  exists m w',
    run w = (exit_status m, w')
    /\ manifest_json w' = Some m
    /\ Manifest.created_at m = "2024-01-01T00:00:00Z"
    /\ internet w' = internet w /\ clock w' = clock w
    /\ sizes_ok (fs w')
    /\ (forall item, item ∈ MODELS -> fs w' !! item_path item = settled w item)
    /\ (forall p, p ∉ item_path <$> MODELS -> fs w' !! p = fs w !! p)
    /\ requests w' = requests w ++ attempted (fs w) MODELS
    /\ (forall name, name ∉ fst <$> MODELS -> Manifest.models m !! name = None)
    /\ (forall item, item ∈ MODELS ->
          match fs w' !! item_path item with
          | Some n => exists mb, int_truediv (Z.of_N n) (1024 * 1024) = Ok mb
                        /\ Manifest.models m !! fst item = Some (manifest_entry item n mb)
          | None => Manifest.models m !! fst item = None
          end).
Proof.
  intros Hw.
  destruct (first_loop MODELS (prelude w) (world_ok_prelude w Hw)
              MODELS_convertible MODELS_paths_NoDup)
    as (w1 & Hloop & Hnet & Hclk & Hman & [Hs1 Hb1] & Hown & Hframe & Hreq).
  destruct (second_loop MODELS empty_manifest w1 Hs1 MODELS_names_NoDup)
    as (m & Hrec & Hcreated & Hversion & Hother & Hentries).
  pose proof (main_after_first_loop w w1 Hloop) as Hmain. rewrite Hrec in Hmain.
  destruct Hmain as (w2 & Hrun & Hm2 & Hfs2 & Hreq2 & Hnet2 & Hclk2).
  exists m, w2. rewrite Hfs2.
  split; [done|]. split; [done|]. split; [by rewrite Hcreated|].
  split; [by rewrite Hnet2, Hnet|]. split; [by rewrite Hclk2, Hclk|].
  split; [done|]. split; [done|]. split; [done|].
  split; [by rewrite Hreq2, Hreq|]. split.
  - intros name Hn. rewrite Hother by done. apply lookup_empty.
  - intros item Hin. specialize (Hentries item Hin).
    destruct (fs w1 !! item_path item); [done|].
    rewrite Hentries. apply lookup_empty.
Qed.

End Run.

(** * The contract of the size verifier *)

Section SizeVerifier.

Lemma int_sub_float_one (t : float) :
  int_sub_float 1 t = Ok (Float64.sub (Float64.of_Z 1) t).
Proof. reflexivity. Qed.

Lemma int_add_float_one (t : float) :
  int_add_float 1 t = Ok (Float64.add (Float64.of_Z 1) t).
Proof. reflexivity. Qed.

(** The test of [verify_file_size] on a file that is there, spelled out. *)
Lemma verify_file_size_present (fs : gmap string N) (p : string) (n : N) (E : Z) (t : float) :
  fs !! p = Some n ->
  verify_file_size fs p E t = Ok true <->
  exists a lo hi,
    int_truediv (Z.of_N n) (1024 * 1024) = Ok a
    /\ int_mul_float E (Float64.sub (Float64.of_Z 1) t) = Ok lo
    /\ int_mul_float E (Float64.add (Float64.of_Z 1) t) = Ok hi
    /\ Float64.leb lo a = true /\ Float64.leb a hi = true.
Proof.
  intros Hp. unfold verify_file_size. rewrite Hp.
  rewrite int_sub_float_one, int_add_float_one.
  destruct (int_truediv (Z.of_N n) (1024 * 1024)) as [a|e1]; cbn [result_bind].
  2:{ split; [done | by intros (? & ? & ? & ? & _)]. }
  destruct (int_mul_float E (Float64.sub (Float64.of_Z 1) t)) as [lo|e2]; cbn [result_bind].
  2:{ split; [done | by intros (? & ? & ? & _ & ? & _)]. }
  destruct (int_mul_float E (Float64.add (Float64.of_Z 1) t)) as [hi|e3]; cbn [result_bind].
  2:{ split; [done | by intros (? & ? & ? & _ & _ & ? & _)]. }
  split.
  - intros [= H]. apply andb_true_iff in H as [H1 H2]. by exists a, lo, hi.
  - intros (a' & lo' & hi' & [= <-] & [= <-] & [= <-] & H1 & H2). by rewrite H1, H2.
Qed.

End SizeVerifier.

(** * Rounding to one decimal *)

Section Rounding.

Lemma round_half_even_scale (a b c : Z) :
  0 < b -> 0 < c -> round_half_even (a * c) (b * c) = round_half_even a b.
Proof.
  intros Hb Hc. unfold round_half_even.
  rewrite Z.div_mul_cancel_r by lia.
  rewrite Z.mul_mod_distr_r by lia.
  replace (2 * (a mod b * c)) with (2 * (a mod b) * c) by lia.
  destruct (Z.compare_spec (2 * (a mod b)) b),
    (Z.compare_spec (2 * (a mod b) * c) (b * c)); try reflexivity; nia.
Qed.

Lemma round_half_even_nearest (a b : Z) :
  0 < b -> 2 * Z.abs (a - round_half_even a b * b) <= b.
Proof.
  intros Hb. unfold round_half_even.
  pose proof (Z.div_mod a b ltac:(lia)) as Hdm.
  pose proof (Z.mod_pos_bound a b Hb) as Hr.
  destruct (Z.compare_spec (2 * (a mod b)) b) as [Heq | Hlt | Hgt].
  - destruct (Z.even (a / b)); lia.
  - lia.
  - lia.
Qed.

(** [round(n / 2^20, 1)] for a byte count of at most 53 bits: the tenth
    nearest to the exact quotient. *)
Lemma round1_MiB (n : N) (mb : float) :
  (n < 2 ^ 53)%N ->
  int_truediv (Z.of_N n) (1024 * 1024) = Ok mb ->
  round1 mb = decimal1 false (round_half_even (10 * Z.of_N n) (2 ^ 20)).
Proof.
  intros Hn Hmb. destruct n as [|n]; cbn [Z.of_N] in *.
  - injection Hmb as <-. reflexivity.
  - rewrite int_truediv_MiB in Hmb by lia. injection Hmb as <-.
    destruct (MiB_mantissa_spec n ltac:(lia)) as (Hd & Hm & _).
    cbn [round1]. f_equal. unfold tenths, MiB_exponent.
    destruct (Z.leb_spec 0 (Zpos (digits2_pos n) - 73)) as [|_]; [lia|].
    rewrite Hm.
    replace (- (Zpos (digits2_pos n) - 73)) with (20 + (53 - Zpos (digits2_pos n))) by lia.
    rewrite Z.pow_add_r by lia.
    rewrite Z.mul_assoc.
    apply round_half_even_scale; [done|]. apply Z.pow_pos_nonneg; lia.
Qed.

End Rounding.

(** * Idempotence *)

Section Idempotence.

Lemma verified_exists (f : gmap string N) (p : string) (E : Z) (t : float) :
  verify_file_size f p E t = Ok true -> is_Some (f !! p).
Proof. unfold verify_file_size. destruct (f !! p); [eauto | done]. Qed.

Lemma first_loop_all_verified (cat : list (string * model_info)) (w : world) :
  (forall item, item ∈ cat ->
     verify_file_size (fs w) (item_path item) (size_mb (snd item)) default_tolerance
     = Ok true) ->
  exists w',
    for_each cat process_model w = (Ok tt, w')
    /\ fs w' = fs w /\ requests w' = requests w
    /\ internet w' = internet w /\ clock w' = clock w
    /\ manifest_json w' = manifest_json w.
Proof.
  revert w. induction cat as [|[name info] cat IH]; intros w Hall.
  - by exists w.
  - pose proof (process_model_skip name info w (Hall _ ltac:(left))) as Hstep.
    match type of Hstep with _ = (_, ?w1) => set (w1' := w1) in * end.
    destruct (IH w1') as (w' & Hrun & Hfs & Hreq & Hnet & Hclk & Hman).
    { intros item Hin. apply Hall. by right. }
    exists w'. split; [|done].
    cbn [for_each]. erewrite bind_value; [exact Hrun | exact Hstep].
Qed.

End Idempotence.

(** C3.  In a models directory where every catalog entry's file is present
    and passes the size verifier, such as the one a run with three good
    downloads leaves, a run issues no request and leaves every file as it
    is: each entry takes the branch that skips the fetch. *)
Theorem rerun_issues_no_request (w : world) :
  (forall item, item ∈ MODELS ->
     verify_file_size (fs w) (item_path item) (size_mb (snd item)) default_tolerance
     = Ok true) ->
  requests (snd (run w)) = requests w /\ fs (snd (run w)) = fs w.
Proof.
  intros Hall.
  destruct (first_loop_all_verified MODELS (prelude w) Hall)
    as (w1 & Hloop & Hfs & Hreq & _).
  pose proof (main_after_first_loop w w1 Hloop) as Hmain.
  destruct (fold_M record_model empty_manifest MODELS w1) as [[m|e] w1'];
    destruct Hmain as (w2 & -> & _ & Hfs2 & Hreq2 & _); cbn [snd];
    by rewrite Hfs2, Hreq2, Hfs, Hreq.
Qed.

Lemma rerun_issues_no_request_witness :
  let w1 := snd (run (fresh_world good_network ∅)) in
  length (requests w1) = 3%nat
  /\ requests (snd (run w1)) = requests w1 /\ fs (snd (run w1)) = fs w1.
Proof.
  split; [vm_compute; reflexivity|].
  apply (rerun_issues_no_request (snd (run (fresh_world good_network ∅)))).
  intros item Hin.
  repeat (apply elem_of_cons in Hin as [-> | Hin]);
    [vm_compute; reflexivity .. | by apply elem_of_nil in Hin].
Defined.

(** * What the manifest lists *)

Section ManifestFacts.

Lemma settled_verified (w : world) (item : string * model_info) :
  verified_in (fs w) item = true -> is_Some (settled w item).
Proof.
  intros Hv. unfold settled. rewrite Hv. unfold verified_in in Hv.
  destruct (verify_file_size _ _ _ _) as [[]|] eqn:H; try done.
  by eapply verified_exists.
Qed.

Lemma settled_fetched (w : world) (item : string * model_info) :
  verified_in (fs w) item = false ->
  fetch_succeeds (internet w (item_url item)) = true ->
  exists r, internet w (item_url item) = Responded r
            /\ settled w item = Some (body_size r).
Proof.
  intros Hv Hf. unfold settled. rewrite Hv.
  destruct (internet w (item_url item)) as [|r]; [done|].
  exists r. by rewrite Hf.
Qed.

Lemma settled_failed (w : world) (item : string * model_info) :
  verified_in (fs w) item = false ->
  fetch_succeeds (internet w (item_url item)) = false ->
  settled w item = None.
Proof.
  intros Hv Hf. unfold settled. rewrite Hv.
  destruct (internet w (item_url item)) as [|r]; [done|]. by rewrite Hf.
Qed.

Lemma MODELS_name_elem (name : string) :
  name ∈ fst <$> MODELS -> exists info, (name, info) ∈ MODELS.
Proof.
  intros (item & -> & Hin)%list_elem_of_fmap. exists (snd item). by destruct item.
Qed.

Lemma MODELS_another (item : string * model_info) :
  item ∈ MODELS -> exists other, other ∈ MODELS /\ other <> item.
Proof.
  intros Hin.
  repeat (apply elem_of_cons in Hin as [-> | Hin]); [ | | | by apply elem_of_nil in Hin].
  - eexists. split; [right; left|]. done.
  - eexists. split; [left|]. done.
  - eexists. split; [left|]. done.
Qed.

Lemma two_entries_left {A} (m : gmap string A) (failing : string * model_info) :
  failing ∈ MODELS ->
  (forall name,
     is_Some (m !! name) <->
     exists item, item ∈ MODELS /\ item <> failing /\ fst item = name) ->
  size m = 2%nat.
Proof.
  intros Hin Hchar.
  rewrite <- (size_dom (D := gset string)).
  assert (Hdom : dom m = list_to_set (fst <$> filter (fun item => item <> failing) MODELS)).
  { apply set_eq. intros name. rewrite elem_of_dom, Hchar, elem_of_list_to_set, list_elem_of_fmap.
    split.
    - intros (item & H1 & H2 & <-). exists item. split; [done|]. by apply list_elem_of_filter.
    - intros (item & -> & (H2 & H1)%list_elem_of_filter). eauto. }
  rewrite Hdom.
  repeat (apply elem_of_cons in Hin as [-> | Hin]); [ | | | by apply elem_of_nil in Hin];
    vm_compute; reflexivity.
Qed.

End ManifestFacts.

(** C4.  After a run, an entry is in the manifest exactly when its name is
    a catalog name and the file with the derived name exists in the models
    directory at the end of the run, whatever happened to fetches and
    verifications.  When one entry's fetch fails and each other entry is
    either already verified or fetched, the manifest holds exactly the
    other entries and the process exits with status 0. *)
Theorem manifest_lists_files_on_disk (w : world) :
  world_ok w ->
  exists m w',
    manifest_json w' = Some m
    /\ (exists status, run w = (status, w'))
    /\ (forall name,
          is_Some (Manifest.models m !! name) <->
          (exists info, (name, info) ∈ MODELS)
          /\ is_Some (fs w' !! ggml_filename_of name))
    /\ (forall failing,
          failing ∈ MODELS ->
          verified_in (fs w) failing = false ->
          fetch_succeeds (internet w (item_url failing)) = false ->
          (forall item, item ∈ MODELS -> item <> failing ->
             verified_in (fs w) item = true
             \/ fetch_succeeds (internet w (item_url item)) = true) ->
          run w = (0, w')
          /\ size (Manifest.models m) = 2%nat
          /\ forall name,
               is_Some (Manifest.models m !! name) <->
               exists item, item ∈ MODELS /\ item <> failing /\ fst item = name).
Proof.
  intros Hw.
  destruct (run_spec w Hw)
    as (m & w' & Hrun & Hman & _ & _ & _ & Hs & Hown & _ & _ & Hother & Hentries).
  assert (Hiff : forall item, item ∈ MODELS ->
            is_Some (Manifest.models m !! fst item) <-> is_Some (fs w' !! item_path item)).
  { intros item Hin. specialize (Hentries item Hin).
    destruct (fs w' !! item_path item) as [n|].
    - destruct Hentries as (mb & _ & ->). split; eauto.
    - rewrite Hentries. split; by intros [? ?]. }
  exists m, w'. split; [done|]. split; [eauto|]. split.
  - intros name. split.
    + intros Hsome.
      destruct (decide (name ∈ fst <$> MODELS)) as [Hin | Hout].
      * destruct (MODELS_name_elem name Hin) as [info Hinfo].
        split; [eauto|]. by apply (Hiff (name, info)).
      * rewrite Hother in Hsome by done. by destruct Hsome.
    + intros [[info Hinfo] Hfile]. by apply (Hiff (name, info)).
  - intros failing Hin Hv Hf Hothers.
    assert (Hchar : forall item, item ∈ MODELS ->
              is_Some (Manifest.models m !! fst item) <-> item <> failing).
    { intros item Hitem. rewrite (Hiff item Hitem), (Hown item Hitem). split.
      - intros Hsome ->. rewrite settled_failed in Hsome by done. by destruct Hsome.
      - intros Hne. destruct (Hothers item Hitem Hne) as [Hv' | Hf'].
        + by apply settled_verified.
        + destruct (verified_in (fs w) item) eqn:Hv''; [by apply settled_verified|].
          destruct (settled_fetched w item Hv'' Hf') as (r & _ & ->). eauto. }
    assert (Hnames : forall name,
              is_Some (Manifest.models m !! name) <->
              exists item, item ∈ MODELS /\ item <> failing /\ fst item = name).
    { intros name. split.
      - intros Hsome.
        destruct (decide (name ∈ fst <$> MODELS)) as [Hnin | Hout].
        + destruct (MODELS_name_elem name Hnin) as [info Hinfo].
          exists (name, info). split; [done|]. split; [|done].
          by apply (Hchar (name, info)).
        + rewrite Hother in Hsome by done. by destruct Hsome.
      - intros (item & Hitem & Hne & <-). by apply Hchar. }
    split; [|split; [by eapply two_entries_left | done]].
    rewrite Hrun. f_equal. unfold exit_status.
      destruct (MODELS_another failing Hin) as (other & Hoin & Hone).
      rewrite bool_decide_eq_true_2; [done|].
      pose proof (map_size_ne_0_lookup_2 (Manifest.models m) (fst other)
                    (proj2 (Hchar other Hoin) Hone)).
      lia.
Qed.

Lemma manifest_lists_files_on_disk_witness :
  exists m w',
    run (fresh_world tiny_is_gone ∅) = (0, w')
    /\ manifest_json w' = Some m
    /\ size (Manifest.models m) = 2%nat
    /\ (is_Some (Manifest.models m !! "base.en") <->
        is_Some (fs w' !! "ggml-base.en-q5_1.bin")).
Proof.
  destruct (manifest_lists_files_on_disk (fresh_world tiny_is_gone ∅))
    as (m & w' & Hman & _ & Hiff & Hone).
  - apply world_ok_fresh; [apply sizes_ok_empty|].
    intros url r. unfold tiny_is_gone. case_decide.
    + intros [= <-]. vm_compute. reflexivity.
    + intros [= <-]. unfold body_size. cbn [chunks].
      repeat case_decide; vm_compute; reflexivity.
  - destruct (Hone ("tiny.en",
               {| original := "https://openaipublic.azureedge.net/main/whisper/models/d3dd57d32accea0b295c96e26691aa14d8822fac7d9d27d5dc00b4ca2826dd03/tiny.en.pt";
                  ggml := "https://huggingface.co/ggerganov/whisper.cpp/resolve/main/ggml-tiny.en-q5_1.bin";
                  size_mb := 39;
                  description := "Fastest, lowest accuracy - good for testing" |}))
      as (Hrun & Hsize & _).
    + left.
    + vm_compute. reflexivity.
    + vm_compute. reflexivity.
    + intros item Hin Hne. right.
      repeat (apply elem_of_cons in Hin as [-> | Hin]);
        [ by destruct Hne | vm_compute; reflexivity .. | by apply elem_of_nil in Hin ].
    + exists m, w'. split; [exact Hrun|]. split; [exact Hman|]. split; [exact Hsize|].
      rewrite (Hiff "base.en"). split.
      * intros [_ H]. exact H.
      * intros H. split; [|exact H]. eexists. right. left.
Defined.

(** * Exit status and the fetcher *)

(** C5.  A run always writes the manifest.  It exits with status 1 when the
    manifest has no entry, as happens when no entry verifies and every
    fetch fails, and with status 0 when the manifest has an entry. *)
Theorem exit_policy (w : world) :
  world_ok w ->
  exists m w',
    manifest_json w' = Some m
    /\ (size (Manifest.models m) = 0%nat -> run w = (1, w'))
    /\ ((0 < size (Manifest.models m))%nat -> run w = (0, w'))
    /\ ((forall item, item ∈ MODELS ->
           verified_in (fs w) item = false
           /\ fetch_succeeds (internet w (item_url item)) = false) ->
        Manifest.models m = ∅ /\ run w = (1, w')).
Proof.
  intros Hw.
  destruct (run_spec w Hw)
    as (m & w' & Hrun & Hman & _ & _ & _ & _ & Hown & _ & _ & Hother & Hentries).
  assert (H0 : size (Manifest.models m) = 0%nat -> run w = (1, w')).
  { intros Hz. rewrite Hrun. unfold exit_status. rewrite Hz. done. }
  exists m, w'. split; [done|]. split; [done|]. split.
  - intros Hpos. rewrite Hrun. unfold exit_status.
    by rewrite bool_decide_eq_true_2.
  - intros Hall.
    assert (Hempty : Manifest.models m = ∅).
    { apply map_empty. intros name.
      destruct (decide (name ∈ fst <$> MODELS)) as [Hin | Hout]; [|by apply Hother].
      destruct (MODELS_name_elem name Hin) as [info Hinfo].
      specialize (Hentries _ Hinfo). rewrite (Hown _ Hinfo) in Hentries.
      destruct (Hall _ Hinfo) as [Hv Hf].
      by rewrite settled_failed in Hentries. }
    split; [done|]. apply H0. rewrite Hempty. apply map_size_empty.
Qed.

Lemma exit_policy_witness :
  exists m w',
    manifest_json w' = Some m
    /\ Manifest.models m = ∅
    /\ run (fresh_world no_network ∅) = (1, w').
Proof.
  destruct (exit_policy (fresh_world no_network ∅)) as (m & w' & Hman & _ & _ & Hnone).
  - apply world_ok_fresh; [apply sizes_ok_empty | intros url r H; discriminate H].
  - exists m, w'. split; [exact Hman|]. apply Hnone.
    intros item Hin. split; [|reflexivity].
    repeat (apply elem_of_cons in Hin as [-> | Hin]);
      [vm_compute; reflexivity .. | by apply elem_of_nil in Hin].
Defined.

(** C6, as amended.  When the GET cannot connect, or answers with an error
    status (400 to 599), or carries a malformed content-length, or its body
    stream breaks, [download_file] returns [False] without raising, and no
    file is left at the destination, be it one written in part by this call
    or one that was there before.  Other files are not touched. *)
Theorem download_file_failure (url p d : string) (w : world) :
  (internet w url = Unreachable
   \/ exists r, internet w url = Responded r
                /\ (400 <= status_code r < 600
                    \/ content_length r = header_malformed
                    \/ truncated r = true)) ->
  fst (download_file url p d w) = Ok false
  /\ fs (snd (download_file url p d w)) !! p = None
  /\ (forall q, q <> p -> fs (snd (download_file url p d w)) !! q = fs w !! q).
Proof.
  intros Hcause.
  assert (Hfail : fetch_succeeds (internet w url) = false).
  { destruct Hcause as [-> | (r & -> & Hr)]; [done|]. cbn [fetch_succeeds].
    destruct Hr as [Hst | [Hh | Ht]].
    - unfold is_error_status.
      replace (400 <=? status_code r) with true by (symmetry; apply Z.leb_le; lia).
      replace (status_code r <? 600) with true by (symmetry; apply Z.ltb_lt; lia).
      done.
    - rewrite Hh. cbn. by rewrite andb_false_r.
    - rewrite Ht. by rewrite andb_false_r. }
  destruct (download_file_fails url p d w Hfail) as [e ->]. cbn [fst snd fs].
  split; [done|]. split; [apply lookup_delete_eq|].
  intros q Hq. by apply lookup_delete_ne.
Qed.

Lemma download_file_failure_witness :
  let w := fresh_world no_network {[ "ggml-tiny.en-q5_1.bin" := 7%N ]} in
  fst (download_file "https://example.org/m.bin" "ggml-tiny.en-q5_1.bin" "" w) = Ok false
  /\ fs (snd (download_file "https://example.org/m.bin" "ggml-tiny.en-q5_1.bin" "" w))
       !! "ggml-tiny.en-q5_1.bin" = None.
Proof.
  intros w.
  destruct (download_file_failure "https://example.org/m.bin" "ggml-tiny.en-q5_1.bin" "" w)
    as (H1 & H2 & _).
  - left. reflexivity.
  - split; [exact H1 | exact H2].
Defined.

(** C6 as stated fails for a status that is neither a success nor an
    error: on 304 the fetcher reports success and leaves an empty file. *)
Lemma download_file_accepts_status_304 :
  let w := fresh_world not_modified ∅ in
  ~ (200 <= 304 < 300)
  /\ fst (download_file "https://example.org/m.bin" "ggml-tiny.en-q5_1.bin" "" w) = Ok true
  /\ fs (snd (download_file "https://example.org/m.bin" "ggml-tiny.en-q5_1.bin" "" w))
       !! "ggml-tiny.en-q5_1.bin" = Some 0%N.
Proof. split; [lia|]. split; vm_compute; reflexivity. Qed.

(** * Verification failures *)

Section Requests.

Lemma attempted_NoDup (f : gmap string N) : NoDup (attempted f MODELS).
Proof.
  unfold attempted. eapply sublist_NoDup; [exact MODELS_urls_NoDup|].
  apply fmap_sublist, sublist_filter.
Qed.

Lemma attempted_elem (f : gmap string N) (item : string * model_info) :
  item ∈ MODELS -> verified_in f item = false -> item_url item ∈ attempted f MODELS.
Proof.
  intros Hin Hv. unfold attempted. apply list_elem_of_fmap_2.
  by apply list_elem_of_filter.
Qed.

End Requests.

(** C7.  When an entry is fetched with success, the step of the loop leaves
    the same directory, the same request log and the same manifest file
    whether the verification that follows passes or fails: only the line
    printed differs.  When it fails, the run ends with the downloaded file
    in place at its downloaded size, the URL requested once, and the entry
    in the manifest with that size. *)
Theorem unverified_download_is_kept (w : world) (item : string * model_info)
    (r : response) :
  world_ok w ->
  item ∈ MODELS ->
  verified_in (fs w) item = false ->
  internet w (item_url item) = Responded r ->
  fetch_succeeds (Responded r) = true ->
  (forall b,
     verify_file_size (<[item_path item := body_size r]> (fs w)) (item_path item)
       (size_mb (snd item)) default_tolerance = Ok b ->
     process_model item w
     = (Ok tt,
        {| internet := internet w; clock := clock w;
           fs := <[item_path item := body_size r]> (fs w);
           manifest_json := manifest_json w;
           requests := requests w ++ [item_url item];
           stdout := stdout w ++ [Processing (fst item);
                                  Description (description (snd item));
                                  SizeApprox (size_mb (snd item));
                                  Downloading (item_path item);
                                  if b then DownloadedVerified (item_path item)
                                  else VerificationFailed (item_path item);
                                  Blank] |}))
  /\ (verify_file_size (<[item_path item := body_size r]> (fs w)) (item_path item)
        (size_mb (snd item)) default_tolerance = Ok false ->
      fs (snd (run w)) !! item_path item = Some (body_size r)
      /\ (exists l, requests (snd (run w)) = requests w ++ l
                    /\ NoDup l /\ item_url item ∈ l)
      /\ exists m e,
           manifest_json (snd (run w)) = Some m
           /\ Manifest.models m !! fst item = Some e
           /\ Manifest.filename e = item_path item
           /\ Manifest.size_bytes e = body_size r).
Proof.
  intros Hw Hin Hv Hnet Hok. split.
  - intros b Hb. destruct item as [name info]. unfold item_path, item_url in *.
    cbn [fst snd] in *.
    apply process_model_fetched; try done.
    destruct Hw as [Hs _].
    destruct (verify_file_size_total (fs w) (ggml_filename_of name) (size_mb info) Hs)
      as [b0 Hb0].
    { pose proof MODELS_convertible as Hc. rewrite Forall_forall in Hc.
      by apply (Hc (name, info)). }
    unfold verified_in, item_path in Hv. cbn [fst snd] in Hv. rewrite Hb0 in Hv.
    by destruct b0.
  - intros _.
    destruct (run_spec w Hw)
      as (m & w' & Hrun & Hman & _ & _ & _ & _ & Hown & _ & Hreq & _ & Hentries).
    rewrite Hrun. cbn [snd].
    assert (Hfile : fs w' !! item_path item = Some (body_size r)).
    { rewrite (Hown _ Hin). unfold settled. by rewrite Hv, Hnet, Hok. }
    split; [done|]. split.
    + exists (attempted (fs w) MODELS). split; [done|].
      split; [apply attempted_NoDup | by apply attempted_elem].
    + specialize (Hentries _ Hin). rewrite Hfile in Hentries.
      destruct Hentries as (mb & _ & He). eauto 10.
Qed.

Lemma unverified_download_is_kept_witness :
  let w := fresh_world tiny_bodies ∅ in
  fs (snd (run w)) !! "ggml-tiny.en-q5_1.bin" = Some 1%N
  /\ exists m e, manifest_json (snd (run w)) = Some m
                 /\ Manifest.models m !! "tiny.en" = Some e
                 /\ Manifest.filename e = "ggml-tiny.en-q5_1.bin"
                 /\ Manifest.size_bytes e = 1%N.
Proof.
  intros w.
  destruct (unverified_download_is_kept w
              ("tiny.en",
               {| original := "https://openaipublic.azureedge.net/main/whisper/models/d3dd57d32accea0b295c96e26691aa14d8822fac7d9d27d5dc00b4ca2826dd03/tiny.en.pt";
                  ggml := "https://huggingface.co/ggerganov/whisper.cpp/resolve/main/ggml-tiny.en-q5_1.bin";
                  size_mb := 39;
                  description := "Fastest, lowest accuracy - good for testing" |})
              {| status_code := 200; content_length := header_int 1;
                 chunks := [1%N]; truncated := false |}) as [_ Hrun].
  - apply world_ok_fresh; [apply sizes_ok_empty|].
    intros url r [= <-]. vm_compute. reflexivity.
  - left.
  - vm_compute. reflexivity.
  - reflexivity.
  - reflexivity.
  - destruct Hrun as (Hfile & _ & Hentry); [vm_compute; reflexivity|].
    split; [exact Hfile | exact Hentry].
Defined.

(** * Manifest fields *)

Section Tenths.

Lemma tenth_is_nearest (n : N) :
  (Qabs ((round_half_even (10 * Z.of_N n) (2 ^ 20) # 10) - size_in_MB n) <= 1 # 20)%Q.
Proof.
  pose proof (round_half_even_nearest (10 * Z.of_N n) (2 ^ 20) ltac:(lia)) as H.
  set (k := round_half_even (10 * Z.of_N n) (2 ^ 20)) in *.
  change (2 ^ 20) with 1048576 in H.
  apply Qabs_Qle_condition. unfold size_in_MB, Qle, Qminus, Qplus, Qopp.
  cbn [Qnum Qden]. split; lia.
Qed.

End Tenths.

(** C9, as amended.  The manifest a run writes carries the fixed text
    [2024-01-01T00:00:00Z] as [created_at], whatever the time of the run. *)
Theorem created_at_is_fixed (w : world) :
  world_ok w ->
  exists m,
    manifest_json (snd (run w)) = Some m
    /\ Manifest.created_at m = "2024-01-01T00:00:00Z".
Proof.
  intros Hw.
  destruct (run_spec w Hw) as (m & w' & Hrun & Hman & Hcreated & _).
  exists m. rewrite Hrun. done.
Qed.

Lemma created_at_is_fixed_witness :
  exists m,
    manifest_json (snd (run (at_time 1893456000 (fresh_world good_network ∅)))) = Some m
    /\ Manifest.created_at m = "2024-01-01T00:00:00Z".
Proof.
  apply created_at_is_fixed. split; [apply sizes_ok_empty|].
  intros url r [= <-]. unfold body_size. cbn [chunks].
  repeat case_decide; vm_compute; reflexivity.
Defined.

(** C9 as stated fails: two runs at different times write the same
    [created_at]. *)
Lemma created_at_ignores_the_clock :
  let early := at_time 1700000000 (fresh_world good_network ∅) in
  let late := at_time 1893456000 (fresh_world good_network ∅) in
  clock early <> clock late
  /\ Manifest.created_at <$> manifest_json (snd (run early))
     = Manifest.created_at <$> manifest_json (snd (run late))
  /\ Manifest.created_at <$> manifest_json (snd (run late))
     = Some "2024-01-01T00:00:00Z".
Proof. split; [done|]. split; vm_compute; reflexivity. Qed.

(** C10.  A failing fetch unlinks the file at the destination even when the
    file was there before the call.  So an entry whose file is present but
    does not verify, and whose fetch then fails, ends the run with no file
    and no manifest entry. *)
Theorem failed_refetch_removes_old_file (w : world) (item : string * model_info)
    (n : N) (d : string) :
  world_ok w ->
  item ∈ MODELS ->
  fs w !! item_path item = Some n ->
  verified_in (fs w) item = false ->
  fetch_succeeds (internet w (item_url item)) = false ->
  fst (download_file (item_url item) (item_path item) d w) = Ok false
  /\ fs (snd (download_file (item_url item) (item_path item) d w)) !! item_path item = None
  /\ fs (snd (run w)) !! item_path item = None
  /\ exists m, manifest_json (snd (run w)) = Some m
               /\ Manifest.models m !! fst item = None.
Proof.
  intros Hw Hin Hfile Hv Hf.
  destruct (download_file_fails (item_url item) (item_path item) d w Hf) as [e ->].
  cbn [fst snd fs]. split; [done|]. split; [apply lookup_delete_eq|].
  destruct (run_spec w Hw)
    as (m & w' & Hrun & Hman & _ & _ & _ & _ & Hown & _ & _ & _ & Hentries).
  rewrite Hrun. cbn [snd].
  assert (Hgone : fs w' !! item_path item = None).
  { rewrite (Hown _ Hin). by apply settled_failed. }
  split; [done|]. exists m. split; [done|].
  specialize (Hentries _ Hin). by rewrite Hgone in Hentries.
Qed.

Lemma failed_refetch_removes_old_file_witness :
  let w := fresh_world no_network {[ "ggml-small.en-q5_1.bin" := 1000%N ]} in
  fs w !! "ggml-small.en-q5_1.bin" = Some 1000%N
  /\ fs (snd (run w)) !! "ggml-small.en-q5_1.bin" = None
  /\ exists m, manifest_json (snd (run w)) = Some m
               /\ Manifest.models m !! "small.en" = None.
Proof.
  intros w. split; [reflexivity|].
  destruct (failed_refetch_removes_old_file w
              ("small.en",
               {| original := "https://openaipublic.azureedge.net/main/whisper/models/f953ad0fd29cacd07d5a9eda5624af0f6bcf2258be67c92b79389873d91e0872/small.en.pt";
                  ggml := "https://huggingface.co/ggerganov/whisper.cpp/resolve/main/ggml-small.en-q5_1.bin";
                  size_mb := 244;
                  description := "Slower, higher accuracy - for powerful devices" |})
              1000%N "small.en GGML") as (_ & _ & Hgone & Hentry).
  - apply world_ok_fresh; [|intros url r H; discriminate H].
    intros p n H. apply lookup_singleton_Some in H as [_ <-]. reflexivity.
  - right. right. left.
  - reflexivity.
  - vm_compute. reflexivity.
  - reflexivity.
  - split; [exact Hgone | exact Hentry].
Defined.

(** * More about the fetcher *)

Section DownloadEffects.

Lemma download_error_succeeds (o : outcome) :
  download_error o = None <-> fetch_succeeds o = true.
Proof.
  destruct o as [|r]; cbn; [done|].
  destruct (is_error_status (status_code r)), (header_ok (content_length r)), (truncated r); cbn; done.
Qed.

Lemma download_error_Exception (o : outcome) (e : exn) :
  download_error o = Some e -> is_Exception e = true.
Proof.
  destruct o as [|r]; cbn; [by intros [= <-]|].
  destruct (is_error_status (status_code r)), (header_ok (content_length r)), (truncated r); cbn; by intros [= <-].
Qed.

(** One call of [download_file], whatever the network does. *)
Lemma download_file_run (url p d : string) (w : world) :
  download_file url p d w
  = (Ok (fetch_succeeds (internet w url)),
     {| internet := internet w; clock := clock w;
        fs := fetched_fs (internet w url) p (fs w);
        manifest_json := manifest_json w;
        requests := requests w ++ [url];
        stdout := stdout w ++ match download_error (internet w url) with
                              | Some e => [ErrorDownloading url e]
                              | None => []
                              end |}).
Proof.
  destruct (fetch_succeeds (internet w url)) eqn:Hf.
  - destruct (internet w url) as [|r] eqn:Hnet; [done|].
    rewrite (download_file_succeeds url p d w r Hnet Hf).
    rewrite (proj2 (download_error_succeeds (Responded r)) Hf).
    unfold fetched_fs. rewrite Hf, app_nil_r. done.
  - unfold download_file.
    assert (Hbody : exists e w1,
      download_error (internet w url) = Some e
      /\ is_Exception e = true
      /\ (do response <- requests_get url ;
          raise_for_status response ;;
          do total_size <- content_length_int response ;
          open_wb p ;;
          iter_content response
            (fun chunk => if (0 <? chunk)%N then file_write p chunk else ret tt) ;;
          ret true)%M w = (Raise e, w1)
      /\ set_fs (delete p) (log_line (ErrorDownloading url e) w1)
         = {| internet := internet w; clock := clock w;
              fs := delete p (fs w);
              manifest_json := manifest_json w;
              requests := requests w ++ [url];
              stdout := stdout w ++ [ErrorDownloading url e] |}).
    { destruct (internet w url) as [|r] eqn:Hnet.
      { exists ConnectionError. eexists. split; [done|]. split; [done|]. split.
        - unfold bind, requests_get. rewrite Hnet. reflexivity.
        - done. }
      cbn [download_error].
      destruct (is_error_status (status_code r)) eqn:Hst.
      { eexists _, _. split; [done|]. split; [done|]. split.
        - unfold bind, requests_get, raise_for_status. rewrite Hnet, Hst. reflexivity.
        - done. }
      destruct (header_ok (content_length r)) eqn:Hh; cbn [negb].
      2:{ eexists _, _. split; [done|]. split; [done|]. split.
          - unfold bind, requests_get, raise_for_status, content_length_int.
            rewrite Hnet, Hst. destruct (content_length r); try done.
          - done. }
      destruct (truncated r) eqn:Htr.
      2:{ cbn in Hf. by rewrite Hst, Hh, Htr in Hf. }
      eexists _, _. split; [done|]. split; [done|]. split.
      - unfold bind at 1, requests_get. rewrite Hnet.
        unfold bind at 1, raise_for_status. rewrite Hst. unfold ret at 1.
        unfold bind at 1.
        assert (Hcl : exists n, content_length_int r = ret n).
        { unfold content_length_int. destruct (content_length r); eauto. done. }
        destruct Hcl as [n ->]. unfold ret at 1.
        unfold bind at 1, open_wb. unfold bind at 1, iter_content, bind at 1.
        rewrite (write_chunks p (chunks r) _ 0%N) by (cbn; by rewrite lookup_insert_eq).
        rewrite Htr. unfold raise. reflexivity.
      - unfold set_fs, log_line, log_request. cbn. f_equal.
        by rewrite insert_insert_eq, delete_insert_eq. }
    destruct Hbody as (e & w1 & -> & Hexc & Hrun & Hw1).
    erewrite try_except_raise; [|exact Hrun|exact Hexc].
    rewrite download_file_handler. rewrite Hw1. f_equal. f_equal.
    unfold fetched_fs. destruct (internet w url); [done|]. by rewrite Hf.
Qed.

End DownloadEffects.

(** X1.  [download_file] never raises: whatever the network does, it
    returns a boolean.  It returns [True] exactly when a response arrived
    whose status is outside 400 to 599, whose content-length header, if
    there is one, reads as an integer, and whose body stream came to its
    end. *)
Theorem download_file_returns (url p d : string) (w : world) :
  exists b,
    fst (download_file url p d w) = Ok b
    /\ (b = true <->
        exists r, internet w url = Responded r
                  /\ ~ (400 <= status_code r < 600)
                  /\ content_length r <> header_malformed
                  /\ truncated r = false).
Proof.
  rewrite download_file_run. cbn [fst]. eexists. split; [reflexivity|].
  destruct (internet w url) as [|r]; cbn [fetch_succeeds].
  { split; [done | by intros (r & ? & _)]. }
  rewrite !andb_true_iff, !negb_true_iff. unfold is_error_status.
  rewrite andb_false_iff, Z.leb_gt, Z.ltb_ge.
  split.
  - intros [[Hst Hh] Htr]. exists r. split; [done|]. split; [lia|]. split; [|done].
    intros Hm. by rewrite Hm in Hh.
  - intros (r' & [= <-] & Hst & Hh & Htr). split; [split|done]; [lia|].
    by destruct (content_length r).
Qed.

(** X2.  When [download_file] returns [True], the file at the destination
    holds exactly the bytes of the body, the sum of the chunks received:
    whatever was at the destination before is replaced. *)
Theorem download_file_writes_body (url p d : string) (w : world) (r : response) :
  internet w url = Responded r ->
  fst (download_file url p d w) = Ok true ->
  fs (snd (download_file url p d w)) !! p = Some (body_size r).
Proof.
  rewrite download_file_run. cbn [fst snd fs]. intros Hnet [= Hok].
  rewrite fetched_fs_lookup, Hnet. rewrite Hnet in Hok. by rewrite Hok.
Qed.

Lemma download_file_writes_body_witness :
  let w := fresh_world good_network {[ "ggml-tiny.en-q5_1.bin" := 7%N ]} in
  fs (snd (download_file
             "https://huggingface.co/ggerganov/whisper.cpp/resolve/main/ggml-tiny.en-q5_1.bin"
             "ggml-tiny.en-q5_1.bin" "" w))
    !! "ggml-tiny.en-q5_1.bin" = Some 40894464%N.
Proof.
  intros w.
  apply (download_file_writes_body
           "https://huggingface.co/ggerganov/whisper.cpp/resolve/main/ggml-tiny.en-q5_1.bin"
           "ggml-tiny.en-q5_1.bin" "" w
           {| status_code := 200; content_length := header_absent;
              chunks := [40894464%N]; truncated := false |}).
  - reflexivity.
  - vm_compute. reflexivity.
Defined.

(** X3.  One call of [download_file] issues exactly one GET, for the URL
    it was given, whether it succeeds or fails: there is no retry.  It
    touches no file other than its destination: when the destination is
    not [manifest.json], the manifest file is left as it was. *)
Theorem download_file_footprint (url p d : string) (w : world) :
  let w' := snd (download_file url p d w) in
  requests w' = requests w ++ [url]
  /\ (forall q, q <> p -> fs w' !! q = fs w !! q)
  /\ (p <> "manifest.json" -> manifest_json w' = manifest_json w)
  /\ internet w' = internet w.
Proof.
  rewrite download_file_run. cbn [snd requests fs manifest_json internet].
  split; [done|]. split; [|done].
  intros q Hq. by apply fetched_fs_lookup_ne.
Qed.

Lemma download_file_footprint_witness :
  let w := fresh_world no_network tiny_and_notes in
  let w' := snd (download_file "https://example.org/m.bin" "ggml-tiny.en-q5_1.bin" "" w) in
  requests w' = ["https://example.org/m.bin"] /\ fs w' !! "notes.txt" = Some 12%N
  /\ manifest_json w' = manifest_json w.
Proof.
  intros w w'.
  destruct (download_file_footprint "https://example.org/m.bin" "ggml-tiny.en-q5_1.bin" "" w)
    as (Hreq & Hfs & Hman & _).
  split; [exact Hreq|]. split.
  - exact (eq_trans (Hfs "notes.txt" ltac:(discriminate)) eq_refl).
  - apply Hman. discriminate.
Defined.

(** X4.  [download_file] prints nothing when it succeeds and exactly one
    line when it fails, the line that reports the exception caught.  A
    status from 400 to 599 is reported as the [HTTPError] of that status,
    whatever else is wrong with the response, and a connection that could
    not be made as a [ConnectionError]. *)
Theorem download_file_report (url p d : string) (w : world) :
  let res := download_file url p d w in
  (fst res = Ok true -> stdout (snd res) = stdout w)
  /\ (fst res = Ok false ->
      exists e, is_Exception e = true
                /\ stdout (snd res) = stdout w ++ [ErrorDownloading url e])
  /\ (forall r, internet w url = Responded r -> 400 <= status_code r < 600 ->
        stdout (snd res) = stdout w ++ [ErrorDownloading url (HTTPError (status_code r))])
  /\ (internet w url = Unreachable ->
      stdout (snd res) = stdout w ++ [ErrorDownloading url ConnectionError]).
Proof.
  rewrite download_file_run. cbn [fst snd stdout].
  split; [|split; [|split]].
  - intros [= Hok]. apply download_error_succeeds in Hok. by rewrite Hok, app_nil_r.
  - intros [= Hfail].
    destruct (download_error (internet w url)) as [e|] eqn:He.
    + exists e. split; [by eapply download_error_Exception | done].
    + apply download_error_succeeds in He. congruence.
  - intros r -> Hst. cbn [download_error]. unfold is_error_status.
    replace (400 <=? status_code r) with true by (symmetry; apply Z.leb_le; lia).
    replace (status_code r <? 600) with true by (symmetry; apply Z.ltb_lt; lia).
    done.
  - by intros ->.
Qed.

Lemma download_file_report_witness :
  let w := fresh_world tiny_is_gone ∅ in
  stdout (snd (download_file (item_url tiny_en) (item_path tiny_en) "" w))
  = [ErrorDownloading (item_url tiny_en) (HTTPError 404)].
Proof.
  intros w.
  apply (proj1 (proj2 (proj2 (download_file_report (item_url tiny_en) (item_path tiny_en) "" w)))
           {| status_code := 404; content_length := header_int 9;
              chunks := [9%N]; truncated := false |}).
  - reflexivity.
  - cbn. lia.
Defined.

(** * File names *)

Section Names.

Lemma string_app_cons (c : Ascii.ascii) (a b : string) :
  String c a +:+ b = String c (a +:+ b).
Proof. reflexivity. Qed.

Lemma string_app_length (a b : string) :
  String.length (a +:+ b) = (String.length a + String.length b)%nat.
Proof.
  induction a as [|c a IH]; [done|].
  rewrite string_app_cons. cbn [String.length]. by rewrite IH.
Qed.

Lemma string_app_inj_r (a b s : string) : a +:+ s = b +:+ s -> a = b.
Proof.
  revert b. induction a as [|c a IH]; intros [|c' b] H.
  - done.
  - apply (f_equal String.length) in H. rewrite string_app_cons in H.
    cbn [String.length] in H. rewrite !string_app_length in H. cbn [String.length] in H. lia.
  - apply (f_equal String.length) in H. rewrite string_app_cons in H.
    cbn [String.length] in H. rewrite !string_app_length in H. cbn [String.length] in H. lia.
  - rewrite !string_app_cons in H. injection H as -> H. f_equal. by apply IH.
Qed.

End Names.

(** X5.  The file name built from a model name determines the model name:
    two different names never share a file.  No model name gives the name
    of the manifest file. *)
Theorem ggml_filename_of_inj (a b : string) :
  (ggml_filename_of a = ggml_filename_of b -> a = b)
  /\ ggml_filename_of a <> "manifest.json".
Proof.
  unfold ggml_filename_of. split.
  - intros H. apply (inj (String.app "ggml-")) in H. by apply string_app_inj_r in H.
  - discriminate.
Qed.

Lemma ggml_filename_of_inj_witness :
  fst tiny_en = "tiny.en" /\ ggml_filename_of "tiny.en" <> "manifest.json".
Proof.
  destruct (ggml_filename_of_inj (fst tiny_en) "tiny.en") as [Hinj Hne].
  split; [apply Hinj; reflexivity | exact Hne].
Defined.

(** * More about whole runs *)

Section RunReport.

Lemma world_ext (w w' : world) :
  internet w = internet w' -> clock w = clock w' -> fs w = fs w' ->
  manifest_json w = manifest_json w' -> requests w = requests w' ->
  stdout w = stdout w' -> w = w'.
Proof. destruct w, w'; cbn; congruence. Qed.

Lemma log_line_stdout (l : line) (w : world) : stdout (log_line l w) = stdout w ++ [l].
Proof. reflexivity. Qed.

(** [run] once both loops have gone through. *)
Lemma main_tail (w w1 : world) (m : Manifest.t) :
  for_each MODELS process_model (prelude w) = (Ok tt, w1) ->
  fold_M record_model empty_manifest MODELS w1 = (Ok m, w1) ->
  run w = (exit_status m,
           {| internet := internet w1; clock := clock w1; fs := fs w1;
              manifest_json := Some m; requests := requests w1;
              stdout := stdout w1 ++ summary (size (Manifest.models m)) |}).
Proof.
  intros Hloop Hrec.
  unfold run, main. rewrite !bind_print. fold (prelude w).
  erewrite bind_value; [|exact Hloop]. cbv beta.
  erewrite bind_value; [|exact Hrec]. cbv beta.
  unfold exit_status, summary. unfold json_dump at 1. unfold bind at 1.
  rewrite !bind_print.
  case_bool_decide.
  - rewrite !bind_print. unfold print. cbv beta iota. f_equal.
    apply world_ext; rewrite ?log_line_stdout, <- ?app_assoc; reflexivity.
  - rewrite !bind_print. unfold sys_exit, raise. cbv beta iota. f_equal.
    apply world_ext; rewrite ?log_line_stdout, <- ?app_assoc; reflexivity.
Qed.

Lemma run_report (w : world) :
  world_ok w ->
  exists m w1,
    for_each MODELS process_model (prelude w) = (Ok tt, w1)
    /\ Manifest.version m = "1.0.0"
    /\ run w = (exit_status m,
                {| internet := internet w1; clock := clock w1; fs := fs w1;
                   manifest_json := Some m; requests := requests w1;
                   stdout := stdout w1 ++ summary (size (Manifest.models m)) |}).
Proof.
  intros Hw.
  destruct (first_loop MODELS (prelude w) (world_ok_prelude w Hw)
              MODELS_convertible MODELS_paths_NoDup)
    as (w1 & Hloop & _ & _ & _ & [Hs1 _] & _).
  destruct (second_loop MODELS empty_manifest w1 Hs1 MODELS_names_NoDup)
    as (m & Hrec & _ & Hversion & _).
  exists m, w1. split; [done|]. split; [by rewrite Hversion|].
  by apply main_tail.
Qed.

Lemma run_writes_manifest (w : world) :
  world_ok w -> exists m, manifest_json (snd (run w)) = Some m.
Proof.
  intros Hw. destruct (run_spec w Hw) as (m' & w' & Hrun & Hman & _).
  rewrite Hrun. eauto.
Qed.

Lemma run_status (w : world) (m : Manifest.t) :
  world_ok w -> manifest_json (snd (run w)) = Some m -> fst (run w) = exit_status m.
Proof.
  intros Hw Hm. destruct (run_spec w Hw) as (m' & w' & Hrun & Hman & _).
  rewrite Hrun in *. cbn [fst snd] in *. congruence.
Qed.

Lemma world_ok_run (w : world) : world_ok w -> world_ok (snd (run w)).
Proof.
  intros Hw. destruct (run_spec w Hw) as (m' & w' & Hrun & _ & _ & Hnet & _ & Hs & _).
  rewrite Hrun. cbn [snd]. split; [done|]. unfold bodies_ok. rewrite Hnet. apply Hw.
Qed.

(** The manifest is a function of the directory the run ends with. *)
Lemma manifest_of_final_fs (wa wb : world) (ma mb : Manifest.t) :
  world_ok wa -> world_ok wb ->
  manifest_json (snd (run wa)) = Some ma ->
  manifest_json (snd (run wb)) = Some mb ->
  fs (snd (run wa)) = fs (snd (run wb)) ->
  ma = mb.
Proof.
  intros Ha Hb Hma Hmb Hfs.
  destruct (run_report wa Ha) as (ma' & wa1 & _ & Hva & Hra).
  destruct (run_report wb Hb) as (mb' & wb1 & _ & Hvb & Hrb).
  destruct (run_spec wa Ha)
    as (ma'' & wa' & Hra' & Hmana & Hca & _ & _ & _ & _ & _ & _ & Hoa & Hea).
  destruct (run_spec wb Hb)
    as (mb'' & wb' & Hrb' & Hmanb & Hcb & _ & _ & _ & _ & _ & _ & Hob & Heb).
  rewrite Hra' in Hma, Hfs, Hra. rewrite Hrb' in Hmb, Hfs, Hrb. cbn [snd] in *.
  assert (ma'' = ma) by congruence. assert (mb'' = mb) by congruence. subst ma'' mb''.
  assert (ma' = ma).
  { injection Hra as _ Hw. rewrite Hw in Hmana. cbn in Hmana. congruence. }
  assert (mb' = mb).
  { injection Hrb as _ Hw. rewrite Hw in Hmanb. cbn in Hmanb. congruence. }
  subst ma' mb'. clear Hra Hrb.
  destruct ma as [ma ca va], mb as [mb cb vb]. cbn in *. subst.
  f_equal. apply map_eq. intros name.
  destruct (decide (name ∈ fst <$> MODELS)) as [Hin | Hout].
  2:{ by rewrite Hoa, Hob. }
  destruct (MODELS_name_elem name Hin) as [info Hinfo].
  specialize (Hea _ Hinfo). specialize (Heb _ Hinfo). rewrite Hfs in Hea. cbn [fst] in *.
  destruct (fs wb' !! item_path (name, info)) as [n|].
  - destruct Hea as (x & Hx & ->). destruct Heb as (y & Hy & ->). congruence.
  - congruence.
Qed.

Lemma settled_local (wa wb : world) (item : string * model_info) :
  fs wa !! item_path item = fs wb !! item_path item ->
  internet wa (item_url item) = internet wb (item_url item) ->
  settled wa item = settled wb item.
Proof.
  intros Hf Hn. unfold settled.
  by rewrite (verified_in_local (fs wa) (fs wb) item Hf), Hf, Hn.
Qed.

(** The manifest entry of a catalog item, read off the final directory. *)
Lemma run_entry (w : world) (item : string * model_info) :
  world_ok w -> item ∈ MODELS ->
  exists m, manifest_json (snd (run w)) = Some m
    /\ Manifest.models m !! fst item
       = match fs (snd (run w)) !! item_path item with
         | Some n => match int_truediv (Z.of_N n) (1024 * 1024) with
                     | Ok mb => Some (manifest_entry item n mb)
                     | Raise _ => None
                     end
         | None => None
         end.
Proof.
  intros Hw Hin.
  destruct (run_spec w Hw)
    as (m & w' & Hrun & Hman & _ & _ & _ & _ & _ & _ & _ & _ & Hentries).
  rewrite Hrun. cbn [snd]. exists m. split; [done|].
  specialize (Hentries _ Hin).
  destruct (fs w' !! item_path item) as [n|]; [|done].
  destruct Hentries as (mb & -> & ->). done.
Qed.

Lemma final_fs_determined (wa wb : world) :
  world_ok wa -> world_ok wb ->
  fs wa = fs wb ->
  (forall item, item ∈ MODELS -> internet wa (item_url item) = internet wb (item_url item)) ->
  fs (snd (run wa)) = fs (snd (run wb)).
Proof.
  intros Ha Hb Hfs Hnet.
  destruct (run_spec wa Ha) as (ma & wa' & -> & _ & _ & _ & _ & _ & Hoa & Hfa & _).
  destruct (run_spec wb Hb) as (mb & wb' & -> & _ & _ & _ & _ & _ & Hob & Hfb & _).
  cbn [snd]. apply map_eq. intros p.
  destruct (decide (p ∈ item_path <$> MODELS)) as [Hin | Hout].
  - apply list_elem_of_fmap in Hin as (item & -> & Hin).
    rewrite (Hoa _ Hin), (Hob _ Hin). apply settled_local; [by rewrite Hfs | by apply Hnet].
  - rewrite Hfa, Hfb by done. by rewrite Hfs.
Qed.

(** The entries of the manifest a run writes, with where they come from. *)
Lemma manifest_entry_of_run (w : world) (m : Manifest.t) (name : string)
    (e : Manifest.entry) :
  world_ok w ->
  manifest_json (snd (run w)) = Some m ->
  Manifest.models m !! name = Some e ->
  exists info n mb,
    (name, info) ∈ MODELS
    /\ fs (snd (run w)) !! ggml_filename_of name = Some n
    /\ (n < 2 ^ 53)%N
    /\ int_truediv (Z.of_N n) (1024 * 1024) = Ok mb
    /\ e = manifest_entry (name, info) n mb.
Proof.
  intros Hw Hman He.
  destruct (run_spec w Hw)
    as (m' & w' & Hrun & Hman' & _ & _ & _ & Hs & _ & _ & _ & Hother & Hentries).
  rewrite Hrun in *. cbn [snd] in *.
  assert (m' = m) by congruence. subst m'.
  destruct (decide (name ∈ fst <$> MODELS)) as [Hin | Hout].
  2:{ rewrite Hother in He by done. done. }
  destruct (MODELS_name_elem name Hin) as [info Hinfo].
  specialize (Hentries _ Hinfo). cbn [fst] in Hentries.
  destruct (fs w' !! item_path (name, info)) as [n|] eqn:Hfile.
  2:{ rewrite Hentries in He. done. }
  destruct Hentries as (mb & Hmb & Hentry).
  rewrite Hentry in He. injection He as <-.
  exists info, n, mb. split; [done|]. split; [done|]. split; [by eapply Hs|]. done.
Qed.

End RunReport.

(** ** The worlds used as concrete inputs are within the size bound *)

Section Worlds.

Lemma good_network_ok : bodies_ok good_network.
Proof.
  intros url r [= <-]. unfold body_size. cbn [chunks].
  repeat case_decide; vm_compute; reflexivity.
Qed.

Lemma tiny_is_gone_ok : bodies_ok tiny_is_gone.
Proof.
  intros url r. unfold tiny_is_gone. case_decide.
  - intros [= <-]. vm_compute. reflexivity.
  - apply good_network_ok.
Qed.

Lemma tiny_bodies_ok : bodies_ok tiny_bodies.
Proof. intros url r [= <-]. vm_compute. reflexivity. Qed.

Lemma no_network_ok : bodies_ok no_network.
Proof. intros url r H. discriminate H. Qed.

Lemma tiny_and_notes_ok : sizes_ok tiny_and_notes.
Proof.
  intros p n H. unfold tiny_and_notes in H.
  apply lookup_insert_Some in H as [[_ <-] | [_ H]]; [reflexivity|].
  apply lookup_singleton_Some in H as [_ <-]. reflexivity.
Qed.

End Worlds.

(** X6.  The catalog entries are handled independently of one another.
    Two runs that start with the same file for an entry, and whose GETs of
    that entry's URL are answered alike, end with the same file for it and
    the same manifest entry, whatever the files and the fetches of the
    other entries do. *)
Theorem entries_are_independent (wa wb : world) (item : string * model_info) :
  world_ok wa -> world_ok wb ->
  item ∈ MODELS ->
  fs wa !! item_path item = fs wb !! item_path item ->
  internet wa (item_url item) = internet wb (item_url item) ->
  fs (snd (run wa)) !! item_path item = fs (snd (run wb)) !! item_path item
  /\ exists ma mb,
       manifest_json (snd (run wa)) = Some ma
       /\ manifest_json (snd (run wb)) = Some mb
       /\ Manifest.models ma !! fst item = Manifest.models mb !! fst item.
Proof.
  intros Ha Hb Hin Hf Hn.
  assert (Hfinal : fs (snd (run wa)) !! item_path item = fs (snd (run wb)) !! item_path item).
  { destruct (run_spec wa Ha) as (ma & wa' & -> & _ & _ & _ & _ & _ & Hoa & _).
    destruct (run_spec wb Hb) as (mb & wb' & -> & _ & _ & _ & _ & _ & Hob & _).
    cbn [snd]. rewrite (Hoa _ Hin), (Hob _ Hin). by apply settled_local. }
  split; [done|].
  destruct (run_entry wa item Ha Hin) as (ma & Hma & Hea).
  destruct (run_entry wb item Hb Hin) as (mb & Hmb & Heb).
  exists ma, mb. split; [done|]. split; [done|]. by rewrite Hea, Heb, Hfinal.
Qed.

Lemma entries_are_independent_witness :
  fs (snd (run (fresh_world good_network ∅))) !! item_path base_en
  = fs (snd (run (fresh_world tiny_is_gone ∅))) !! item_path base_en.
Proof.
  apply (entries_are_independent (fresh_world good_network ∅) (fresh_world tiny_is_gone ∅)
           base_en).
  - apply world_ok_fresh; [apply sizes_ok_empty | apply good_network_ok].
  - apply world_ok_fresh; [apply sizes_ok_empty | apply tiny_is_gone_ok].
  - right. left.
  - reflexivity.
  - reflexivity.
Defined.

(** X7.  A run creates, changes and removes no file but the catalog's and
    [manifest.json], which it writes: a file whose name is neither
    [manifest.json] nor the file name of a catalog entry is at the end what
    it was at the start.  A catalog file that passes the size check at the
    start is left as it is, whatever happens to the other entries.  The
    network is not changed. *)
Theorem run_leaves_alone (w : world) :
  world_ok w ->
  (forall p, p <> "manifest.json" ->
     (forall item, item ∈ MODELS -> p <> ggml_filename_of (fst item)) ->
     fs (snd (run w)) !! p = fs w !! p)
  /\ (forall item, item ∈ MODELS -> verified_in (fs w) item = true ->
        fs (snd (run w)) !! item_path item = fs w !! item_path item)
  /\ internet (snd (run w)) = internet w.
Proof.
  intros Hw.
  destruct (run_spec w Hw) as (m & w' & -> & _ & _ & Hnet & _ & _ & Hown & Hframe & _).
  cbn [snd]. split; [|split; [|done]].
  - intros p _ Hp. apply Hframe. intros (item & -> & Hin)%list_elem_of_fmap.
    by apply (Hp item Hin).
  - intros item Hin Hv. rewrite (Hown _ Hin). unfold settled. by rewrite Hv.
Qed.

Lemma run_leaves_alone_witness :
  let w := fresh_world no_network tiny_and_notes in
  fs (snd (run w)) !! "notes.txt" = Some 12%N
  /\ fs (snd (run w)) !! item_path tiny_en = Some 40894464%N.
Proof.
  intros w.
  destruct (run_leaves_alone w) as (Hother & Hverified & _).
  - apply world_ok_fresh; [apply tiny_and_notes_ok | apply no_network_ok].
  - split.
    + refine (eq_trans (Hother "notes.txt" _ _) eq_refl); [discriminate|].
      intros item Hin.
      repeat (apply elem_of_cons in Hin as [-> | Hin]);
        [discriminate .. | by apply elem_of_nil in Hin].
    + refine (eq_trans (Hverified tiny_en _ _) eq_refl).
      * left.
      * vm_compute. reflexivity.
Defined.

(** X8.  The GETs of a run are, in catalog order, the [ggml] URLs of the
    entries whose file does not pass the size check at the start: one
    request for each of them and none for the others, however a fetch
    ends.  No [original] URL of the catalog is ever requested. *)
Theorem run_requests (w : world) :
  world_ok w ->
  requests (snd (run w)) = requests w ++ attempted (fs w) MODELS
  /\ attempted (fs w) MODELS
     = (fun item => ggml (snd item))
         <$> filter (fun item => verified_in (fs w) item = false) MODELS
  /\ NoDup (attempted (fs w) MODELS)
  /\ (forall item, item ∈ MODELS -> original (snd item) ∉ attempted (fs w) MODELS).
Proof.
  intros Hw.
  destruct (run_spec w Hw) as (m & w' & -> & _ & _ & _ & _ & _ & _ & _ & Hreq & _).
  cbn [snd]. split; [exact Hreq|]. split; [reflexivity|]. split; [apply attempted_NoDup|].
  intros item Hin Hel.
  assert (Hsub : attempted (fs w) MODELS ⊆ item_url <$> MODELS).
  { unfold attempted. intros u (i & -> & Hi)%list_elem_of_fmap.
    apply list_elem_of_fmap_2. by apply list_elem_of_filter in Hi as [_ Hi]. }
  apply Hsub in Hel. revert Hel.
  repeat (apply elem_of_cons in Hin as [-> | Hin]); [ | | | by apply elem_of_nil in Hin];
    apply (bool_decide_unpack _); vm_compute; exact I.
Qed.

Lemma run_requests_witness :
  requests (snd (run (fresh_world good_network tiny_and_notes)))
  = drop 1 (item_url <$> MODELS).
Proof.
  destruct (run_requests (fresh_world good_network tiny_and_notes)) as (Hreq & _).
  - apply world_ok_fresh; [apply tiny_and_notes_ok | apply good_network_ok].
  - refine (eq_trans Hreq _). vm_compute. reflexivity.
Defined.

(** X9.  The exit status, the final directory and the manifest of a run
    depend on the directory and the network it starts with and on nothing
    else: a manifest file from an earlier run is never read and is
    replaced, and the time, and what was printed or requested before, play
    no part. *)
Theorem run_depends_on_files_and_network (wa wb : world) :
  world_ok wa ->
  fs wa = fs wb ->
  internet wa = internet wb ->
  fst (run wa) = fst (run wb)
  /\ fs (snd (run wa)) = fs (snd (run wb))
  /\ manifest_json (snd (run wa)) = manifest_json (snd (run wb))
  /\ is_Some (manifest_json (snd (run wb))).
Proof.
  intros Ha Hfs Hnet.
  assert (Hb : world_ok wb).
  { destruct Ha as [H1 H2]. split; [by rewrite <- Hfs | by rewrite <- Hnet]. }
  assert (Hfinal : fs (snd (run wa)) = fs (snd (run wb))).
  { apply final_fs_determined; try done. intros item _. by rewrite Hnet. }
  destruct (run_writes_manifest wa Ha) as [ma Hma].
  destruct (run_writes_manifest wb Hb) as [mb Hmb].
  assert (ma = mb) by exact (manifest_of_final_fs wa wb ma mb Ha Hb Hma Hmb Hfinal).
  subst mb.
  rewrite (run_status wa ma Ha Hma), (run_status wb ma Hb Hmb), Hma, Hmb. eauto.
Qed.

Lemma run_depends_on_files_and_network_witness :
  let wa := fresh_world good_network ∅ in
  let wb := set_manifest_json stale_manifest (at_time 946684799 wa) in
  manifest_json wb = Some stale_manifest
  /\ manifest_json (snd (run wa)) = manifest_json (snd (run wb)).
Proof.
  intros wa wb. split; [reflexivity|].
  destruct (run_depends_on_files_and_network wa wb) as (_ & _ & Hman & _).
  - apply world_ok_fresh; [apply sizes_ok_empty | apply good_network_ok].
  - reflexivity.
  - reflexivity.
  - exact Hman.
Defined.

(** X10.  Every entry of the manifest a run writes is filed under a catalog
    name and carries the file name built from that name, the catalog's
    description of the model, and the format tag [ggml-q5_1]; the manifest
    itself carries the version [1.0.0]. *)
Theorem manifest_entry_fields (w : world) (m : Manifest.t) (name : string)
    (e : Manifest.entry) :
  world_ok w ->
  manifest_json (snd (run w)) = Some m ->
  Manifest.models m !! name = Some e ->
  Manifest.version m = "1.0.0"
  /\ Manifest.format e = "ggml-q5_1"
  /\ Manifest.filename e = "ggml-" +:+ name +:+ "-q5_1.bin"
  /\ exists info, (name, info) ∈ MODELS /\ Manifest.description e = description info.
Proof.
  intros Hw Hman He.
  destruct (run_report w Hw) as (m1 & w1 & _ & Hversion & Hrun1).
  assert (m1 = m).
  { rewrite Hrun1 in Hman. cbn in Hman. congruence. }
  subst m1. split; [done|].
  destruct (manifest_entry_of_run w m name e Hw Hman He)
    as (info & n & mb & Hinfo & _ & _ & _ & ->).
  split; [done|]. split; [done|]. by exists info.
Qed.

Lemma manifest_entry_fields_witness :
  let w := fresh_world good_network ∅ in
  exists m e,
    manifest_json (snd (run w)) = Some m
    /\ Manifest.models m !! "base.en" = Some e
    /\ Manifest.version m = "1.0.0"
    /\ Manifest.format e = "ggml-q5_1"
    /\ Manifest.filename e = "ggml-base.en-q5_1.bin".
Proof.
  intros w.
  assert (Hm : exists m, manifest_json (snd (run w)) = Some m).
  { vm_compute. eexists. reflexivity. }
  destruct Hm as [m Hm].
  assert (He : exists e, Manifest.models m !! "base.en" = Some e).
  { revert Hm. vm_compute. intros [= <-]. vm_compute. eexists. reflexivity. }
  destruct He as [e He].
  exists m, e. split; [exact Hm|]. split; [exact He|].
  destruct (manifest_entry_fields w m "base.en" e) as (Hv & Hf & Hn & _).
  - apply world_ok_fresh; [apply sizes_ok_empty | apply good_network_ok].
  - exact Hm.
  - exact He.
  - split; [exact Hv|]. split; [exact Hf | exact Hn].
Defined.

(** X11.  A second run, against a network that answers as it did during
    the first, changes nothing: it ends with the directory the first run
    left, writes the same manifest again and exits with the same status. *)
Theorem second_run_is_idle (w : world) :
  world_ok w ->
  let w1 := snd (run w) in
  fs (snd (run w1)) = fs w1
  /\ manifest_json (snd (run w1)) = manifest_json w1
  /\ fst (run w1) = fst (run w).
Proof.
  intros Hw w1.
  pose proof (world_ok_run w Hw) as Hw1. fold w1 in Hw1.
  assert (Hfs : fs (snd (run w1)) = fs w1).
  { destruct (run_spec w Hw) as (m & w' & Hrun & _ & _ & Hnet & _ & _ & Hown & Hframe & _).
    destruct (run_spec w1 Hw1) as (m1 & w1' & Hrun1 & _ & _ & _ & _ & _ & Hown1 & Hframe1 & _).
    rewrite Hrun1. cbn [snd]. subst w1. rewrite Hrun in *. cbn [snd] in *.
    apply map_eq. intros p.
    destruct (decide (p ∈ item_path <$> MODELS)) as [Hin | Hout]; [|by apply Hframe1].
    apply list_elem_of_fmap in Hin as (item & -> & Hin).
    rewrite (Hown1 _ Hin). unfold settled at 1.
    destruct (verified_in (fs w') item) eqn:Hv'; [done|].
    rewrite Hnet, (Hown _ Hin). unfold settled.
    destruct (verified_in (fs w) item) eqn:Hv; [|done].
    rewrite (verified_in_local (fs w') (fs w) item) in Hv'; [congruence|].
    rewrite (Hown _ Hin). unfold settled. by rewrite Hv. }
  split; [done|].
  destruct (run_writes_manifest w Hw) as [m Hm]. fold w1 in Hm.
  destruct (run_writes_manifest w1 Hw1) as [m1 Hm1].
  assert (m1 = m) by exact (manifest_of_final_fs w1 w m1 m Hw1 Hw Hm1 Hm Hfs).
  subst m1. rewrite Hm1, Hm. split; [done|].
  by rewrite (run_status w m Hw Hm), (run_status w1 m Hw1 Hm1).
Qed.

Lemma second_run_is_idle_witness :
  let w1 := snd (run (fresh_world tiny_bodies ∅)) in
  fs w1 !! item_path tiny_en = Some 1%N
  /\ fs (snd (run w1)) = fs w1
  /\ manifest_json (snd (run w1)) = manifest_json w1.
Proof.
  intros w1. split; [vm_compute; reflexivity|].
  destruct (second_run_is_idle (fresh_world tiny_bodies ∅)) as (Hfs & Hman & _).
  - apply world_ok_fresh; [apply sizes_ok_empty | apply tiny_bodies_ok].
  - split; [exact Hfs | exact Hman].
Defined.

(** * Runs in any world *)

Section Keeps.

Variable R : world -> world -> Prop.
Variable P : exn -> Prop.
Hypothesis R_refl : forall w, R w w.
Hypothesis R_trans : forall w1 w2 w3, R w1 w2 -> R w2 w3 -> R w1 w3.
Hypothesis R_print : forall l w, R w (log_line l w).
Hypothesis R_download : forall url p d w, R w (snd (download_file url p d w)).
Hypothesis P_Exception : forall e, is_Exception e = true -> P e.

Lemma keeps_ret {A} (a : A) : keeps R P (ret a).
Proof. intros w. split; [apply R_refl | done]. Qed.

Lemma keeps_bind {A B} (c : M A) (k : A -> M B) :
  keeps R P c -> (forall a, keeps R P (k a)) -> keeps R P (bind c k).
Proof.
  intros Hc Hk w. unfold bind. specialize (Hc w).
  destruct (c w) as [[a|e] w1]; cbn [fst snd] in *; [|done].
  destruct (Hk a w1) as [H1 H2]. split; [|done]. eapply R_trans; [apply Hc | done].
Qed.

Lemma keeps_print (l : line) : keeps R P (print l).
Proof. intros w. split; [apply R_print | done]. Qed.

Lemma keeps_path_exists (p : path) : keeps R P (path_exists p).
Proof. intros w. split; [apply R_refl | done]. Qed.

(** The size verifier raises nothing but arithmetic errors. *)
Lemma verify_file_size_Exception (f : gmap path N) (p : path) (E : Z) (t : float) (e : exn) :
  verify_file_size f p E t = Raise e -> is_Exception e = true.
Proof.
  unfold verify_file_size, int_truediv, int_sub_float, int_add_float, int_mul_float,
    int_to_float.
  destruct (f !! p); [|done].
  repeat (match goal with
          | |- context [if ?b then _ else _] => destruct b
          end; cbn [result_bind]); by intros [= <-].
Qed.

Lemma keeps_verify (p : path) (E : Z) : keeps R P (verify p E).
Proof.
  intros w. split; [apply R_refl|]. unfold verify. cbn [fst].
  destruct (verify_file_size _ _ _ _) as [b|e] eqn:H; [done|].
  eapply P_Exception, verify_file_size_Exception, H.
Qed.

Lemma keeps_download_file (url p d : string) : keeps R P (download_file url p d).
Proof. intros w. split; [apply R_download|]. by rewrite download_file_run. Qed.

Lemma keeps_process_model (item : string * model_info) : keeps R P (process_model item).
Proof.
  destruct item as [name info]. unfold process_model.
  repeat first
    [ apply keeps_print | apply keeps_path_exists | apply keeps_verify
    | apply keeps_download_file | apply keeps_ret
    | apply keeps_bind; [|intros ?]
    | match goal with |- keeps _ _ (if ?b then _ else _) => destruct b end ].
Qed.

Lemma keeps_for_each {A} (xs : list A) (body : A -> M unit) :
  (forall x, keeps R P (body x)) -> keeps R P (for_each xs body).
Proof.
  intros Hb. induction xs as [|x xs IH]; cbn [for_each]; [apply keeps_ret|].
  apply keeps_bind; [apply Hb | by intros _].
Qed.

Lemma keeps_first_loop : keeps R P (for_each MODELS process_model).
Proof. apply keeps_for_each, keeps_process_model. Qed.

End Keeps.

Section AnyWorld.

(** The first loop leaves the manifest file alone and lets no [SystemExit]
    out. *)
Lemma first_loop_any (w : world) :
  manifest_json (snd (for_each MODELS process_model w)) = manifest_json w
  /\ match fst (for_each MODELS process_model w) with
     | Raise e => is_Exception e = true
     | Ok _ => True
     end.
Proof.
  apply (keeps_first_loop (fun w w' => manifest_json w' = manifest_json w)
           (fun e => is_Exception e = true)); try done.
  - intros w1 w2 w3 H1 H2. congruence.
  - intros url p d w0. by rewrite download_file_run.
Qed.

(** The first loop only adds to what was printed. *)
Lemma first_loop_stdout (w : world) :
  exists out, stdout (snd (for_each MODELS process_model w)) = stdout w ++ out.
Proof.
  apply (keeps_first_loop (fun w w' => exists out, stdout w' = stdout w ++ out)
           (fun _ => True)); try done.
  - intros w0. exists []. by rewrite app_nil_r.
  - intros w1 w2 w3 [o1 H1] [o2 H2]. exists (o1 ++ o2). by rewrite H2, H1, app_assoc.
  - intros l w0. by exists [l].
  - intros url p d w0. rewrite download_file_run. cbn. eauto.
Qed.

Lemma record_model_Exception (m : Manifest.t) (item : string * model_info) (w w' : world)
    (e : exn) :
  record_model m item w = (Raise e, w') -> is_Exception e = true.
Proof.
  destruct item as [name info].
  unfold record_model, bind, path_exists, stat_size, lift, ret, int_truediv.
  case_bool_decide; [|done].
  destruct (fs w !! ggml_filename_of name); [|by intros [= <- _]].
  repeat (match goal with
          | |- context [if ?b then _ else _] => destruct b
          end); by intros [= <- _].
Qed.

Lemma second_loop_Exception (cat : list (string * model_info)) (m : Manifest.t)
    (w w' : world) (e : exn) :
  fold_M record_model m cat w = (Raise e, w') -> is_Exception e = true.
Proof.
  revert m. induction cat as [|item cat IH]; intros m; [done|].
  cbn [fold_M]. unfold bind.
  pose proof (record_model_frame m item w) as Hfr.
  destruct (record_model m item w) as [[m1|e1] w1] eqn:H1; cbn [snd] in Hfr; subst w1.
  - apply IH.
  - intros [= <- _]. by eapply record_model_Exception.
Qed.

(** The [except Exception] clause of the [__main__] block. *)
Lemma run_uncaught (w w1 : world) (e : exn) :
  main w = (Raise e, w1) -> is_Exception e = true ->
  run w = (1, log_line (TopLevelError e) w1).
Proof. intros Hmain He. unfold run. rewrite Hmain. by destruct e. Qed.

Lemma last_summary (count : nat) (pre : list line) :
  last (pre ++ summary count)
  = Some (if bool_decide (0 < count)%nat then FollowUp else NoModels).
Proof.
  unfold summary. rewrite !app_assoc. case_bool_decide.
  - change [SetupComplete; Blank; FollowUp] with ([SetupComplete; Blank] ++ [FollowUp]).
    by rewrite app_assoc, last_snoc.
  - by rewrite last_snoc.
Qed.

End AnyWorld.

(** X12.  In every world, however large the files, a run that the user
    does not interrupt from the keyboard ends in one of three ways.  With
    status 0, the follow-up text as the last thing printed and a manifest
    of at least one entry written.  With status 1, the no-models line as
    the last thing printed and a manifest of no entry written.  Or with
    status 1 after an exception that reached the top level: its report is
    the last thing printed, and the manifest file is what it was before
    the run.  No other exit status occurs. *)
Theorem run_exit_status (w : world) :
  (fst (run w) = 0
   /\ last (stdout (snd (run w))) = Some FollowUp
   /\ exists m, manifest_json (snd (run w)) = Some m
                /\ (0 < size (Manifest.models m))%nat)
  \/ (fst (run w) = 1
      /\ last (stdout (snd (run w))) = Some NoModels
      /\ exists m, manifest_json (snd (run w)) = Some m /\ Manifest.models m = ∅)
  \/ (fst (run w) = 1
      /\ (exists e, is_Exception e = true
                    /\ last (stdout (snd (run w))) = Some (TopLevelError e))
      /\ manifest_json (snd (run w)) = manifest_json w).
Proof.
  destruct (first_loop_any (prelude w)) as [Hman1 Hexn1].
  destruct (for_each MODELS process_model (prelude w)) as [[[]|e1] w1] eqn:Hloop;
    cbn [fst snd] in *.
  2:{ right. right.
      erewrite run_uncaught; [| |exact Hexn1].
      2:{ unfold main. rewrite !bind_print. fold (prelude w).
          erewrite bind_raise; [reflexivity | exact Hloop]. }
      cbn [fst snd]. split; [done|]. split; [|done].
      exists e1. split; [done|]. apply last_snoc. }
  pose proof (second_loop_frame MODELS empty_manifest w1) as Hfr.
  destruct (fold_M record_model empty_manifest MODELS w1) as [[m|e2] w2] eqn:Hrec;
    cbn [snd] in Hfr; subst w2.
  2:{ right. right.
      pose proof (second_loop_Exception _ _ _ _ _ Hrec) as Hexn2.
      erewrite run_uncaught; [| |exact Hexn2].
      2:{ unfold main. rewrite !bind_print. fold (prelude w).
          erewrite bind_value; [|exact Hloop]. cbv beta.
          erewrite bind_raise; [reflexivity | exact Hrec]. }
      cbn [fst snd]. split; [done|]. split; [|done].
      exists e2. split; [done|]. apply last_snoc. }
  rewrite (main_tail w w1 m Hloop Hrec). cbn [fst snd stdout manifest_json].
  rewrite last_summary. unfold exit_status.
  case_bool_decide as Hsize.
  - left. split; [done|]. split; [done|]. by exists m.
  - right. left. split; [done|]. split; [done|]. exists m. split; [done|].
    apply map_size_empty_inv. lia.
Qed.

(** * The summary *)

Section Summary.

Lemma present_names_NoDup (f : gmap path N) : NoDup (fst <$> present_in f).
Proof.
  unfold present_in. eapply sublist_NoDup; [exact MODELS_names_NoDup|].
  apply fmap_sublist, sublist_filter.
Qed.

Lemma manifest_size (w : world) (m : Manifest.t) :
  world_ok w ->
  manifest_json (snd (run w)) = Some m ->
  size (Manifest.models m) = length (present_in (fs (snd (run w)))).
Proof.
  intros Hw Hman.
  destruct (run_spec w Hw)
    as (m' & w' & Hrun & Hman' & _ & _ & _ & _ & _ & _ & _ & Hother & Hentries).
  rewrite Hrun in *. cbn [snd] in *.
  assert (m' = m) by congruence. subst m'.
  rewrite <- (size_dom (D := gset string)).
  assert (Hdom : dom (Manifest.models m) = list_to_set (fst <$> present_in (fs w'))).
  { apply set_eq. intros name. rewrite elem_of_dom, elem_of_list_to_set, list_elem_of_fmap.
    split.
    - intros Hsome.
      destruct (decide (name ∈ fst <$> MODELS)) as [Hin | Hout].
      2:{ rewrite Hother in Hsome by done. by destruct Hsome. }
      destruct (MODELS_name_elem name Hin) as [info Hinfo].
      exists (name, info). split; [done|]. apply list_elem_of_filter. split; [|done].
      specialize (Hentries _ Hinfo). cbn [fst] in Hentries.
      destruct (fs w' !! item_path (name, info)); [eauto|].
      rewrite Hentries in Hsome. by destruct Hsome.
    - intros (item & -> & (Hfile & Hin)%list_elem_of_filter).
      specialize (Hentries _ Hin). destruct Hfile as [n Hn]. rewrite Hn in Hentries.
      destruct Hentries as (mb & _ & ->). eauto. }
  rewrite Hdom, size_list_to_set by apply present_names_NoDup.
  by rewrite length_fmap.
Qed.

End Summary.

(** X13.  The count a run prints under "Models downloaded" is the number
    of catalog entries whose file is in the directory at the end of the
    run, fetched by this run or found there.  The run prints its four
    opening lines, then what the first loop prints, then the summary with
    that count; it closes with the follow-up text and status 0 when the
    count is positive and with the no-models line and status 1 when it is
    zero. *)
Theorem summary_counts_files_on_disk (w : world) :
  world_ok w ->
  let count := length (present_in (fs (snd (run w)))) in
  (exists first_loop_lines,
     stdout (snd (run w))
     = stdout w ++ [Banner; Rule; ModelsDirectory; Blank] ++ first_loop_lines
       ++ [CreatedManifest; Blank; SummaryHeader; ModelsDownloaded count;
           TotalSize; Location; Blank]
       ++ (if bool_decide (0 < count)%nat then [SetupComplete; Blank; FollowUp]
           else [NoModels]))
  /\ fst (run w) = (if bool_decide (0 < count)%nat then 0 else 1).
Proof.
  intros Hw count.
  destruct (run_report w Hw) as (m & w1 & Hloop & _ & Hrun).
  assert (Hsize : size (Manifest.models m) = count).
  { unfold count. apply manifest_size; [done|]. by rewrite Hrun. }
  destruct (first_loop_stdout (prelude w)) as [out Hout].
  rewrite Hloop in Hout. cbn [snd] in Hout.
  rewrite Hrun. cbn [fst snd stdout]. rewrite Hsize. unfold exit_status. rewrite Hsize.
  split; [|done].
  unfold summary.
  exists out. rewrite Hout. unfold prelude. rewrite !log_line_stdout.
  rewrite <- !app_assoc. reflexivity.
Qed.

Lemma summary_counts_files_on_disk_witness :
  let w := fresh_world no_network tiny_and_notes in
  fst (run w) = 0
  /\ exists first_loop_lines,
       stdout (snd (run w))
       = [Banner; Rule; ModelsDirectory; Blank] ++ first_loop_lines
         ++ [CreatedManifest; Blank; SummaryHeader; ModelsDownloaded 1;
             TotalSize; Location; Blank]
         ++ [SetupComplete; Blank; FollowUp].
Proof.
  intros w.
  assert (Hw : world_ok w).
  { apply world_ok_fresh; [apply tiny_and_notes_ok | apply no_network_ok]. }
  pose proof (summary_counts_files_on_disk w Hw) as H. cbv zeta in H.
  assert (Hcount : length (present_in (fs (snd (run w)))) = 1%nat).
  { vm_compute. reflexivity. }
  change (stdout w) with (@nil line) in H.
  remember (run w) as res eqn:Hres. clear Hres.
  rewrite Hcount in H. destruct H as [Hout Hstatus].
  split; [exact Hstatus | exact Hout].
Defined.

(** * Errors and an exact tolerance of the size verifier *)

Section Overflow.

Lemma shr_fexp_snd_ge (m e : Z) (l : location) :
  e <= snd (shr_fexp Float64.prec Float64.emax m e l).
Proof.
  unfold shr_fexp, shr.
  destruct (fexp Float64.prec Float64.emax (Zdigits2 m + e) - e); cbn [snd]; lia.
Qed.

Lemma shr_fexp_snd_large (m : positive) (e : Z) (l : location) :
  53 <= Zpos (digits2_pos m) -> -1074 <= Zpos (digits2_pos m) + e - 53 ->
  snd (shr_fexp Float64.prec Float64.emax (Zpos m) e l) = Zpos (digits2_pos m) + e - 53.
Proof.
  intros Hd Hn. unfold shr_fexp, shr, Zdigits2.
  replace (fexp Float64.prec Float64.emax (Zpos (digits2_pos m) + e) - e)
    with (Zpos (digits2_pos m) - 53)
    by (unfold fexp, emin, Float64.prec, Float64.emax; lia).
  destruct (Zpos (digits2_pos m) - 53) eqn:Hk; cbn [snd]; lia.
Qed.

(** Rounding a number of [2^1024] or more overflows. *)
Lemma binary_round_aux_overflow (m : positive) (e : Z) (l : location) :
  53 <= Zpos (digits2_pos m) ->
  1025 <= Zpos (digits2_pos m) + e ->
  binary_round_aux Float64.prec Float64.emax false (Zpos m) e l = S754_infinity false.
Proof.
  intros Hd Hbig. unfold binary_round_aux.
  pose proof (shr_fexp_positive m e l ltac:(lia)) as Hs. cbv zeta in Hs.
  pose proof (shr_fexp_snd_large m e l Hd ltac:(lia)) as He1.
  destruct (shr_fexp Float64.prec Float64.emax (Zpos m) e l) as [r1 e1].
  cbn [fst snd] in Hs, He1. destruct Hs as [Hx Hs].
  pose proof (round_nearest_even_ge (shr_m r1) (loc_of_shr_record r1)) as Hr.
  assert (0 < 2 ^ (Zpos (digits2_pos m) + e - 1 - e1)) by (apply Z.pow_pos_nonneg; lia).
  destruct (round_nearest_even (shr_m r1) (loc_of_shr_record r1)) as [|m1|m1]; try lia.
  pose proof (digits2_pos_lower m1 _ Hx ltac:(lia)) as Hd1.
  assert (Hn1 : -1074 <= Zpos (digits2_pos m1) + e1 - 53) by lia.
  pose proof (shr_fexp_positive m1 e1 loc_Exact Hn1) as Hs2. cbv zeta in Hs2.
  pose proof (shr_fexp_snd_ge (Zpos m1) e1 loc_Exact) as He2.
  destruct (shr_fexp Float64.prec Float64.emax (Zpos m1) e1 loc_Exact) as [r2 e2].
  cbn [fst snd] in Hs2, He2. destruct Hs2 as [Hx2 Hs2].
  assert (0 < 2 ^ (Zpos (digits2_pos m1) + e1 - 1 - e2)) by (apply Z.pow_pos_nonneg; lia).
  destruct (shr_m r2) as [|m2|m2]; try lia.
  replace (e2 <=? Float64.emax - Float64.prec) with false; [done|].
  symmetry. apply Z.leb_gt. unfold Float64.emax, Float64.prec. lia.
Qed.

(** [float(z)] for an integer of [2^1024] or more. *)
Lemma int_to_float_overflow (z : Z) :
  2 ^ 1024 <= z -> int_to_float z = Raise OverflowError.
Proof.
  intros Hz. destruct z as [|m|m]; [done| |lia].
  assert (Hd : 1025 <= Zpos (digits2_pos m)).
  { apply (digits2_pos_lower m 1024); [lia | done]. }
  unfold int_to_float, Float64.of_Z, binary_normalize, binary_round, shl_align.
  replace (fexp Float64.prec Float64.emax (Zpos (digits2_pos m) + 0) - 0)
    with (Zpos (digits2_pos m) - 53)
    by (unfold fexp, emin, Float64.prec, Float64.emax; lia).
  destruct (Zpos (digits2_pos m) - 53) eqn:Hk; try lia.
  rewrite binary_round_aux_overflow by lia. reflexivity.
Qed.

Lemma int_to_float_small (z : Z) :
  0 <= z < 2 ^ 53 -> exists x, int_to_float z = Ok x.
Proof.
  intros Hz. destruct z as [|m|m]; [by eexists | | lia].
  rewrite int_to_float_exact by lia. eauto.
Qed.

End Overflow.

(** X14.  On a file that exists, with fewer than [2^53] bytes, the size
    verifier returns a boolean for every expected size from 0 up to [2^53]
    and every tolerance, a NaN or an infinity included: it does not raise.
    For an expected size of [2^1024] or more it raises [OverflowError],
    the integer being too large to be taken as a float, whatever the
    tolerance. *)
Theorem verify_file_size_errors (fs : gmap string N) (p : string) (n : N) (E : Z)
    (t : float) :
  fs !! p = Some n ->
  (n < 2 ^ 53)%N ->
  (0 <= E < 2 ^ 53 -> exists b, verify_file_size fs p E t = Ok b)
  /\ (2 ^ 1024 <= E -> verify_file_size fs p E t = Raise OverflowError).
Proof.
  intros Hp Hn. unfold verify_file_size. rewrite Hp.
  destruct (int_truediv_total n Hn) as [a ->]. cbn [result_bind].
  rewrite int_sub_float_one, int_add_float_one. cbn [result_bind].
  unfold int_mul_float. split.
  - intros HE. destruct (int_to_float_small E HE) as [x ->]. cbn [result_bind]. eauto.
  - intros HE. by rewrite int_to_float_overflow.
Qed.

Lemma verify_file_size_errors_witness :
  verify_file_size {[ "ggml-tiny.en-q5_1.bin" := 40894464%N ]} "ggml-tiny.en-q5_1.bin"
    (2 ^ 1024) default_tolerance = Raise OverflowError
  /\ exists b, verify_file_size {[ "ggml-tiny.en-q5_1.bin" := 40894464%N ]}
                 "ggml-tiny.en-q5_1.bin" 39 S754_nan = Ok b.
Proof.
  split.
  - refine (proj2 (verify_file_size_errors {[ "ggml-tiny.en-q5_1.bin" := 40894464%N ]}
                     "ggml-tiny.en-q5_1.bin" 40894464%N (2 ^ 1024) default_tolerance
                     _ _) _).
    + reflexivity.
    + reflexivity.
    + apply Z.le_refl.
  - refine (proj1 (verify_file_size_errors {[ "ggml-tiny.en-q5_1.bin" := 40894464%N ]}
                     "ggml-tiny.en-q5_1.bin" 40894464%N 39 S754_nan _ _) _).
    + reflexivity.
    + reflexivity.
    + lia.
Defined.

Section ZeroTolerance.

(** Multiplying a normal number by [1.0] is exact. *)
Lemma mul_one (m : positive) (e : Z) :
  2 ^ 52 <= Zpos m < 2 ^ 53 ->
  -1074 <= e <= 971 ->
  Float64.mul (S754_finite false m e) (S754_finite false 4503599627370496 (-52))
  = S754_finite false m e.
Proof.
  intros Hm He.
  assert (Hd : digits2_pos m = 53%positive).
  { apply Pos2Z.inj. by apply digits2_pos_unique. }
  unfold Float64.mul, SFmul. cbn [xorb].
  rewrite Pos.mul_comm. cbv [Pos.mul].
  unfold binary_round_aux, shr_fexp, Zdigits2.
  cbn [digits2_pos]. rewrite Hd.
  set (d := Z.pos (Pos.succ _)). vm_compute in d. subst d.
  replace (fexp Float64.prec Float64.emax (105 + (e + -52)) - (e + -52)) with 52
    by (unfold fexp, emin, Float64.prec, Float64.emax; lia).
  cbn [shr shr_record_of_loc SpecFloat.iter_pos shr_1 orb loc_of_shr_record
       round_nearest_even shr_m shr_r shr_s fst snd].
  rewrite Hd.
  replace (fexp Float64.prec Float64.emax (53 + (e + -52 + 52)) - (e + -52 + 52)) with 0
    by (unfold fexp, emin, Float64.prec, Float64.emax; lia).
  cbn [shr shr_m].
  replace (e + -52 + 52) with e by lia.
  replace (e <=? Float64.emax - Float64.prec) with true; [done|].
  symmetry. apply Z.leb_le. unfold Float64.emax, Float64.prec. lia.
Qed.

Lemma int_mul_float_one (E : positive) :
  Zpos E < 2 ^ 53 ->
  int_mul_float (Zpos E) (S754_finite false 4503599627370496 (-52))
  = Ok (S754_finite false (MiB_mantissa E) (Zpos (digits2_pos E) - 53)).
Proof.
  intros HE. unfold int_mul_float. rewrite int_to_float_exact by done.
  cbn [result_bind]. destruct (MiB_mantissa_spec E HE) as (Hd & _ & Hr).
  rewrite mul_one; [done | done | lia].
Qed.

End ZeroTolerance.

(** X15.  With a tolerance of zero the size verifier asks for the exact
    size: for an expected size [E] from 1 up to [2^53], a file of fewer
    than [2^53] bytes passes exactly when it has [E * 2^20] bytes.  The
    floating-point bounds are then both the float of [E], with no rounding
    in the way. *)
Theorem verify_file_size_zero_tolerance (fs : gmap string N) (p : string) (n : N)
    (E : Z) :
  fs !! p = Some n ->
  (n < 2 ^ 53)%N ->
  0 < E < 2 ^ 53 ->
  verify_file_size fs p E (S754_zero false) = Ok true <-> Z.of_N n = E * 2 ^ 20.
Proof.
  intros Hp Hn HE. unfold verify_file_size. rewrite Hp.
  change (int_sub_float 1 (S754_zero false))
    with (Ok (S754_finite false 4503599627370496 (-52))).
  change (int_add_float 1 (S754_zero false))
    with (Ok (S754_finite false 4503599627370496 (-52))).
  destruct E as [|E|E]; try lia.
  destruct n as [|n]; cbn [Z.of_N].
  - change (int_truediv 0 (1024 * 1024)) with (Ok (S754_zero false)).
    cbn [result_bind]. rewrite int_mul_float_one by lia. cbn [result_bind].
    split; [done | lia].
  - rewrite int_truediv_MiB by lia. cbn [result_bind].
    rewrite int_mul_float_one by lia. cbn [result_bind].
    destruct (MiB_mantissa_spec n ltac:(lia)) as (Hdn & Hmn & Hrn).
    destruct (MiB_mantissa_spec E ltac:(lia)) as (HdE & HmE & HrE).
    assert (He0 : -73 <= MiB_exponent n) by (unfold MiB_exponent; lia).
    assert (HsE : Zpos (MiB_mantissa E) * 2 ^ (Zpos (digits2_pos E) - 53 - -73)
                  = Zpos E * 2 ^ 73).
    { rewrite HmE, <- Z.mul_assoc, <- Z.pow_add_r by lia. do 2 f_equal. lia. }
    pose proof (MiB_scaled n ltac:(lia)) as Hsn.
    split.
    + intros [= H]. apply andb_true_iff in H as [H1 H2].
      apply (leb_normal _ _ _ _ (-73)) in H1; [|done|done|lia|done].
      apply (leb_normal _ _ _ _ (-73)) in H2; [|done|done|done|lia].
      rewrite Hsn, HsE in H1, H2.
      change (2 ^ 73) with (1048576 * 2 ^ 53) in H1, H2. change (2 ^ 20) with 1048576.
      change (2 ^ 53) with 9007199254740992 in H1, H2. lia.
    + intros Heq. f_equal. apply andb_true_iff.
      split; apply (leb_normal _ _ _ _ (-73)); try done; try lia;
        rewrite Hsn, HsE; change (2 ^ 73) with (1048576 * 2 ^ 53);
        change (2 ^ 20) with 1048576 in Heq; change (2 ^ 53) with 9007199254740992; lia.
Qed.

Lemma verify_file_size_zero_tolerance_witness :
  verify_file_size {[ "ggml-tiny.en-q5_1.bin" := 40894464%N ]} "ggml-tiny.en-q5_1.bin"
    39 (S754_zero false) = Ok true.
Proof.
  refine (proj2 (verify_file_size_zero_tolerance
                   {[ "ggml-tiny.en-q5_1.bin" := 40894464%N ]}
                   "ggml-tiny.en-q5_1.bin" 40894464%N 39 _ _ _) _).
  - reflexivity.
  - reflexivity.
  - lia.
  - reflexivity.
Defined.

(** * Small files in the manifest *)

Section SmallFiles.

(** A positive number of tenths gives a positive float. *)
Lemma decimal1_positive (p : positive) :
  Zpos p < 2 ^ 64 ->
  positive_float (decimal1 false (Zpos p)).
Proof.
  intros Hp. cbn [decimal1].
  change (Float64.of_Z 10) with (S754_finite false 5629499534213120 (-49)).
  unfold Float64.div, SFdiv, SFdiv_core_binary, Zdigits2.
  pose proof (digits2_pos_bounds p) as [Hlo Hhi].
  set (d := Zpos (digits2_pos p)) in *.
  assert (Hd : 1 <= d <= 64).
  { split; [unfold d; lia|].
    destruct (Z.leb_spec d 64); [done|].
    assert (2 ^ 64 <= 2 ^ (d - 1)) by (apply Z.pow_le_mono_r; lia). lia. }
  change (Zpos (digits2_pos 5629499534213120)) with 53.
  replace (Z.min (fexp Float64.prec Float64.emax (d + 0 - (53 + -49))) (0 - -49))
    with (d - 57) by (unfold fexp, emin, Float64.prec, Float64.emax; lia).
  destruct (0 - -49 - (d - 57)) as [|s|s] eqn:Hs; [lia| |lia].
  rewrite Z.shiftl_mul_pow2 by lia. rewrite <- Hs.
  replace (0 - -49 - (d - 57)) with (106 - d) by lia.
  assert (Hm' : 2 ^ 105 <= Zpos p * 2 ^ (106 - d)).
  { replace 105 with ((d - 1) + (106 - d)) by lia. rewrite Z.pow_add_r by lia.
    apply Z.mul_le_mono_nonneg_r; [apply Z.pow_nonneg; lia | done]. }
  pose proof (Z_div_mod (Zpos p * 2 ^ (106 - d)) 5629499534213120 ltac:(lia)) as Hdm.
  destruct (Z.div_eucl (Zpos p * 2 ^ (106 - d)) 5629499534213120) as [q r].
  destruct Hdm as [Hq Hr].
  assert (Hq52 : 2 ^ 52 <= q).
  { change (2 ^ 105) with (2 ^ 52 * 9007199254740992) in Hm'.
    change (2 ^ 52) with 4503599627370496 in *. nia. }
  destruct q as [|q|q]; [cbn in Hq52; lia | | lia].
  cbn [xorb]. apply binary_round_aux_positive.
  pose proof (digits2_pos_lower q 52 ltac:(lia) Hq52). lia.
Qed.

(** The byte counts whose size in megabytes is nearer to zero than to one
    tenth. *)
Lemma tenths_zero (n : N) :
  round_half_even (10 * Z.of_N n) (2 ^ 20) = 0 <-> (n <= 52428)%N.
Proof.
  unfold round_half_even. change (2 ^ 20) with 1048576.
  pose proof (Z.div_mod (10 * Z.of_N n) 1048576 ltac:(lia)) as Hdm.
  pose proof (Z.mod_pos_bound (10 * Z.of_N n) 1048576 ltac:(lia)) as Hr.
  assert (Hq : 0 <= 10 * Z.of_N n / 1048576) by (apply Z.div_pos; lia).
  destruct (Z.compare_spec (2 * ((10 * Z.of_N n) mod 1048576)) 1048576) as [Heq | Hlt | Hgt].
  - destruct (Z.even (10 * Z.of_N n / 1048576)); lia.
  - lia.
  - lia.
Qed.

Lemma tenths_bounds (n : N) :
  (n < 2 ^ 53)%N -> 0 <= round_half_even (10 * Z.of_N n) (2 ^ 20) < 2 ^ 64.
Proof.
  intros Hn.
  pose proof (round_half_even_nearest (10 * Z.of_N n) (2 ^ 20) ltac:(lia)) as H.
  set (k := round_half_even (10 * Z.of_N n) (2 ^ 20)) in *.
  change (2 ^ 20) with 1048576 in H.
  assert (Z.of_N n < 9007199254740992) by lia.
  change (2 ^ 64) with 18446744073709551616. lia.
Qed.

End SmallFiles.

(** X16.  An entry of the manifest carries [0.0] as [size_mb] exactly when
    its file has at most 52428 bytes: rounding to one decimal takes every
    file of less than a twentieth of a megabyte to zero, and no larger
    one. *)
Theorem size_mb_of_small_files (w : world) (m : Manifest.t) (name : string)
    (e : Manifest.entry) :
  world_ok w ->
  manifest_json (snd (run w)) = Some m ->
  Manifest.models m !! name = Some e ->
  Manifest.size_mb e = S754_zero false <-> (Manifest.size_bytes e <= 52428)%N.
Proof.
  intros Hw Hman He.
  destruct (manifest_entry_of_run w m name e Hw Hman He)
    as (info & n & mb & _ & _ & Hn & Hmb & ->).
  cbn [manifest_entry Manifest.size_mb Manifest.size_bytes].
  rewrite (round1_MiB n mb Hn Hmb), <- tenths_zero.
  pose proof (tenths_bounds n Hn) as Hk.
  destruct (round_half_even (10 * Z.of_N n) (2 ^ 20)) as [|k|k]; [done| |lia].
  split; [|done]. intros Hz.
  destruct (decimal1_positive k ltac:(lia)) as [(m0 & e0 & H0 & _) | H0]; congruence.
Qed.

Lemma size_mb_of_small_files_witness :
  let w := fresh_world tiny_bodies ∅ in
  exists m e,
    manifest_json (snd (run w)) = Some m
    /\ Manifest.models m !! "tiny.en" = Some e
    /\ Manifest.size_bytes e = 1%N
    /\ Manifest.size_mb e = S754_zero false.
Proof.
  intros w.
  set (m := default empty_manifest (manifest_json (snd (run w)))).
  set (e := default (manifest_entry tiny_en 0 (S754_zero false))
              (Manifest.models m !! "tiny.en")).
  assert (Hm : manifest_json (snd (run w)) = Some m) by (vm_compute; reflexivity).
  assert (He : Manifest.models m !! "tiny.en" = Some e) by (vm_compute; reflexivity).
  assert (Hb : Manifest.size_bytes e = 1%N) by (vm_compute; reflexivity).
  exists m, e. split; [exact Hm|]. split; [exact He|]. split; [exact Hb|].
  apply (proj2 (size_mb_of_small_files w m "tiny.en" e
                  (world_ok_fresh tiny_bodies ∅ sizes_ok_empty tiny_bodies_ok) Hm He)).
  apply N.leb_le. vm_compute. reflexivity.
Defined.

(** * The size verifier in binary64 *)

Section RoundingSpec.

Lemma shr_fexp_m_nonneg (m e : Z) (l : location) :
  0 <= m -> 0 <= shr_m (fst (shr_fexp Float64.prec Float64.emax m e l)).
Proof.
  intros Hm. unfold shr_fexp, shr.
  destruct (fexp Float64.prec Float64.emax (Zdigits2 m + e) - e) as [|k|k]; cbn [fst].
  - by rewrite shr_record_of_loc_m.
  - rewrite shr_iter_m, shr_record_of_loc_m by (by rewrite shr_record_of_loc_m).
    apply Z.div_pos; [done|]. apply Z.pow_pos_nonneg; lia.
  - by rewrite shr_record_of_loc_m.
Qed.

(** Rounding keeps the sign and never gives a NaN. *)
Lemma binary_round_aux_sign (s : bool) (m : positive) (e : Z) (l : location) :
  let x := binary_round_aux Float64.prec Float64.emax s (Zpos m) e l in
  x = S754_zero s \/ (exists m' e', x = S754_finite s m' e') \/ x = S754_infinity s.
Proof.
  cbv zeta. unfold binary_round_aux.
  pose proof (shr_fexp_m_nonneg (Zpos m) e l ltac:(lia)) as H1.
  destruct (shr_fexp Float64.prec Float64.emax (Zpos m) e l) as [r1 e1]. cbn [fst] in H1.
  pose proof (round_nearest_even_ge (shr_m r1) (loc_of_shr_record r1)) as Hr.
  pose proof (shr_fexp_m_nonneg (round_nearest_even (shr_m r1) (loc_of_shr_record r1)) e1
                loc_Exact ltac:(lia)) as H2.
  destruct (shr_fexp Float64.prec Float64.emax _ e1 loc_Exact) as [r2 e2]. cbn [fst] in H2.
  destruct (shr_m r2) as [|m2|m2]; [by left | | lia].
  destruct (e2 <=? Float64.emax - Float64.prec); [right; left; eauto | by right; right].
Qed.

(** Rounding a mantissa of 53 bits or more, in the normal range: the
    result has 53 bits, and lies between the mantissa cut to 53 bits and
    its successor. *)
Lemma binary_round_aux_spec (s : bool) (P : positive) (e : Z) (l : location) :
  53 <= Zpos (digits2_pos P) ->
  -1074 <= Zpos (digits2_pos P) + e - 53 ->
  let k := Zpos (digits2_pos P) - 53 in
  exists m' e',
    binary_round_aux Float64.prec Float64.emax s (Zpos P) e l
    = (if e' <=? 971 then S754_finite s m' e' else S754_infinity s)
    /\ 2 ^ 52 <= Zpos m' < 2 ^ 53
    /\ e + k <= e' <= e + k + 1
    /\ Zpos P / 2 ^ k <= Zpos m' * 2 ^ (e' - (e + k)) <= Zpos P / 2 ^ k + 1.
Proof.
  intros Hd Hn k.
  pose proof (digits2_pos_bounds P) as [Hlo Hhi].
  assert (Hk : 0 <= k) by (unfold k; lia).
  assert (Hpk : 0 < 2 ^ k) by (apply Z.pow_pos_nonneg; lia).
  set (q := Zpos P / 2 ^ k).
  assert (Hq : 2 ^ 52 <= q < 2 ^ 53).
  { unfold q. split.
    - apply Z.div_le_lower_bound; [done|]. rewrite <- Z.pow_add_r by lia.
      replace (k + 52) with (Zpos (digits2_pos P) - 1) by (unfold k; lia). done.
    - apply Z.div_lt_upper_bound; [done|]. rewrite <- Z.pow_add_r by lia.
      replace (k + 53) with (Zpos (digits2_pos P)) by (unfold k; lia). done. }
  unfold binary_round_aux.
  assert (H1 : exists r1, shr_fexp Float64.prec Float64.emax (Zpos P) e l = (r1, e + k)
                          /\ shr_m r1 = q).
  { unfold shr_fexp, shr, Zdigits2.
    replace (fexp Float64.prec Float64.emax (Zpos (digits2_pos P) + e) - e) with k
      by (unfold k, fexp, emin, Float64.prec, Float64.emax; lia).
    destruct k as [|k'|k'] eqn:Ek; [| |lia].
    - eexists. split; [by rewrite Z.add_0_r|]. rewrite shr_record_of_loc_m.
      unfold q. by rewrite Z.div_1_r.
    - eexists. split; [reflexivity|].
      by rewrite shr_iter_m, shr_record_of_loc_m by (rewrite shr_record_of_loc_m; lia). }
  destruct H1 as (r1 & -> & Hm1).
  pose proof (round_nearest_even_ge (shr_m r1) (loc_of_shr_record r1)) as Hr.
  rewrite Hm1 in Hr |- *.
  destruct (round_nearest_even q (loc_of_shr_record r1)) as [|mr|mr]; [lia| |lia].
  destruct (Z.eq_dec (Zpos mr) (2 ^ 53)) as [Hcarry | Hno].
  - (* the rounding carried into a 54th bit *)
    assert (Hmr : mr = 9007199254740992%positive) by (apply Pos2Z.inj; exact Hcarry).
    subst mr.
    exists 4503599627370496%positive, (e + k + 1).
    split.
    { unfold shr_fexp, shr, Zdigits2.
      change (Zpos (digits2_pos 9007199254740992)) with 54.
      replace (fexp Float64.prec Float64.emax (54 + (e + k)) - (e + k)) with 1
        by (unfold k, fexp, emin, Float64.prec, Float64.emax; lia).
      cbn [shr_record_of_loc SpecFloat.iter_pos shr_1 shr_m].
      reflexivity. }
    split; [done|]. split; [lia|].
    replace (e + k + 1 - (e + k)) with 1 by lia. change (2 ^ 1) with 2.
    change (Zpos 4503599627370496 * 2) with (2 ^ 53). change (2 ^ 53) with (Zpos 9007199254740992) in *. lia.
  - assert (Hd53 : Zpos (digits2_pos mr) = 53).
    { apply digits2_pos_unique. change (53 - 1) with 52. lia. }
    exists mr, (e + k). split.
    { unfold shr_fexp, shr, Zdigits2. rewrite Hd53.
      replace (fexp Float64.prec Float64.emax (53 + (e + k)) - (e + k)) with 0
        by (unfold k, fexp, emin, Float64.prec, Float64.emax; lia).
      cbn [shr_record_of_loc shr_m]. reflexivity. }
    split; [lia|]. split; [lia|].
    rewrite Z.sub_diag. change (2 ^ 0) with 1. lia.
Qed.

End RoundingSpec.

Section DecimalValue.

(** The value of [int_truediv] on a byte count below [2^53]: exact. *)
Lemma int_truediv_MiB_value (n : N) (mb : float) :
  (n < 2 ^ 53)%N ->
  int_truediv (Z.of_N n) (1024 * 1024) = Ok mb ->
  exists x, Float64.to_Q mb = Some x /\ (x == size_in_MB n)%Q.
Proof.
  intros Hn Hmb. destruct n as [|n]; cbn [Z.of_N] in Hmb.
  - injection Hmb as <-. exists 0%Q. split; reflexivity.
  - rewrite int_truediv_MiB in Hmb by lia. injection Hmb as <-.
    destruct (MiB_mantissa_spec n ltac:(lia)) as (Hd & Hm & _).
    cbn [Float64.to_Q]. unfold MiB_exponent.
    destruct (Z.leb_spec 0 (Zpos (digits2_pos n) - 73)) as [|_]; [lia|].
    eexists. split; [reflexivity|].
    unfold size_in_MB, Qeq. cbn [Qnum Qden Z.of_N].
    assert (Hp : 0 < 2 ^ (- (Zpos (digits2_pos n) - 73))) by (apply Z.pow_pos_nonneg; lia).
    rewrite Z2Pos.id by exact Hp. rewrite Hm.
    replace (- (Zpos (digits2_pos n) - 73)) with (20 + (53 - Zpos (digits2_pos n))) by lia.
    rewrite Z.pow_add_r by lia. change (2 ^ 20) with 1048576. lia.
Qed.

(** The float that [decimal1] gives for [k] tenths is within one part in
    [2^52] of [k / 10]. *)
Lemma decimal1_value (k : positive) :
  Zpos k < 2 ^ 37 ->
  exists q, Float64.to_Q (decimal1 false (Zpos k)) = Some q
            /\ (Qabs (q - (Zpos k # 10)) <= (Zpos k # 10) * (1 # 4503599627370496))%Q.
Proof.
  intros Hk. cbn [decimal1].
  change (Float64.of_Z 10) with (S754_finite false 5629499534213120 (-49)).
  unfold Float64.div, SFdiv, SFdiv_core_binary, Zdigits2.
  pose proof (digits2_pos_bounds k) as [Hlo Hhi].
  set (d := Zpos (digits2_pos k)) in *.
  assert (Hd : 1 <= d <= 37).
  { split; [unfold d; lia|].
    destruct (Z.leb_spec d 37); [done|].
    assert (2 ^ 37 <= 2 ^ (d - 1)) by (apply Z.pow_le_mono_r; lia). lia. }
  change (Zpos (digits2_pos 5629499534213120)) with 53.
  replace (Z.min (fexp Float64.prec Float64.emax (d + 0 - (53 + -49))) (0 - -49))
    with (d - 57) by (unfold fexp, emin, Float64.prec, Float64.emax; lia).
  destruct (0 - -49 - (d - 57)) as [|s|s] eqn:Hs; [lia| |lia].
  rewrite Z.shiftl_mul_pow2 by lia. rewrite <- Hs.
  replace (0 - -49 - (d - 57)) with (106 - d) by lia.
  assert (Hm1 : 2 ^ 105 <= Zpos k * 2 ^ (106 - d)).
  { replace 105 with ((d - 1) + (106 - d)) by lia. rewrite Z.pow_add_r by lia.
    apply Z.mul_le_mono_nonneg_r; [apply Z.pow_nonneg; lia | done]. }
  assert (Hm2 : Zpos k * 2 ^ (106 - d) < 2 ^ 106).
  { replace 106 with (d + (106 - d)) at 2 by lia. rewrite Z.pow_add_r by lia.
    apply Z.mul_lt_mono_pos_r; [apply Z.pow_pos_nonneg; lia | done]. }
  pose proof (Z_div_mod (Zpos k * 2 ^ (106 - d)) 5629499534213120 ltac:(lia)) as Hdm.
  destruct (Z.div_eucl (Zpos k * 2 ^ (106 - d)) 5629499534213120) as [q0 r].
  destruct Hdm as [Hq Hr].
  assert (Hq0 : 2 ^ 52 <= q0 < 2 ^ 54).
  { change (2 ^ 105) with (2 ^ 52 * 9007199254740992) in Hm1.
    change (2 ^ 106) with (2 ^ 54 * 4503599627370496) in Hm2.
    change (2 ^ 52) with 4503599627370496 in *. change (2 ^ 54) with 18014398509481984 in *.
    nia. }
  destruct q0 as [|q0|q0]; [cbn in Hq0; lia | | lia].
  cbn [xorb].
  assert (Hdq : 53 <= Zpos (digits2_pos q0) <= 54).
  { pose proof (digits2_pos_lower q0 52 ltac:(lia) (proj1 Hq0)).
    pose proof (digits2_pos_bounds q0) as [Hl _].
    split; [lia|].
    destruct (Z.leb_spec (Zpos (digits2_pos q0)) 54); [done|].
    assert (2 ^ 54 <= 2 ^ (Zpos (digits2_pos q0) - 1)) by (apply Z.pow_le_mono_r; lia). lia. }
  destruct (binary_round_aux_spec false q0 (d - 57)
              (new_location 5629499534213120 r) ltac:(lia) ltac:(lia))
    as (m' & e'' & -> & Hm' & He'' & Hb).
  set (kk := Zpos (digits2_pos q0) - 53) in *.
  replace (e'' <=? 971) with true by (symmetry; apply Z.leb_le; lia).
  cbn [Float64.to_Q].
  destruct (Z.leb_spec 0 e'') as [|_]; [lia|].
  eexists. split; [reflexivity|].
  (* everything on the scale [2^(d - 57 + kk)] *)
  set (U := 2 ^ (- (d - 57 + kk))).
  assert (HU : 0 < U) by (apply Z.pow_pos_nonneg; lia).
  set (R := Zpos m' * 2 ^ (e'' - (d - 57 + kk))) in *.
  assert (HR : Zpos m' * U = R * 2 ^ (- e'')).
  { unfold R, U. rewrite <- Z.mul_assoc, <- Z.pow_add_r by lia.
    do 2 f_equal. lia. }
  assert (HW : Zpos k * U * (2 ^ 49 * 2 ^ kk) = Zpos k * 2 ^ (106 - d)).
  { unfold U. rewrite <- Z.mul_assoc. f_equal.
    rewrite <- !Z.pow_add_r by lia. f_equal. lia. }
  assert (Hpe : 0 < 2 ^ (- e'')) by (apply Z.pow_pos_nonneg; lia).
  set (W := Zpos k * U) in *.
  assert (HWdef : W = Zpos k * U) by reflexivity. clearbody W.
  assert (Hbounds : 10 * (Zpos q0 / 2 ^ kk) <= W < 10 * (Zpos q0 / 2 ^ kk + 1)
                    /\ 2 ^ 52 <= Zpos q0 / 2 ^ kk).
  { assert (Hkk : Zpos (digits2_pos q0) = 53 /\ kk = 0 \/ Zpos (digits2_pos q0) = 54 /\ kk = 1)
      by (unfold kk; lia).
    clearbody kk.
    destruct Hkk as [[Hdig ->] | [Hdig ->]].
    - rewrite Z.div_1_r in *. change (2 ^ 0) with 1 in HW.
      change (2 ^ 49) with 562949953421312 in HW.
      rewrite Hq in HW. clear - HW Hr Hq0.
      change (2 ^ 52) with 4503599627370496 in *.
      split; [split|]; [ lia | lia | lia ].
    - change (2 ^ 1) with 2 in *. change (2 ^ 49) with 562949953421312 in HW.
      pose proof (Z.div_mod (Zpos q0) 2 ltac:(lia)) as Hdm2.
      pose proof (Z.mod_pos_bound (Zpos q0) 2 ltac:(lia)) as Hr2.
      pose proof (digits2_pos_bounds q0) as [Hl _].
      rewrite Hdig in Hl. change (2 ^ (54 - 1)) with 9007199254740992 in Hl.
      change (2 ^ 52) with 4503599627370496.
      rewrite Hq in HW. clear - HW Hr Hdm2 Hr2 Hl.
      split; [split|]; [ lia | lia | lia ]. }
  destruct Hbounds as [HWb Hq1].
  set (q1 := Zpos q0 / 2 ^ kk) in *.
  apply Qabs_Qle_condition.
  unfold Qle, Qminus, Qplus, Qopp, Qmult. cbn [Qnum Qden].
  rewrite !Pos2Z.inj_mul, Z2Pos.id by exact Hpe.
  change (2 ^ 52) with 4503599627370496 in Hq1.
  clearbody q1 R U. clear - HR Hb HWb Hq1 Hpe HU Hm' HWdef.
  set (A := 2 ^ (- e'')) in *. clearbody A.
  assert (HX : (Zpos m' * 10 + - Zpos k * A) * U = (10 * R - W) * A).
  { transitivity (10 * (Zpos m' * U) - (Zpos k * U) * A); [ring|].
    rewrite HR, <- HWdef. ring. }
  assert (HK : Zpos k * 1 * (A * 10) * U = W * A * 10).
  { rewrite HWdef. ring. }
  assert (HWA : 0 < W * A) by (apply Z.mul_pos_pos; lia).
  assert (HRW : -10 <= 10 * R - W <= 10) by lia.
  split.
  - apply (Z.mul_le_mono_pos_r _ _ U HU).
    replace (- (Zpos k * 1) * (A * 10) * U) with (- (Zpos k * 1 * (A * 10) * U)) by ring.
    rewrite HK.
    replace ((Zpos m' * 10 + - Zpos k * A) * (10 * 4503599627370496) * U)
      with ((Zpos m' * 10 + - Zpos k * A) * U * (10 * 4503599627370496)) by ring.
    rewrite HX. nia.
  - apply (Z.mul_le_mono_pos_r _ _ U HU).
    rewrite HK.
    replace ((Zpos m' * 10 + - Zpos k * A) * (10 * 4503599627370496) * U)
      with ((Zpos m' * 10 + - Zpos k * A) * U * (10 * 4503599627370496)) by ring.
    rewrite HX. nia.
Qed.

End DecimalValue.

Section Magnitude.

(** Rounding a number of the normal range keeps its sign and does not
    lower its binary order of magnitude. *)
Lemma binary_round_aux_magnitude (s : bool) (m : positive) (e : Z) (l : location) :
  -1074 <= Zpos (digits2_pos m) + e - 53 ->
  let x := binary_round_aux Float64.prec Float64.emax s (Zpos m) e l in
  x = S754_infinity s
  \/ exists m' e', x = S754_finite s m' e'
                   /\ Zpos (digits2_pos m) + e <= Zpos (digits2_pos m') + e'.
Proof.
  intros Hn. cbv zeta. unfold binary_round_aux.
  pose proof (shr_fexp_positive m e l Hn) as Hs. cbv zeta in Hs.
  destruct (shr_fexp Float64.prec Float64.emax (Zpos m) e l) as [r1 e1].
  cbn [fst snd] in Hs. destruct Hs as [Hx Hs].
  pose proof (round_nearest_even_ge (shr_m r1) (loc_of_shr_record r1)) as Hr.
  assert (0 < 2 ^ (Zpos (digits2_pos m) + e - 1 - e1)) by (apply Z.pow_pos_nonneg; lia).
  destruct (round_nearest_even (shr_m r1) (loc_of_shr_record r1)) as [|m1|m1]; try lia.
  pose proof (digits2_pos_lower m1 _ Hx ltac:(lia)) as Hd1.
  assert (Hn1 : -1074 <= Zpos (digits2_pos m1) + e1 - 53) by lia.
  pose proof (shr_fexp_positive m1 e1 loc_Exact Hn1) as Hs2. cbv zeta in Hs2.
  destruct (shr_fexp Float64.prec Float64.emax (Zpos m1) e1 loc_Exact) as [r2 e2].
  cbn [fst snd] in Hs2. destruct Hs2 as [Hx2 Hs2].
  assert (0 < 2 ^ (Zpos (digits2_pos m1) + e1 - 1 - e2)) by (apply Z.pow_pos_nonneg; lia).
  destruct (shr_m r2) as [|m2|m2]; try lia.
  destruct (e2 <=? Float64.emax - Float64.prec); [right | by left].
  exists m2, e2. split; [done|].
  pose proof (digits2_pos_lower m2 _ Hx2 Hs2). lia.
Qed.

Lemma binary_round_magnitude (s : bool) (m : positive) (e : Z) :
  -1074 <= Zpos (digits2_pos m) + e - 53 ->
  let x := binary_round Float64.prec Float64.emax s m e in
  x = S754_infinity s
  \/ exists m' e', x = S754_finite s m' e'
                   /\ Zpos (digits2_pos m) + e <= Zpos (digits2_pos m') + e'.
Proof.
  intros Hn. cbv zeta. unfold binary_round, shl_align.
  destruct (fexp Float64.prec Float64.emax (Zpos (digits2_pos m) + e) - e) as [|d|d] eqn:Hd.
  - by apply binary_round_aux_magnitude.
  - by apply binary_round_aux_magnitude.
  - assert (Hf : fexp Float64.prec Float64.emax (Zpos (digits2_pos m) + e)
                 = Zpos (digits2_pos m) + e - 53)
      by (unfold fexp, emin, Float64.prec, Float64.emax; lia).
    destruct (binary_round_aux_magnitude s (Pos.iter xO m d)
                (fexp Float64.prec Float64.emax (Zpos (digits2_pos m) + e)) loc_Exact)
      as [Hinf | (m' & e' & Hfin & Hmag)].
    + rewrite digits2_pos_shift. lia.
    + by left.
    + right. exists m', e'. split; [done|]. rewrite digits2_pos_shift in Hmag. lia.
Qed.

(** [float(E)] of a nonzero integer, when it does not overflow: a number
    of the sign of [E] and of magnitude at least one. *)
Lemma int_to_float_magnitude (E : Z) (x : float) :
  E <> 0 -> int_to_float E = Ok x ->
  exists m e, x = S754_finite (E <? 0) m e /\ 1 <= Zpos (digits2_pos m) + e.
Proof.
  intros HE. unfold int_to_float, Float64.of_Z, binary_normalize.
  destruct E as [|p|p]; [done| |].
  - destruct (binary_round_magnitude false p 0) as [-> | (m & e & -> & Hmag)].
    + pose proof (digits2_pos_bounds p). assert (1 <= Zpos (digits2_pos p)) by lia. lia.
    + done.
    + cbn [Float64.is_infinity]. intros [= <-]. exists m, e. split; [done|].
      assert (1 <= Zpos (digits2_pos p)) by lia. lia.
  - destruct (binary_round_magnitude true p 0) as [-> | (m & e & -> & Hmag)].
    + assert (1 <= Zpos (digits2_pos p)) by lia. lia.
    + done.
    + cbn [Float64.is_infinity]. intros [= <-]. exists m, e. split; [done|].
      assert (1 <= Zpos (digits2_pos p)) by lia. lia.
Qed.

(** The product of a number of magnitude at least one and a number of
    the normal range is not zero. *)
Lemma mul_nonzero (sx sy : bool) (mx my : positive) (ex ey : Z) :
  1 <= Zpos (digits2_pos mx) + ex ->
  -1074 <= Zpos (digits2_pos my) + ey - 53 ->
  let z := Float64.mul (S754_finite sx mx ex) (S754_finite sy my ey) in
  z = S754_infinity (xorb sx sy) \/ exists m e, z = S754_finite (xorb sx sy) m e.
Proof.
  intros Hx Hy. cbv zeta. unfold Float64.mul, SFmul.
  pose proof (digits2_pos_mul mx my) as Hd.
  destruct (binary_round_aux_magnitude (xorb sx sy) (mx * my) (ex + ey) loc_Exact)
    as [-> | (m & e & -> & _)]; [lia | by left | right; eauto].
Qed.

(** [1 + t] is [1 - (-t)]. *)
Lemma add_one_sub_opp (t : float) :
  Float64.add (Float64.of_Z 1) t = Float64.sub (Float64.of_Z 1) (SFopp t).
Proof.
  change (Float64.of_Z 1) with (S754_finite false 4503599627370496 (-52)).
  unfold Float64.add, Float64.sub, SFadd, SFsub, SFopp.
  destruct t as [s|s| |s m e]; try reflexivity.
  - by destruct s.
  - cbv zeta. f_equal. destruct s; cbn [negb cond_Zopp]; lia.
Qed.

Lemma ltb_opp (t : float) :
  SFltb (Float64.of_Z (-1)) t = SFltb (SFopp t) (Float64.of_Z 1).
Proof.
  change (Float64.of_Z 1) with (S754_finite false 4503599627370496 (-52)).
  change (Float64.of_Z (-1)) with (S754_finite true 4503599627370496 (-52)).
  unfold SFltb, SFcompare, SFopp.
  destruct t as [s|s| |s m e]; try reflexivity.
  - by destruct s.
  - destruct s; cbn [negb]; [|done].
    rewrite (Z.compare_antisym e (-52)).
    destruct (e ?= -52); cbn [CompOpp]; try done.
    rewrite !Pos.compare_cont_spec. cbn [Pos.switch_Eq].
    rewrite (Pos.compare_antisym m 4503599627370496).
    by destruct (m ?= 4503599627370496)%positive.
Qed.

(** [1 + t] is positive for every valid [t] above minus one. *)
Lemma one_plus_positive (t : float) :
  valid_binary Float64.prec Float64.emax t = true ->
  SFltb (Float64.of_Z (-1)) t = true ->
  positive_float (Float64.add (Float64.of_Z 1) t).
Proof.
  intros Hv Hlt. rewrite add_one_sub_opp. apply one_minus_positive.
  - by destruct t.
  - by rewrite <- ltb_opp.
Qed.

Lemma verify_file_size_result (fs : gmap string N) (p : string) (n : N) (E : Z) (t : float)
    (a x : float) :
  fs !! p = Some n ->
  int_truediv (Z.of_N n) (1024 * 1024) = Ok a ->
  int_to_float E = Ok x ->
  verify_file_size fs p E t
  = Ok (Float64.leb (Float64.mul x (Float64.sub (Float64.of_Z 1) t)) a
        && Float64.leb a (Float64.mul x (Float64.add (Float64.of_Z 1) t))).
Proof.
  intros Hp Ha Hx. unfold verify_file_size. rewrite Hp, Ha. cbn [result_bind].
  rewrite int_sub_float_one, int_add_float_one. cbn [result_bind].
  unfold int_mul_float. rewrite Hx. by cbn [result_bind].
Qed.

Lemma verify_file_size_overflow (fs : gmap string N) (p : string) (n : N) (E : Z) (t : float)
    (a : float) :
  fs !! p = Some n ->
  int_truediv (Z.of_N n) (1024 * 1024) = Ok a ->
  ~ convertible E ->
  verify_file_size fs p E t = Raise OverflowError.
Proof.
  intros Hp Ha Hx. unfold verify_file_size. rewrite Hp, Ha. cbn [result_bind].
  rewrite int_sub_float_one. cbn [result_bind].
  unfold int_mul_float, int_to_float in *.
  destruct (Float64.is_infinity (Float64.of_Z E)) eqn:Hinf; [done|].
  exfalso. apply Hx. unfold convertible, int_to_float. rewrite Hinf. eauto.
Qed.

(** An empty file against a nonzero expected size. *)
Lemma verify_file_size_empty (fs : gmap string N) (p : string) (E : Z) (t : float) :
  fs !! p = Some 0%N ->
  valid_binary Float64.prec Float64.emax t = true ->
  (0 < E /\ SFltb t (Float64.of_Z 1) = true)
  \/ (E < 0 /\ SFltb (Float64.of_Z (-1)) t = true)
  \/ t = S754_nan ->
  convertible E ->
  verify_file_size fs p E t = Ok false.
Proof.
  intros Hp Hv Hcase [x Hx].
  rewrite (verify_file_size_result fs p 0 E t (S754_zero false) x Hp eq_refl Hx).
  f_equal.
  destruct Hcase as [[HE Hlt] | [[HE Hlt] | ->]].
  - (* the lower bound is positive *)
    apply andb_false_intro1.
    destruct (int_to_float_magnitude E x ltac:(lia) Hx) as (mx & ex & -> & Hmag).
    replace (E <? 0) with false by (symmetry; apply Z.ltb_ge; lia).
    destruct (one_minus_positive t Hv Hlt) as [(my & ey & -> & Hy) | ->]; [|done].
    by destruct (mul_nonzero false false mx my ex ey Hmag Hy) as [-> | (m & e & ->)].
  - (* the upper bound is negative *)
    apply andb_false_intro2.
    destruct (int_to_float_magnitude E x ltac:(lia) Hx) as (mx & ex & -> & Hmag).
    replace (E <? 0) with true by (symmetry; apply Z.ltb_lt; lia).
    destruct (one_plus_positive t Hv Hlt) as [(my & ey & -> & Hy) | ->]; [|done].
    by destruct (mul_nonzero true false mx my ex ey Hmag Hy) as [-> | (m & e & ->)].
  - by destruct x.
Qed.

End Magnitude.

Section NormalForm.

(** The sign only shows in the last step of rounding. *)
Lemma binary_round_aux_opp (m e : Z) (l : location) :
  binary_round_aux Float64.prec Float64.emax true m e l
  = SFopp (binary_round_aux Float64.prec Float64.emax false m e l).
Proof.
  unfold binary_round_aux.
  destruct (shr_fexp Float64.prec Float64.emax m e l) as [r1 e1].
  destruct (shr_fexp Float64.prec Float64.emax _ e1 loc_Exact) as [r2 e2].
  destruct (shr_m r2); [done| |done].
  by destruct (e2 <=? Float64.emax - Float64.prec).
Qed.

Lemma binary_round_aux_signed (s : bool) (m e : Z) (l : location) :
  binary_round_aux Float64.prec Float64.emax s m e l
  = (if s then SFopp (binary_round_aux Float64.prec Float64.emax false m e l)
     else binary_round_aux Float64.prec Float64.emax false m e l).
Proof. destruct s; [apply binary_round_aux_opp | done]. Qed.

(** [binary_round] on a number of the normal range: a mantissa of 53 bits
    at the exponent of the number's leading bit, or one above when the
    rounding carries. *)
Lemma binary_round_normal (s : bool) (P : positive) (e : Z) :
  -1074 <= Zpos (digits2_pos P) + e - 53 ->
  let d := Zpos (digits2_pos P) in
  exists m' e',
    binary_round Float64.prec Float64.emax s P e
    = (if e' <=? 971 then S754_finite s m' e' else S754_infinity s)
    /\ 2 ^ 52 <= Zpos m' < 2 ^ 53
    /\ (e' = d + e - 53 \/ (e' = d + e - 52 /\ Zpos m' = 2 ^ 52)).
Proof.
  intros Hn d. unfold binary_round, shl_align. fold d.
  assert (Hf : fexp Float64.prec Float64.emax (d + e) = d + e - 53)
    by (unfold fexp, emin, Float64.prec, Float64.emax; lia).
  rewrite Hf.
  pose proof (digits2_pos_bounds P) as [Hlo Hhi]. fold d in Hlo, Hhi.
  destruct (d + e - 53 - e) as [|k|k] eqn:Hk.
  - (* exactly 53 bits *)
    destruct (binary_round_aux_spec s P e loc_Exact ltac:(fold d; lia) ltac:(fold d; lia))
      as (m' & e' & -> & Hm' & He' & Hb).
    fold d in He', Hb. replace (d - 53) with 0 in * by lia.
    exists m', e'. split; [done|]. split; [done|].
    rewrite Z.div_1_r, Z.add_0_r in *.
    destruct (Z.eq_dec e' e) as [-> | Hne]; [left; lia|].
    right. assert (He1 : e' = e + 1) by lia. subst e'. split; [lia|].
    replace (e + 1 - e) with 1 in Hb by lia. change (2 ^ 1) with 2 in Hb.
    replace (d - 1) with 52 in Hlo by lia. replace d with 53 in Hhi by lia.
    change (2 ^ 53) with (2 * 2 ^ 52) in *. lia.
  - (* more than 53 bits *)
    destruct (binary_round_aux_spec s P e loc_Exact ltac:(fold d; lia) ltac:(fold d; lia))
      as (m' & e' & -> & Hm' & He' & Hb).
    fold d in He', Hb.
    exists m', e'. split; [done|]. split; [done|].
    destruct (Z.eq_dec e' (e + (d - 53))) as [-> | Hne]; [left; lia|].
    right. assert (He1 : e' = e + (d - 53) + 1) by lia. subst e'. split; [lia|].
    replace (e + (d - 53) + 1 - (e + (d - 53))) with 1 in Hb by lia.
    change (2 ^ 1) with 2 in Hb.
    assert (Hq : Zpos P / 2 ^ (d - 53) < 2 ^ 53).
    { apply Z.div_lt_upper_bound; [apply Z.pow_pos_nonneg; lia|].
      rewrite <- Z.pow_add_r by lia. replace (d - 53 + 53) with d by lia. done. }
    change (2 ^ 53) with (2 * 2 ^ 52) in *. lia.
  - (* fewer than 53 bits: the mantissa is shifted left, and kept *)
    assert (Hdm : Zpos (digits2_pos (Pos.iter xO P k)) = 53).
    { rewrite digits2_pos_shift. fold d. lia. }
    assert (Hmr : 2 ^ 52 <= Zpos (Pos.iter xO P k) < 2 ^ 53).
    { pose proof (digits2_pos_bounds (Pos.iter xO P k)) as H. rewrite Hdm in H. exact H. }
    destruct (binary_round_aux_spec s (Pos.iter xO P k) (d + e - 53) loc_Exact
                ltac:(lia) ltac:(lia))
      as (m' & e' & -> & Hm' & He' & Hb).
    rewrite Hdm in He', Hb. replace (53 - 53) with 0 in * by lia.
    exists m', e'. split; [done|]. split; [done|].
    rewrite Z.div_1_r, Z.add_0_r in *.
    destruct (Z.eq_dec e' (d + e - 53)) as [-> | Hne]; [by left|].
    right. assert (He1 : e' = d + e - 53 + 1) by lia. subst e'. split; [lia|].
    replace (d + e - 53 + 1 - (d + e - 53)) with 1 in Hb by lia. change (2 ^ 1) with 2 in Hb.
    change (2 ^ 53) with (2 * 2 ^ 52) in *. lia.
Qed.

Lemma leb_refl_normal (m : positive) (e : Z) :
  Float64.leb (S754_finite false m e) (S754_finite false m e) = true.
Proof.
  unfold Float64.leb, SFleb, SFcompare. rewrite Z.compare_refl.
  rewrite Pos.compare_cont_spec. cbn [Pos.switch_Eq]. by rewrite Pos.compare_refl.
Qed.

End NormalForm.

Section Products.

Lemma digits2_pos_normal (m : positive) :
  2 ^ 52 <= Zpos m < 2 ^ 53 -> Zpos (digits2_pos m) = 53.
Proof. intros H. by apply digits2_pos_unique. Qed.

Lemma digits2_pos_product (a b : positive) :
  2 ^ 52 <= Zpos a < 2 ^ 53 -> 2 ^ 52 <= Zpos b < 2 ^ 53 ->
  105 <= Zpos (digits2_pos (a * b)) <= 106.
Proof.
  intros Ha Hb.
  pose proof (digits2_pos_mul a b) as Hlo.
  rewrite (digits2_pos_normal a Ha), (digits2_pos_normal b Hb) in Hlo.
  split; [lia|].
  pose proof (digits2_pos_bounds (a * b)) as [Hl _].
  destruct (Z.leb_spec (Zpos (digits2_pos (a * b))) 106); [done|].
  assert (2 ^ 106 <= 2 ^ (Zpos (digits2_pos (a * b)) - 1)) by (apply Z.pow_le_mono_r; lia).
  rewrite Pos2Z.inj_mul in Hl.
  change (2 ^ 106) with (2 ^ 53 * 2 ^ 53) in *.
  change (2 ^ 53) with 9007199254740992 in *. nia.
Qed.

(** Multiplying by a number that is at least one does not make a normal
    number smaller. *)
Lemma mul_ge_left (mx mz : positive) (ex ez : Z) :
  2 ^ 52 <= Zpos mx < 2 ^ 53 -> 2 ^ 52 <= Zpos mz < 2 ^ 53 ->
  -1074 <= ex -> -52 <= ez ->
  Float64.leb (S754_finite false mx ex)
    (Float64.mul (S754_finite false mx ex) (S754_finite false mz ez)) = true.
Proof.
  intros Hx Hz Hex Hez. unfold Float64.mul, SFmul. cbn [xorb].
  pose proof (digits2_pos_product mx mz Hx Hz) as Hd.
  destruct (binary_round_aux_spec false (mx * mz) (ex + ez) loc_Exact ltac:(lia) ltac:(lia))
    as (m' & e' & -> & Hm' & He' & Hb).
  set (k := Zpos (digits2_pos (mx * mz)) - 53) in *.
  destruct (e' <=? 971); [|done].
  apply (leb_normal _ _ _ _ ex); [done | done | lia | lia |].
  rewrite Z.sub_diag, Z.mul_1_r.
  set (q := Zpos (mx * mz) / 2 ^ k) in *.
  assert (Hq : 2 ^ 52 <= q /\ (k = 52 -> Zpos mx <= q)).
  { unfold q. rewrite Pos2Z.inj_mul. split.
    - apply Z.div_le_lower_bound; [apply Z.pow_pos_nonneg; lia|].
      pose proof (digits2_pos_bounds (mx * mz)) as [Hl _]. rewrite Pos2Z.inj_mul in Hl.
      rewrite <- Z.pow_add_r by lia.
      replace (k + 52) with (Zpos (digits2_pos (mx * mz)) - 1) by (unfold k; lia). done.
    - intros ->. apply Z.div_le_lower_bound; [done|].
      change (2 ^ 52) with 4503599627370496 in *. nia. }
  destruct Hq as [Hq52 Hqx].
  replace (e' - ex) with ((e' - (ex + ez + k)) + (ez + k)) by lia.
  rewrite Z.pow_add_r by lia. rewrite Z.mul_assoc.
  set (R := Zpos m' * 2 ^ (e' - (ex + ez + k))) in *.
  destruct (Z.eq_dec (ez + k) 0) as [H0 | Hne].
  - rewrite H0. change (2 ^ 0) with 1. assert (k = 52) by lia. specialize (Hqx ltac:(done)). lia.
  - assert (Hp : 2 <= 2 ^ (ez + k)).
    { change 2 with (2 ^ 1) at 1. apply Z.pow_le_mono_r; lia. }
    change (2 ^ 53) with (2 * 2 ^ 52) in Hx. nia.
Qed.

(** Multiplying by a number below one does not make a normal number
    larger. *)
Lemma mul_le_left (mx my : positive) (ex ey : Z) :
  2 ^ 52 <= Zpos mx < 2 ^ 53 -> 2 ^ 52 <= Zpos my < 2 ^ 53 ->
  ex <= 971 -> ey <= -53 -> -1074 <= ex + ey + 52 ->
  Float64.leb (Float64.mul (S754_finite false mx ex) (S754_finite false my ey))
    (S754_finite false mx ex) = true.
Proof.
  intros Hx Hy Hex Hey Hn. unfold Float64.mul, SFmul. cbn [xorb].
  pose proof (digits2_pos_product mx my Hx Hy) as Hd.
  destruct (binary_round_aux_spec false (mx * my) (ex + ey) loc_Exact ltac:(lia) ltac:(lia))
    as (m' & e' & -> & Hm' & He' & Hb).
  set (k := Zpos (digits2_pos (mx * my)) - 53) in *.
  set (q := Zpos (mx * my) / 2 ^ k) in *.
  assert (Hk : 0 < 2 ^ k) by (apply Z.pow_pos_nonneg; lia).
  assert (Hq : q * 2 ^ k <= Zpos mx * Zpos my).
  { unfold q. rewrite Pos2Z.inj_mul, Z.mul_comm. apply Z.mul_div_le. done. }
  assert (Hy' : Zpos my < 2 ^ (- ey - k) * 2 ^ k /\ 0 < 2 ^ (- ey - k)).
  { split; [|apply Z.pow_pos_nonneg; lia].
    rewrite <- Z.pow_add_r by lia. replace (- ey - k + k) with (- ey) by lia.
    assert (2 ^ 53 <= 2 ^ (- ey)) by (apply Z.pow_le_mono_r; lia). lia. }
  destruct Hy' as [Hy' Hp].
  assert (Hqlt : q < Zpos mx * 2 ^ (- ey - k)).
  { apply (Z.mul_lt_mono_pos_r (2 ^ k)); [done|].
    eapply Z.le_lt_trans; [exact Hq|]. nia. }
  assert (Hle : e' <= ex).
  { destruct (Z.eq_dec (- ey - k) 0) as [H0 | Hne]; [|lia].
    rewrite H0 in Hqlt. change (2 ^ 0) with 1 in Hqlt.
    destruct (Z.eq_dec e' (ex + ey + k)) as [|Hne]; [lia|].
    replace (e' - (ex + ey + k)) with 1 in Hb by lia. change (2 ^ 1) with 2 in Hb. lia. }
  replace (e' <=? 971) with true by (symmetry; apply Z.leb_le; lia).
  apply (leb_normal _ _ _ _ (ex + ey + k)); [done | done | lia | lia |].
  replace (ex - (ex + ey + k)) with (- ey - k) by lia. lia.
Qed.

End Products.

Section OnePlusMinus.

Lemma bounded_canonical (m : positive) (e : Z) :
  bounded Float64.prec Float64.emax m e = true ->
  e <= 971 /\ Zpos m < 2 ^ 53
  /\ (-1074 < e -> 2 ^ 52 <= Zpos m) /\ -1074 <= e.
Proof.
  unfold bounded, canonical_mantissa. intros H.
  apply andb_true_iff in H as [Hc He]. apply Z.eqb_eq in Hc. apply Z.leb_le in He.
  unfold fexp, emin, Float64.prec, Float64.emax in *.
  pose proof (digits2_pos_bounds m) as [Hlo Hhi].
  assert (Hd : Zpos (digits2_pos m) <= 53) by lia.
  split; [lia|]. split.
  - eapply Z.lt_le_trans; [exact Hhi|]. apply Z.pow_le_mono_r; lia.
  - split; [|lia]. intros Hn. assert (Zpos (digits2_pos m) = 53) by lia.
    replace 52 with (Zpos (digits2_pos m) - 1) by lia. done.
Qed.

Lemma shr_1_r (r : shr_record) :
  0 <= shr_m r -> shr_r (shr_1 r) = Z.odd (shr_m r).
Proof.
  destruct r as [m r s]. cbn [shr_m]. intros Hm.
  destruct m as [|p|p]; [reflexivity | | lia].
  by destruct p.
Qed.

Lemma shr_iter_r (k : positive) (r : shr_record) :
  0 <= shr_m r ->
  shr_r (SpecFloat.iter_pos shr_1 k r) = Z.odd (shr_m r / 2 ^ (Zpos k - 1)).
Proof.
  revert r. induction k as [k IH | k IH |]; intros r Hr; cbn [SpecFloat.iter_pos].
  - assert (H1 : 0 <= shr_m (shr_1 r)) by (rewrite shr_1_m by done; apply Z.div_pos; lia).
    assert (H2 : 0 <= shr_m (SpecFloat.iter_pos shr_1 k (shr_1 r))).
    { rewrite shr_iter_m by done. apply Z.div_pos; [done|]. apply Z.pow_pos_nonneg; lia. }
    rewrite IH, shr_iter_m, shr_1_m by done. f_equal.
    assert (P : 0 < 2 ^ Zpos k) by (apply Z.pow_pos_nonneg; lia).
    assert (P' : 0 < 2 ^ (Zpos k - 1)) by (apply Z.pow_pos_nonneg; lia).
    rewrite !Z.div_div by lia. f_equal.
    replace (Zpos k~1 - 1) with (1 + Zpos k + (Zpos k - 1)) by lia.
    rewrite !Z.pow_add_r by lia. change (2 ^ 1) with 2. lia.
  - assert (H2 : 0 <= shr_m (SpecFloat.iter_pos shr_1 k r)).
    { rewrite shr_iter_m by done. apply Z.div_pos; [done|]. apply Z.pow_pos_nonneg; lia. }
    rewrite IH, shr_iter_m by done. f_equal.
    assert (P : 0 < 2 ^ Zpos k) by (apply Z.pow_pos_nonneg; lia).
    assert (P' : 0 < 2 ^ (Zpos k - 1)) by (apply Z.pow_pos_nonneg; lia).
    rewrite !Z.div_div by lia. f_equal.
    replace (Zpos k~0 - 1) with (Zpos k + (Zpos k - 1)) by lia.
    rewrite !Z.pow_add_r by lia. lia.
  - rewrite shr_1_r by done. change (1 - 1) with 0. by rewrite Z.div_1_r.
Qed.

(** [1 + t] for a finite valid [t >= 0]: a normal number that is at least
    one.  It is never an infinity: next to the largest floats, the one
    that is added is less than half a unit in the last place and is
    rounded away. *)
Lemma add_one_spec (mt : positive) (et : Z) :
  bounded Float64.prec Float64.emax mt et = true ->
  exists mz ez,
    Float64.add (Float64.of_Z 1) (S754_finite false mt et) = S754_finite false mz ez
    /\ 2 ^ 52 <= Zpos mz < 2 ^ 53 /\ -52 <= ez <= 971.
Proof.
  intros Hv. destruct (bounded_canonical mt et Hv) as (He & Hm & Hnorm & Hemin).
  change (Float64.of_Z 1) with (S754_finite false 4503599627370496 (-52)).
  unfold Float64.add, SFadd. cbn [cond_Zopp].
  set (ez0 := Z.min (-52) et).
  assert (Hez : ez0 <= -52 /\ ez0 <= et) by (unfold ez0; lia).
  rewrite !shl_align_fst by lia.
  change (Zpos 4503599627370496) with (2 ^ 52).
  rewrite <- Z.pow_add_r by lia. replace (52 + (-52 - ez0)) with (- ez0) by lia.
  assert (HA : 0 < 2 ^ (- ez0)) by (apply Z.pow_pos_nonneg; lia).
  assert (HB : 0 < Zpos mt * 2 ^ (et - ez0)).
  { apply Z.mul_pos_pos; [lia|]. apply Z.pow_pos_nonneg; lia. }
  destruct (2 ^ (- ez0) + Zpos mt * 2 ^ (et - ez0)) as [|S|S] eqn:HS; [lia| |lia].
  unfold binary_normalize.
  assert (HdS : - ez0 + 1 <= Zpos (digits2_pos S)).
  { apply digits2_pos_lower; lia. }
  destruct (Z.leb_spec et 970) as [Hsmall | Hbig].
  - (* the sum stays below [2^1023] *)
    destruct (binary_round_normal false S ez0 ltac:(lia)) as (m' & e' & -> & Hm' & He').
    assert (HSup : Zpos (digits2_pos S) + ez0 <= 1023).
    { destruct (Z.leb_spec (Zpos (digits2_pos S) + ez0) 1023); [done|]. exfalso.
      pose proof (digits2_pos_bounds S) as [Hl _].
      assert (H1 : 2 ^ (1023 - ez0) <= 2 ^ (Zpos (digits2_pos S) - 1))
        by (apply Z.pow_le_mono_r; lia).
      assert (H2 : 2 ^ (- ez0) + Zpos mt * 2 ^ (et - ez0) < 2 ^ (1023 - ez0)).
      { destruct (Z.leb_spec 1 et) as [Hp | Hn].
        - assert (Hez0 : ez0 = -52) by lia. rewrite Hez0. clear HS HA HB Hl H1 HdS.
          change (- -52) with 52. replace (et - -52) with (et + 52) by lia.
          assert (P1 : 2 * 2 ^ 52 <= 2 ^ (et + 52)).
          { rewrite <- Z.pow_succ_r by lia. apply Z.pow_le_mono_r; lia. }
          assert (P2 : 2 ^ 53 * 2 ^ (et + 52) <= 2 ^ (1023 - -52)).
          { rewrite <- Z.pow_add_r by lia. apply Z.pow_le_mono_r; lia. }
          assert (P3 : 0 < 2 ^ 52) by lia.
          nia.
        - assert (H3 : Zpos mt * 2 ^ (et - ez0) < 2 ^ 53 * 2 ^ (et - ez0)).
          { apply Z.mul_lt_mono_pos_r; [apply Z.pow_pos_nonneg; lia | done]. }
          rewrite <- Z.pow_add_r in H3 by lia.
          assert (2 ^ (53 + (et - ez0)) <= 2 ^ (53 - ez0)) by (apply Z.pow_le_mono_r; lia).
          assert (2 ^ (- ez0) <= 2 ^ (53 - ez0)) by (apply Z.pow_le_mono_r; lia).
          assert (2 * 2 ^ (53 - ez0) <= 2 ^ (1023 - ez0)).
          { rewrite <- Z.pow_succ_r by lia. apply Z.pow_le_mono_r; lia. }
          lia. }
      lia. }
    replace (e' <=? 971) with true by (symmetry; apply Z.leb_le; lia).
    exists m', e'. split; [done|]. split; [done|]. lia.
  - (* [t] is at least [2^1023] *)
    assert (Het : et = 971) by lia. subst et.
    assert (Hez0 : ez0 = -52) by (unfold ez0; lia). rewrite Hez0 in *. clear Hez0 ez0 Hez.
    change (- -52) with 52 in *. change (971 - -52) with 1023 in *.
    specialize (Hnorm ltac:(lia)).
    assert (HS' : Zpos S = 2 ^ 52 + Zpos mt * 2 ^ 1023) by lia.
    assert (Hp : 2 ^ 52 < 2 ^ 1022 /\ 0 < 2 ^ 1022).
    { split; [apply Z.pow_lt_mono_r; lia | apply Z.pow_pos_nonneg; lia]. }
    assert (Hp3 : 2 ^ 1023 = 2 * 2 ^ 1022) by (by rewrite <- Z.pow_succ_r by lia).
    assert (HdS' : Zpos (digits2_pos S) = 1076).
    { apply digits2_pos_unique. rewrite HS'.
      replace (1076 - 1) with (52 + 1023) by lia. replace 1076 with (53 + 1023) by lia.
      rewrite !Z.pow_add_r by lia. nia. }
    exists mt, 971. split; [|split; [lia | lia]].
    unfold binary_round, shl_align. rewrite HdS'.
    replace (fexp Float64.prec Float64.emax (1076 + -52) - -52) with 1023
      by (unfold fexp, emin, Float64.prec, Float64.emax; lia).
    unfold binary_round_aux, shr_fexp, Zdigits2. rewrite HdS'.
    replace (fexp Float64.prec Float64.emax (1076 + -52) - -52) with 1023
      by (unfold fexp, emin, Float64.prec, Float64.emax; lia).
    cbn [shr shr_record_of_loc].
    set (r0 := {| shr_m := Zpos S; shr_r := false; shr_s := false |}).
    pose proof (shr_iter_m 1023 r0 ltac:(cbn; lia)) as Hm1.
    pose proof (shr_iter_r 1023 r0 ltac:(cbn; lia)) as Hr1.
    cbn [shr_m r0] in Hm1, Hr1. change (1023 - 1) with 1022 in Hr1.
    assert (Hq : Zpos S / 2 ^ 1023 = Zpos mt).
    { symmetry. apply Z.div_unique with (r := 2 ^ 52); lia. }
    assert (Hq2 : Zpos S / 2 ^ 1022 = 2 * Zpos mt).
    { symmetry. apply Z.div_unique with (r := 2 ^ 52); lia. }
    rewrite Hq in Hm1. rewrite Hq2 in Hr1.
    rewrite Z.odd_mul in Hr1. cbn [Z.odd andb] in Hr1.
    destruct (SpecFloat.iter_pos shr_1 1023 r0) as [m1 r1 s1]. cbn [shr_m shr_r] in *.
    subst m1 r1.
    assert (Hrnd : round_nearest_even (Zpos mt)
                     (loc_of_shr_record {| shr_m := Zpos mt; shr_r := false; shr_s := s1 |})
                   = Zpos mt) by (by destruct s1).
    rewrite Hrnd. cbn [Zdigits2].
    rewrite (digits2_pos_normal mt ltac:(lia)).
    replace (fexp Float64.prec Float64.emax (53 + (-52 + 1023)) - (-52 + 1023)) with 0
      by (unfold fexp, emin, Float64.prec, Float64.emax; lia).
    cbn [shr_m]. reflexivity.
Qed.

End OnePlusMinus.

Section OneMinus.

(** [1 - t] for a finite valid [t >= 0]: below one it is a normal number
    that is at most one, at one it is [+0.0], above one it is a finite
    negative number. *)
Lemma sub_one_spec (mt : positive) (et : Z) :
  bounded Float64.prec Float64.emax mt et = true ->
  let y := Float64.sub (Float64.of_Z 1) (S754_finite false mt et) in
  (SFltb (S754_finite false mt et) (Float64.of_Z 1) = true
   /\ exists my ey, y = S754_finite false my ey /\ 2 ^ 52 <= Zpos my < 2 ^ 53
        /\ -1074 <= ey /\ (ey <= -53 \/ (ey = -52 /\ Zpos my = 2 ^ 52)))
  \/ y = S754_zero false
  \/ (exists my ey, y = S754_finite true my ey).
Proof.
  intros Hv. destruct (bounded_canonical mt et Hv) as (He & Hm & Hnorm & Hemin).
  cbv zeta.
  change (Float64.of_Z 1) with (S754_finite false 4503599627370496 (-52)).
  unfold Float64.sub, SFsub. cbn [cond_Zopp].
  set (ez0 := Z.min (-52) et).
  assert (Hez : ez0 <= -52 /\ ez0 <= et) by (unfold ez0; lia).
  rewrite !shl_align_fst by lia.
  change (Zpos 4503599627370496) with (2 ^ 52).
  rewrite <- Z.pow_add_r by lia. replace (52 + (-52 - ez0)) with (- ez0) by lia.
  destruct (2 ^ (- ez0) - Zpos mt * 2 ^ (et - ez0)) as [|D|D] eqn:HD.
  - right. left. reflexivity.
  - left. unfold binary_normalize.
    assert (Het : et <= -53).
    { destruct (Z.leb_spec et (-53)) as [|Hgt]; [done|]. exfalso.
      assert (Hez0 : ez0 = -52) by (unfold ez0; lia). rewrite Hez0 in HD.
      change (- -52) with 52 in HD.
      specialize (Hnorm ltac:(lia)).
      assert (1 <= 2 ^ (et - -52)) by (apply (Z.pow_le_mono_r 2 0); lia).
      nia. }
    assert (Hez0 : ez0 = et) by (unfold ez0; lia). rewrite Hez0 in *. clear Hez0 Hez ez0.
    rewrite Z.sub_diag in HD. change (2 ^ 0) with 1 in HD. rewrite Z.mul_1_r in HD.
    split.
    { unfold SFltb, SFcompare. by replace (et ?= -52) with Lt by (symmetry; apply Z.compare_lt_iff; lia). }
    destruct (one_minus_difference mt et Hm ltac:(lia)) as [_ Hlow].
    rewrite Z.min_r in Hlow by lia. specialize (Hlow ltac:(lia)).
    rewrite Z.sub_diag in Hlow. change (2 ^ 0) with 1 in Hlow. rewrite Z.mul_1_r in Hlow.
    assert (Hlo : -53 - et + 1 <= Zpos (digits2_pos D)).
    { apply digits2_pos_lower; lia. }
    assert (Hhi : Zpos (digits2_pos D) <= - et).
    { destruct (Z.leb_spec (Zpos (digits2_pos D)) (- et)); [done|]. exfalso.
      pose proof (digits2_pos_bounds D) as [Hl _].
      assert (2 ^ (- et) <= 2 ^ (Zpos (digits2_pos D) - 1)) by (apply Z.pow_le_mono_r; lia).
      lia. }
    destruct (binary_round_normal false D et ltac:(lia)) as (m' & e' & -> & Hm' & He').
    replace (e' <=? 971) with true by (symmetry; apply Z.leb_le; lia).
    exists m', e'. split; [done|]. split; [done|]. split; [lia|].
    destruct He' as [-> | [-> Hm2]]; [left; lia|].
    destruct (Z.eq_dec (Zpos (digits2_pos D) + et - 52) (-52)) as [Heq | Hne];
      [right; split; [exact Heq | exact Hm2] | left; lia].
  - right. right. unfold binary_normalize.
    assert (HA : 0 < 2 ^ (- ez0)) by (apply Z.pow_pos_nonneg; lia).
    assert (Het : -52 <= et).
    { destruct (Z.leb_spec (-52) et) as [|Hlt]; [done|]. exfalso.
      assert (Hez0 : ez0 = et) by (unfold ez0; lia). rewrite Hez0 in HD.
      rewrite Z.sub_diag in HD. change (2 ^ 0) with 1 in HD.
      assert (2 ^ 53 <= 2 ^ (- et)) by (apply Z.pow_le_mono_r; lia).
      lia. }
    assert (Hez0 : ez0 = -52) by (unfold ez0; lia). rewrite Hez0 in *. clear Hez0 Hez ez0.
    change (- -52) with 52 in *. replace (et - -52) with (et + 52) in HD by lia.
    specialize (Hnorm ltac:(lia)).
    assert (HP : 0 < 2 ^ (et + 52)) by (apply Z.pow_pos_nonneg; lia).
    assert (HDv : Zpos D = Zpos mt * 2 ^ (et + 52) - 2 ^ 52) by lia.
    assert (HDlt : Zpos D < 2 ^ (et + 105)).
    { replace (et + 105) with (53 + (et + 52)) by lia. rewrite Z.pow_add_r by lia. nia. }
    assert (Hhi : Zpos (digits2_pos D) <= et + 105).
    { destruct (Z.leb_spec (Zpos (digits2_pos D)) (et + 105)); [done|]. exfalso.
      pose proof (digits2_pos_bounds D) as [Hl _].
      assert (2 ^ (et + 105) <= 2 ^ (Zpos (digits2_pos D) - 1))
        by (apply Z.pow_le_mono_r; lia).
      lia. }
    destruct (Z.leb_spec (Zpos (digits2_pos D)) 1075) as [Hsmall | Hbig].
    + destruct (binary_round_normal true D (-52) ltac:(lia)) as (m' & e' & -> & Hm' & He').
      replace (e' <=? 971) with true by (symmetry; apply Z.leb_le; lia).
      by exists m', e'.
    + assert (Hd : Zpos (digits2_pos D) = 1076) by lia.
      assert (Het' : et = 971) by lia. subst et.
      change (971 + 52) with 1023 in *.
      unfold binary_round, shl_align. rewrite Hd.
      replace (fexp Float64.prec Float64.emax (1076 + -52) - -52) with 1023
        by (unfold fexp, emin, Float64.prec, Float64.emax; lia).
      destruct (binary_round_aux_spec true D (-52) loc_Exact ltac:(lia) ltac:(lia))
        as (m' & e' & -> & Hm' & He' & Hq).
      rewrite Hd in He', Hq. change (1076 - 53) with 1023 in *.
      change (-52 + 1023) with 971 in *.
      assert (Hp : 2 ^ 52 < 2 ^ 1023) by (apply Z.pow_lt_mono_r; lia).
      assert (Hdiv : Zpos D / 2 ^ 1023 = Zpos mt - 1).
      { symmetry. apply Z.div_unique with (r := 2 ^ 1023 - 2 ^ 52); lia. }
      rewrite Hdiv in Hq.
      assert (He'' : e' = 971).
      { destruct (Z.eq_dec e' 971) as [|Hne]; [done|]. exfalso.
        assert (e' = 972) by lia. subst e'. change (972 - 971) with 1 in Hq.
        change (2 ^ 1) with 2 in Hq. lia. }
      subst e'. cbn [Z.leb Z.compare Pos.compare Pos.compare_cont]. by exists m', 971.
Qed.

End OneMinus.

Section ExactSize.

Lemma digits2_pos_MiB (E : positive) :
  Zpos (digits2_pos (E * 1048576)) = Zpos (digits2_pos E) + 20.
Proof.
  apply digits2_pos_unique. pose proof (digits2_pos_bounds E) as [Hlo Hhi].
  rewrite Pos2Z.inj_mul. change (Zpos 1048576) with (2 ^ 20).
  replace (Zpos (digits2_pos E) + 20 - 1) with (Zpos (digits2_pos E) - 1 + 20) by lia.
  rewrite !Z.pow_add_r by lia. change (2 ^ 20) with 1048576. lia.
Qed.

(** A whole number of megabytes: the division by [1024 * 1024] gives the
    float of that number, whatever its size. *)
Lemma int_truediv_whole (E : positive) :
  int_truediv (Zpos E * 1048576) (1024 * 1024) = int_to_float (Zpos E).
Proof.
  set (d := Zpos (digits2_pos E)).
  unfold int_truediv. change (1024 * 1024 =? 0) with false. cbv iota.
  change (Float64.exact_Z (1024 * 1024)) with (S754_finite false 1048576 0).
  change (Zpos E * 1048576) with (Zpos (E * 1048576)).
  cbn [Float64.exact_Z]. unfold Float64.div, SFdiv.
  destruct (Z.leb_spec d 53) as [Hsmall | Hbig].
  - assert (Hn : Zpos E < 2 ^ 53).
    { pose proof (digits2_pos_bounds E) as [_ Hhi]. fold d in Hhi.
      eapply Z.lt_le_trans; [exact Hhi|]. apply Z.pow_le_mono_r; lia. }
    destruct (MiB_mantissa_spec E Hn) as (Hd & Hm & Hr). fold d in Hd, Hm.
    rewrite int_to_float_exact by done. fold d.
    assert (Hcore : SFdiv_core_binary Float64.prec Float64.emax (Zpos (E * 1048576)) 0
                      (Zpos 1048576) 0
                    = (Zpos (MiB_mantissa E)~0, d - 54, loc_Exact)).
    { unfold SFdiv_core_binary, Zdigits2. rewrite digits2_pos_MiB. fold d.
      change (Zpos (digits2_pos 1048576)) with 21.
      replace (Z.min (fexp Float64.prec Float64.emax (d + 20 + 0 - (21 + 0))) (0 - 0))
        with (d - 54)
        by (unfold fexp, emin, Float64.prec, Float64.emax; lia).
      destruct (0 - 0 - (d - 54)) as [|s|s] eqn:Hs; [lia| |lia].
      rewrite Z.shiftl_mul_pow2 by lia. rewrite <- Hs.
      rewrite (div_eucl_exact _ _ (Zpos (MiB_mantissa E)~0)); [done|lia|].
      rewrite (Pos2Z.inj_xO (MiB_mantissa E)), Hm, Pos2Z.inj_mul.
      replace (0 - 0 - (d - 54)) with ((53 - d) + 1) by lia.
      rewrite !Z.pow_add_r by lia. change (2 ^ 1) with 2. lia. }
    rewrite Hcore. cbn [xorb].
    rewrite binary_round_aux_even54 by (try done; lia).
    cbn [Float64.is_infinity]. do 2 f_equal. lia.
  - assert (Hcore : SFdiv_core_binary Float64.prec Float64.emax (Zpos (E * 1048576)) 0
                      (Zpos 1048576) 0
                    = (Zpos E, 0, loc_Exact)).
    { unfold SFdiv_core_binary, Zdigits2. rewrite digits2_pos_MiB. fold d.
      change (Zpos (digits2_pos 1048576)) with 21.
      replace (Z.min (fexp Float64.prec Float64.emax (d + 20 + 0 - (21 + 0))) (0 - 0))
        with 0
        by (unfold fexp, emin, Float64.prec, Float64.emax; lia).
      change (0 - 0 - 0) with 0. cbv iota.
      rewrite (div_eucl_exact _ _ (Zpos E)); [done|lia|].
      rewrite Pos2Z.inj_mul. lia. }
    rewrite Hcore. cbn [xorb].
    unfold int_to_float, Float64.of_Z, binary_normalize, binary_round, shl_align. fold d.
    replace (fexp Float64.prec Float64.emax (d + 0) - 0) with (d - 53)
      by (unfold fexp, emin, Float64.prec, Float64.emax; lia).
    destruct (d - 53) as [|k|k] eqn:Hk; [lia| |lia].
    reflexivity.
Qed.

(** [float(E)] of a positive integer, when it does not overflow: a normal
    number that is at least one. *)
Lemma int_to_float_normal (E : positive) (x : float) :
  int_to_float (Zpos E) = Ok x ->
  exists m e, x = S754_finite false m e /\ 2 ^ 52 <= Zpos m < 2 ^ 53 /\ -52 <= e <= 971.
Proof.
  unfold int_to_float, Float64.of_Z, binary_normalize.
  assert (Hd : 1 <= Zpos (digits2_pos E)) by lia.
  destruct (binary_round_normal false E 0 ltac:(lia)) as (m & e & -> & Hm & He).
  destruct (Z.leb_spec e 971) as [Hle | Hgt]; [|done].
  cbn [Float64.is_infinity]. intros [= <-]. exists m, e. split; [done|]. split; [done|]. lia.
Qed.

End ExactSize.

Section Tolerances.

Lemma sub_one_add_opp (t : float) :
  Float64.sub (Float64.of_Z 1) t = Float64.add (Float64.of_Z 1) (SFopp t).
Proof.
  change (Float64.of_Z 1) with (S754_finite false 4503599627370496 (-52)).
  unfold Float64.add, Float64.sub, SFadd, SFsub, SFopp.
  destruct t as [s|s| |s m e]; try reflexivity.
  cbv zeta. f_equal. destruct s; cbn [negb cond_Zopp]; lia.
Qed.

(** The sign of a product of two finite numbers is the product of the
    signs, also when the product is rounded to zero or to an infinity. *)
Lemma mul_sign (sx sy : bool) (mx my : positive) (ex ey : Z) :
  let z := Float64.mul (S754_finite sx mx ex) (S754_finite sy my ey) in
  z = S754_zero (xorb sx sy) \/ (exists m e, z = S754_finite (xorb sx sy) m e)
  \/ z = S754_infinity (xorb sx sy).
Proof. apply binary_round_aux_sign. Qed.

(** A file of exactly [E] megabytes, for a tolerance that is not
    negative. *)
Lemma verify_file_size_exact (fs : gmap string N) (p : string) (n : N) (E : Z) (t : float) :
  fs !! p = Some n ->
  Z.of_N n = E * 1048576 ->
  convertible E ->
  valid_binary Float64.prec Float64.emax t = true ->
  Float64.leb (S754_zero false) t = true ->
  (E = 0 -> Float64.is_infinity t = false) ->
  verify_file_size fs p E t = Ok true.
Proof.
  intros Hp Hn [x Hx] Hv Hpos Hfin.
  destruct E as [|E|E]; [| |lia].
  - injection Hx as <-.
    assert (Ha : int_truediv (Z.of_N n) (1024 * 1024) = Ok (S754_zero false))
      by (by rewrite Hn).
    rewrite (verify_file_size_result fs p n 0 t _ _ Hp Ha eq_refl). f_equal.
    destruct t as [s|s| |s mt et]; [by destruct s | by specialize (Hfin eq_refl) | done |].
    destruct s; [done|]. cbn [valid_binary] in Hv.
    destruct (add_one_spec mt et Hv) as (mz & ez & -> & _).
    by destruct (sub_one_spec mt et Hv) as [(_ & my & ey & -> & _) | [-> | (my & ey & ->)]].
  - assert (Ha : int_truediv (Z.of_N n) (1024 * 1024) = Ok x)
      by (by rewrite Hn, int_truediv_whole).
    rewrite (verify_file_size_result fs p n (Zpos E) t _ _ Hp Ha Hx). f_equal.
    destruct (int_to_float_normal E x Hx) as (mx & ex & -> & Hmx & Hex).
    change (Float64.of_Z 1) with (S754_finite false 4503599627370496 (-52)).
    destruct t as [s|s| |s mt et]; [| by destruct s | done |].
    + assert (Hy : Float64.sub (S754_finite false 4503599627370496 (-52)) (S754_zero s)
                   = S754_finite false 4503599627370496 (-52)) by reflexivity.
      assert (Hz : Float64.add (S754_finite false 4503599627370496 (-52)) (S754_zero s)
                   = S754_finite false 4503599627370496 (-52)) by reflexivity.
      rewrite Hy, Hz, mul_one by (try done; lia). by rewrite leb_refl_normal.
    + destruct s; [done|]. cbn [valid_binary] in Hv.
      change (S754_finite false 4503599627370496 (-52)) with (Float64.of_Z 1).
      apply andb_true_intro. split.
      * destruct (sub_one_spec mt et Hv)
          as [(_ & my & ey & -> & Hmy & Hey & Hcase) | [-> | (my & ey & ->)]].
        -- destruct Hcase as [Hlow | [-> Hone]].
           ++ apply mul_le_left; try done; lia.
           ++ assert (my = 4503599627370496%positive) as -> by (apply Pos2Z.inj; exact Hone).
              rewrite mul_one by (try done; lia). apply leb_refl_normal.
        -- reflexivity.
        -- by destruct (mul_sign false true mx my ex ey) as [-> | [(m & e & ->) | ->]].
      * destruct (add_one_spec mt et Hv) as (mz & ez & -> & Hmz & Hez).
        apply mul_ge_left; try done; lia.
Qed.

(** An empty file passes when the lower bound is not positive and the
    upper bound not negative: against a positive expected size that takes
    a tolerance of one or more, against a negative one a tolerance of
    minus one or less, against zero any finite tolerance. *)
Lemma verify_file_size_empty_passes (fs : gmap string N) (p : string) (E : Z) (t : float) :
  fs !! p = Some 0%N ->
  valid_binary Float64.prec Float64.emax t = true ->
  convertible E ->
  t <> S754_nan ->
  ~ (0 < E /\ SFltb t (Float64.of_Z 1) = true) ->
  ~ (E < 0 /\ SFltb (Float64.of_Z (-1)) t = true) ->
  ~ (E = 0 /\ Float64.is_infinity t = true) ->
  verify_file_size fs p E t = Ok true.
Proof.
  intros Hp Hv [x Hx] Hnan Hpos Hneg Hzero.
  rewrite (verify_file_size_result fs p 0 E t (S754_zero false) x Hp eq_refl Hx). f_equal.
  destruct E as [|E|E].
  - injection Hx as <-.
    destruct t as [s|s| |s mt et]; [by destruct s | by destruct Hzero | done |].
    cbn [valid_binary] in Hv. destruct s.
    + rewrite add_one_sub_opp, sub_one_add_opp. cbn [SFopp negb].
      destruct (add_one_spec mt et Hv) as (mz & ez & -> & _).
      by destruct (sub_one_spec mt et Hv) as [(_ & my & ey & -> & _) | [-> | (my & ey & ->)]].
    + destruct (add_one_spec mt et Hv) as (mz & ez & -> & _).
      by destruct (sub_one_spec mt et Hv) as [(_ & my & ey & -> & _) | [-> | (my & ey & ->)]].
  - destruct (int_to_float_normal E x Hx) as (mx & ex & -> & _).
    assert (Hge : SFltb t (Float64.of_Z 1) = false).
    { destruct (SFltb t (Float64.of_Z 1)); [|done]. exfalso. apply Hpos. split; [lia | done]. }
    destruct t as [s|s| |s mt et]; [done | by destruct s | done |].
    destruct s; [done|]. cbn [valid_binary] in Hv.
    destruct (add_one_spec mt et Hv) as (mz & ez & -> & _).
    destruct (sub_one_spec mt et Hv) as [(Hlt & _) | [-> | (my & ey & ->)]].
    + congruence.
    + by destruct (mul_sign false false mx mz ex ez) as [-> | [(m & e & ->) | ->]].
    + destruct (mul_sign false true mx my ex ey) as [-> | [(m & e & ->) | ->]];
        by destruct (mul_sign false false mx mz ex ez) as [-> | [(m' & e' & ->) | ->]].
  - destruct (int_to_float_magnitude (Zneg E) x ltac:(lia) Hx) as (mx & ex & -> & _).
    change (Z.neg E <? 0) with true.
    assert (Hge : SFltb (SFopp t) (Float64.of_Z 1) = false).
    { rewrite <- ltb_opp. destruct (SFltb (Float64.of_Z (-1)) t); [|done].
      exfalso. apply Hneg. split; [lia | done]. }
    rewrite add_one_sub_opp, sub_one_add_opp.
    destruct t as [s|s| |s mt et]; [done | by destruct s | done |].
    destruct s; [|done]. cbn [valid_binary] in Hv. cbn [SFopp negb] in *.
    destruct (add_one_spec mt et Hv) as (mz & ez & -> & _).
    destruct (sub_one_spec mt et Hv) as [(Hlt & _) | [-> | (my & ey & ->)]].
    + congruence.
    + by destruct (mul_sign true false mx mz ex ez) as [-> | [(m & e & ->) | ->]].
    + destruct (mul_sign true true mx my ex ey) as [-> | [(m & e & ->) | ->]];
        by destruct (mul_sign true false mx mz ex ez) as [-> | [(m' & e' & ->) | ->]].
Qed.

(** An empty file against the expected size zero and an infinite
    tolerance: zero times an infinity is not a number, and no comparison
    with it holds. *)
Lemma verify_file_size_empty_nan (fs : gmap string N) (p : string) (t : float) :
  fs !! p = Some 0%N ->
  Float64.is_infinity t = true ->
  verify_file_size fs p 0 t = Ok false.
Proof.
  intros Hp Hinf.
  rewrite (verify_file_size_result fs p 0 0 t (S754_zero false) (S754_zero false) Hp
             eq_refl eq_refl).
  by destruct t as [s|s| |s mt et].
Qed.

End Tolerances.

Section Values.

(** The rational [m * 2^e] on a coarser scale [2^c]. *)
Lemma pow2_split (m e c : Z) :
  c <= e -> (inject_Z (m * 2 ^ (e - c)) * 2 ^ c == inject_Z m * 2 ^ e)%Q.
Proof.
  intros Hc. rewrite inject_Z_mult, Zpower_Qpower by lia.
  change (inject_Z 2) with 2%Q.
  rewrite <- Qmult_assoc, <- Qpower_plus by done.
  by replace (e - c + c) with e by lia.
Qed.

Lemma pow2_pos (e : Z) : (0 < 2 ^ e)%Q.
Proof. by apply Qpower_0_lt. Qed.

(** The value of a finite float. *)
Lemma to_Q_finite (s : bool) (m : positive) (e : Z) :
  exists v, Float64.to_Q (S754_finite s m e) = Some v
            /\ (v == inject_Z (cond_Zopp s (Zpos m)) * 2 ^ e)%Q.
Proof.
  cbn [Float64.to_Q].
  assert (Ha : (if s then Z.neg m else Zpos m) = cond_Zopp s (Zpos m)) by (by destruct s).
  rewrite Ha. set (a := cond_Zopp s (Zpos m)). clearbody a.
  destruct (Z.leb_spec 0 e) as [He | He]; eexists; (split; [reflexivity|]).
  - rewrite <- (pow2_split a e 0) by lia. rewrite Z.sub_0_r.
    change (2 ^ 0)%Q with 1%Q. by rewrite Qmult_1_r.
  - assert (Hp : 0 < 2 ^ (- e)) by (apply Z.pow_pos_nonneg; lia).
    rewrite Qmake_Qdiv. rewrite Z2Pos.id by exact Hp.
    rewrite Zpower_Qpower by lia. change (inject_Z 2) with 2%Q.
    unfold Qdiv. rewrite <- Qpower_opp. by replace (- - e) with e by lia.
Qed.

End Values.

Section RoundingError.

(** Rounding moves a mantissa of the normal range by at most one part in
    [2^52]. *)
Lemma binary_round_aux_error (s : bool) (P : positive) (e : Z) (l : location) :
  53 <= Zpos (digits2_pos P) ->
  -1074 <= Zpos (digits2_pos P) + e - 53 ->
  exists m' e',
    binary_round_aux Float64.prec Float64.emax s (Zpos P) e l
    = (if e' <=? 971 then S754_finite s m' e' else S754_infinity s)
    /\ 2 ^ 52 <= Zpos m' < 2 ^ 53
    /\ Zpos (digits2_pos P) + e - 53 <= e' <= Zpos (digits2_pos P) + e - 52
    /\ 2 ^ 52 * Z.abs (Zpos m' * 2 ^ (e' - e) - Zpos P) <= Zpos P.
Proof.
  intros Hd Hn.
  destruct (binary_round_aux_spec s P e l Hd Hn) as (m' & e' & Heq & Hm' & He' & Hb).
  exists m', e'. split; [exact Heq|]. split; [exact Hm'|]. split; [lia|].
  set (k := Zpos (digits2_pos P) - 53) in *.
  assert (Hk : 0 <= k) by (unfold k; lia).
  assert (Hpk : 0 < 2 ^ k) by (apply Z.pow_pos_nonneg; lia).
  pose proof (digits2_pos_bounds P) as [Hlo _].
  replace (Zpos (digits2_pos P) - 1) with (52 + k) in Hlo by (unfold k; lia).
  rewrite Z.pow_add_r in Hlo by lia.
  pose proof (Z.div_mod (Zpos P) (2 ^ k) ltac:(lia)) as Hdm.
  pose proof (Z.mod_pos_bound (Zpos P) (2 ^ k) Hpk) as Hr.
  replace (e' - e) with ((e' - (e + k)) + k) by lia.
  rewrite Z.pow_add_r by lia. rewrite Z.mul_assoc.
  set (R := Zpos m' * 2 ^ (e' - (e + k))) in *.
  set (q := Zpos P / 2 ^ k) in *.
  clearbody R q k. clear Heq.
  assert (He : Z.abs (R * 2 ^ k - Zpos P) <= 2 ^ k) by nia.
  nia.
Qed.

Lemma binary_round_error (s : bool) (P : positive) (e : Z) :
  -1074 <= Zpos (digits2_pos P) + e - 53 ->
  exists m' e' c,
    binary_round Float64.prec Float64.emax s P e
    = (if e' <=? 971 then S754_finite s m' e' else S754_infinity s)
    /\ 2 ^ 52 <= Zpos m' < 2 ^ 53
    /\ Zpos (digits2_pos P) + e - 53 <= e' <= Zpos (digits2_pos P) + e - 52
    /\ c <= e /\ c <= e'
    /\ 2 ^ 52 * Z.abs (Zpos m' * 2 ^ (e' - c) - Zpos P * 2 ^ (e - c)) <= Zpos P * 2 ^ (e - c).
Proof.
  intros Hn. unfold binary_round, shl_align.
  set (d := Zpos (digits2_pos P)) in *.
  assert (Hf : fexp Float64.prec Float64.emax (d + e) = d + e - 53)
    by (unfold fexp, emin, Float64.prec, Float64.emax; lia).
  rewrite Hf.
  destruct (d + e - 53 - e) as [|j|j] eqn:Hj.
  - destruct (binary_round_aux_error s P e loc_Exact ltac:(fold d; lia) ltac:(fold d; lia))
      as (m' & e' & Heq & Hm' & He' & Hb).
    exists m', e', e. fold d in He'. rewrite Z.sub_diag. change (2 ^ 0) with 1.
    rewrite Z.mul_1_r. repeat split; try done; lia.
  - destruct (binary_round_aux_error s P e loc_Exact ltac:(fold d; lia) ltac:(fold d; lia))
      as (m' & e' & Heq & Hm' & He' & Hb).
    exists m', e', e. fold d in He'. rewrite Z.sub_diag. change (2 ^ 0) with 1.
    rewrite Z.mul_1_r. repeat split; try done; lia.
  - assert (Hd' : Zpos (digits2_pos (Pos.iter xO P j)) = d + Zpos j)
      by apply digits2_pos_shift.
    destruct (binary_round_aux_error s (Pos.iter xO P j) (d + e - 53) loc_Exact
                ltac:(lia) ltac:(lia))
      as (m' & e' & Heq & Hm' & He' & Hb).
    exists m', e', (d + e - 53). rewrite Hd' in He'.
    rewrite iter_xO_Z in Hb.
    replace (e - (d + e - 53)) with (Zpos j) by lia.
    repeat split; try done; lia.
Qed.

(** The same in the rationals. *)
Lemma scaled_error (a b c : Z) :
  0 <= b ->
  2 ^ 52 * Z.abs (a - b) <= b ->
  (inject_Z b * 2 ^ c * (1 - (1 # 4503599627370496)) <= inject_Z a * 2 ^ c
   /\ inject_Z a * 2 ^ c <= inject_Z b * 2 ^ c * (1 + (1 # 4503599627370496)))%Q.
Proof.
  intros Hb Hab. change (2 ^ 52) with 4503599627370496 in Hab.
  pose proof (pow2_pos c) as Hc.
  assert (H1 : (inject_Z b * (1 - (1 # 4503599627370496)) <= inject_Z a)%Q).
  { unfold Qle, Qmult, Qminus, Qplus, Qopp, inject_Z. cbn [Qnum Qden]. lia. }
  assert (H2 : (inject_Z a <= inject_Z b * (1 + (1 # 4503599627370496)))%Q).
  { unfold Qle, Qmult, Qminus, Qplus, Qopp, inject_Z. cbn [Qnum Qden]. lia. }
  set (A := inject_Z a) in *. set (B := inject_Z b) in *. set (U := (2 ^ c)%Q) in *.
  clearbody A B U. split; nra.
Qed.

Lemma binary_round_aux_value (s : bool) (P : positive) (e : Z) (l : location) :
  53 <= Zpos (digits2_pos P) ->
  -1074 <= Zpos (digits2_pos P) + e - 53 ->
  exists m' e',
    binary_round_aux Float64.prec Float64.emax s (Zpos P) e l
    = (if e' <=? 971 then S754_finite s m' e' else S754_infinity s)
    /\ 2 ^ 52 <= Zpos m' < 2 ^ 53
    /\ Zpos (digits2_pos P) + e - 53 <= e' <= Zpos (digits2_pos P) + e - 52
    /\ (inject_Z (Zpos P) * 2 ^ e * (1 - (1 # 4503599627370496))
        <= inject_Z (Zpos m') * 2 ^ e'
        /\ inject_Z (Zpos m') * 2 ^ e'
           <= inject_Z (Zpos P) * 2 ^ e * (1 + (1 # 4503599627370496)))%Q.
Proof.
  intros Hd Hn.
  destruct (binary_round_aux_error s P e l Hd Hn) as (m' & e' & Heq & Hm' & He' & Hb).
  exists m', e'. split; [exact Heq|]. split; [exact Hm'|]. split; [exact He'|].
  rewrite <- (pow2_split (Zpos m') e' e) by lia.
  apply scaled_error; [lia | exact Hb].
Qed.

Lemma binary_round_value (s : bool) (P : positive) (e : Z) :
  -1074 <= Zpos (digits2_pos P) + e - 53 ->
  exists m' e',
    binary_round Float64.prec Float64.emax s P e
    = (if e' <=? 971 then S754_finite s m' e' else S754_infinity s)
    /\ 2 ^ 52 <= Zpos m' < 2 ^ 53
    /\ Zpos (digits2_pos P) + e - 53 <= e' <= Zpos (digits2_pos P) + e - 52
    /\ (inject_Z (Zpos P) * 2 ^ e * (1 - (1 # 4503599627370496))
        <= inject_Z (Zpos m') * 2 ^ e'
        /\ inject_Z (Zpos m') * 2 ^ e'
           <= inject_Z (Zpos P) * 2 ^ e * (1 + (1 # 4503599627370496)))%Q.
Proof.
  intros Hn.
  destruct (binary_round_error s P e Hn) as (m' & e' & c & Heq & Hm' & He' & Hc1 & Hc2 & Hb).
  exists m', e'. split; [exact Heq|]. split; [exact Hm'|]. split; [exact He'|].
  rewrite <- (pow2_split (Zpos m') e' c), <- (pow2_split (Zpos P) e c) by lia.
  apply scaled_error; [|exact Hb].
  apply Z.mul_nonneg_nonneg; [lia | apply Z.pow_nonneg; lia].
Qed.

End RoundingError.

Section ValuesOfBounds.

Lemma value_pos (m : positive) (e : Z) : (0 < inject_Z (Zpos m) * 2 ^ e)%Q.
Proof.
  apply Qmult_lt_0_compat; [|apply pow2_pos].
  change 0%Q with (inject_Z 0). rewrite <- Zlt_Qlt. lia.
Qed.

(** Two positive normal floats compare as their values do. *)
Lemma leb_value (m1 m2 : positive) (e1 e2 : Z) :
  2 ^ 52 <= Zpos m1 < 2 ^ 53 ->
  2 ^ 52 <= Zpos m2 < 2 ^ 53 ->
  Float64.leb (S754_finite false m1 e1) (S754_finite false m2 e2) = true
  <-> (inject_Z (Zpos m1) * 2 ^ e1 <= inject_Z (Zpos m2) * 2 ^ e2)%Q.
Proof.
  intros H1 H2.
  rewrite (leb_normal m1 m2 e1 e2 (Z.min e1 e2)) by (try done; lia).
  rewrite <- (pow2_split (Zpos m1) e1 (Z.min e1 e2)) by lia.
  rewrite <- (pow2_split (Zpos m2) e2 (Z.min e1 e2)) by lia.
  rewrite Qmult_le_r by apply pow2_pos.
  by rewrite <- Zle_Qle.
Qed.

(** The product of two positive normal floats, in the normal range. *)
Lemma mul_value (mx my : positive) (ex ey : Z) :
  2 ^ 52 <= Zpos mx < 2 ^ 53 -> 2 ^ 52 <= Zpos my < 2 ^ 53 ->
  -1074 <= ex + ey + 52 -> ex + ey + 54 <= 971 ->
  exists m e,
    Float64.mul (S754_finite false mx ex) (S754_finite false my ey) = S754_finite false m e
    /\ 2 ^ 52 <= Zpos m < 2 ^ 53
    /\ (inject_Z (Zpos mx) * 2 ^ ex * (inject_Z (Zpos my) * 2 ^ ey)
          * (1 - (1 # 4503599627370496))
        <= inject_Z (Zpos m) * 2 ^ e
        /\ inject_Z (Zpos m) * 2 ^ e
           <= inject_Z (Zpos mx) * 2 ^ ex * (inject_Z (Zpos my) * 2 ^ ey)
              * (1 + (1 # 4503599627370496)))%Q.
Proof.
  intros Hx Hy Hlo Hhi. unfold Float64.mul, SFmul. cbn [xorb].
  pose proof (digits2_pos_product mx my Hx Hy) as Hd.
  destruct (binary_round_aux_value false (mx * my) (ex + ey) loc_Exact ltac:(lia) ltac:(lia))
    as (m & e & -> & Hm & He & Hv).
  replace (e <=? 971) with true by (symmetry; apply Z.leb_le; lia).
  exists m, e. split; [done|]. split; [done|].
  assert (Heq : (inject_Z (Zpos (mx * my)) * 2 ^ (ex + ey)
                 == inject_Z (Zpos mx) * 2 ^ ex * (inject_Z (Zpos my) * 2 ^ ey))%Q).
  { rewrite Pos2Z.inj_mul, inject_Z_mult, Qpower_plus by done. ring. }
  by rewrite <- Heq.
Qed.

(** [1 + t] and [1 - t] for a tolerance between zero and one. *)
Lemma one_plus_value (mt : positive) (et : Z) :
  bounded Float64.prec Float64.emax mt et = true ->
  et <= -53 ->
  exists mz ez,
    Float64.add (Float64.of_Z 1) (S754_finite false mt et) = S754_finite false mz ez
    /\ 2 ^ 52 <= Zpos mz < 2 ^ 53 /\ -52 <= ez <= -51
    /\ ((1 + inject_Z (Zpos mt) * 2 ^ et) * (1 - (1 # 4503599627370496))
        <= inject_Z (Zpos mz) * 2 ^ ez
        /\ inject_Z (Zpos mz) * 2 ^ ez
           <= (1 + inject_Z (Zpos mt) * 2 ^ et) * (1 + (1 # 4503599627370496)))%Q.
Proof.
  intros Hv Het. destruct (bounded_canonical mt et Hv) as (_ & Hm & _ & Hemin).
  change (Float64.of_Z 1) with (S754_finite false 4503599627370496 (-52)).
  unfold Float64.add, SFadd. cbn [cond_Zopp].
  rewrite Z.min_r by lia. rewrite !shl_align_fst by lia.
  change (Zpos 4503599627370496) with (2 ^ 52).
  rewrite <- Z.pow_add_r by lia. replace (52 + (-52 - et)) with (- et) by lia.
  rewrite Z.sub_diag. change (2 ^ 0) with 1. rewrite Z.mul_1_r.
  assert (H53 : 2 ^ 53 <= 2 ^ (- et)) by (apply Z.pow_le_mono_r; lia).
  destruct (2 ^ (- et) + Zpos mt) as [|S|S] eqn:HS; [lia| |lia].
  unfold binary_normalize.
  assert (HdS : Zpos (digits2_pos S) = 1 - et).
  { apply digits2_pos_unique. replace (1 - et - 1) with (- et) by lia.
    replace (1 - et) with (Z.succ (- et)) by lia. rewrite Z.pow_succ_r by lia. lia. }
  destruct (binary_round_value false S et ltac:(lia)) as (mz & ez & -> & Hmz & Hez & Hval).
  replace (ez <=? 971) with true by (symmetry; apply Z.leb_le; lia).
  exists mz, ez. split; [done|]. split; [done|]. split; [lia|].
  assert (Heq : (inject_Z (Zpos S) * 2 ^ et == 1 + inject_Z (Zpos mt) * 2 ^ et)%Q).
  { rewrite <- HS, inject_Z_plus, Zpower_Qpower by lia. change (inject_Z 2) with 2%Q.
    rewrite Qmult_plus_distr_l, <- Qpower_plus by done.
    replace (- et + et) with 0 by lia. reflexivity. }
  by rewrite <- Heq.
Qed.

Lemma one_minus_value (mt : positive) (et : Z) :
  bounded Float64.prec Float64.emax mt et = true ->
  et <= -53 ->
  exists my ey,
    Float64.sub (Float64.of_Z 1) (S754_finite false mt et) = S754_finite false my ey
    /\ 2 ^ 52 <= Zpos my < 2 ^ 53 /\ -105 <= ey <= -52
    /\ ((1 - inject_Z (Zpos mt) * 2 ^ et) * (1 - (1 # 4503599627370496))
        <= inject_Z (Zpos my) * 2 ^ ey
        /\ inject_Z (Zpos my) * 2 ^ ey
           <= (1 - inject_Z (Zpos mt) * 2 ^ et) * (1 + (1 # 4503599627370496)))%Q.
Proof.
  intros Hv Het. destruct (bounded_canonical mt et Hv) as (_ & Hm & _ & Hemin).
  change (Float64.of_Z 1) with (S754_finite false 4503599627370496 (-52)).
  unfold Float64.sub, SFsub. cbn [cond_Zopp].
  rewrite Z.min_r by lia. rewrite !shl_align_fst by lia.
  change (Zpos 4503599627370496) with (2 ^ 52).
  rewrite <- Z.pow_add_r by lia. replace (52 + (-52 - et)) with (- et) by lia.
  rewrite Z.sub_diag. change (2 ^ 0) with 1. rewrite Z.mul_1_r.
  destruct (one_minus_difference mt et Hm ltac:(lia)) as [_ Hlow].
  rewrite Z.min_r in Hlow by lia. specialize (Hlow ltac:(lia)).
  rewrite Z.sub_diag in Hlow. change (2 ^ 0) with 1 in Hlow. rewrite Z.mul_1_r in Hlow.
  assert (Hp : 0 < 2 ^ (-53 - et)) by (apply Z.pow_pos_nonneg; lia).
  destruct (2 ^ (- et) - Zpos mt) as [|D|D] eqn:HD; [lia| |lia].
  unfold binary_normalize.
  assert (Hlo : -53 - et + 1 <= Zpos (digits2_pos D)).
  { apply digits2_pos_lower; lia. }
  assert (Hhi : Zpos (digits2_pos D) <= - et).
  { destruct (Z.leb_spec (Zpos (digits2_pos D)) (- et)); [done|]. exfalso.
    pose proof (digits2_pos_bounds D) as [Hl _].
    assert (2 ^ (- et) <= 2 ^ (Zpos (digits2_pos D) - 1)) by (apply Z.pow_le_mono_r; lia).
    lia. }
  destruct (binary_round_value false D et ltac:(lia)) as (my & ey & -> & Hmy & Hey & Hval).
  replace (ey <=? 971) with true by (symmetry; apply Z.leb_le; lia).
  exists my, ey. split; [done|]. split; [done|]. split; [lia|].
  assert (Heq : (inject_Z (Zpos D) * 2 ^ et == 1 - inject_Z (Zpos mt) * 2 ^ et)%Q).
  { rewrite <- HD. unfold Z.sub. rewrite inject_Z_plus, inject_Z_opp, Zpower_Qpower by lia.
    change (inject_Z 2) with 2%Q.
    rewrite Qmult_plus_distr_l, <- Qpower_plus by done.
    replace (- et + et) with 0 by lia. change (2 ^ 0)%Q with 1%Q. ring. }
  by rewrite <- Heq.
Qed.

End ValuesOfBounds.

Section Slack.

(** The two factors [1 - t] and [1 + t] for a tolerance [0 <= t < 1] of
    value [T]: normal floats within one part in [2^52] of [1 - T] and
    [1 + T]. *)
Lemma tolerance_values (t : float) (T : Q) :
  valid_binary Float64.prec Float64.emax t = true ->
  Float64.leb (S754_zero false) t = true ->
  SFltb t (Float64.of_Z 1) = true ->
  Float64.to_Q t = Some T ->
  exists my ey mz ez,
    Float64.sub (Float64.of_Z 1) t = S754_finite false my ey
    /\ Float64.add (Float64.of_Z 1) t = S754_finite false mz ez
    /\ 2 ^ 52 <= Zpos my < 2 ^ 53 /\ 2 ^ 52 <= Zpos mz < 2 ^ 53
    /\ -105 <= ey <= -52 /\ -52 <= ez <= -51
    /\ ((1 - T) * (1 - (1 # 4503599627370496)) <= inject_Z (Zpos my) * 2 ^ ey
        /\ inject_Z (Zpos my) * 2 ^ ey <= (1 - T) * (1 + (1 # 4503599627370496))
        /\ (1 + T) * (1 - (1 # 4503599627370496)) <= inject_Z (Zpos mz) * 2 ^ ez
        /\ inject_Z (Zpos mz) * 2 ^ ez <= (1 + T) * (1 + (1 # 4503599627370496)))%Q.
Proof.
  intros Hv Hpos Hlt HT.
  destruct t as [s|s| |s mt et]; [| by destruct s | done |].
  - injection HT as <-.
    exists 4503599627370496%positive, (-52), 4503599627370496%positive, (-52).
    split; [reflexivity|]. split; [reflexivity|].
    split; [done|]. split; [done|]. split; [done|]. split; [done|].
    repeat split; apply Qle_bool_iff; reflexivity.
  - destruct s; [done|]. cbn [valid_binary] in Hv.
    destruct (bounded_canonical mt et Hv) as (_ & Hm & Hnorm & _).
    assert (Het : et <= -53).
    { destruct (Z.leb_spec et (-53)) as [|Hgt]; [done|]. exfalso.
      specialize (Hnorm ltac:(lia)).
      change (Float64.of_Z 1) with (S754_finite false 4503599627370496 (-52)) in Hlt.
      unfold SFltb, SFcompare in Hlt.
      destruct (Z.compare_spec et (-52)) as [-> | Hc | Hc]; [|lia|discriminate Hlt].
      rewrite Pos.compare_cont_spec in Hlt. cbn [Pos.switch_Eq] in Hlt.
      destruct (Pos.compare_spec mt 4503599627370496) as [Heq | Hc | Hc];
        [discriminate Hlt | | discriminate Hlt].
      change (2 ^ 52) with 4503599627370496 in Hnorm.
      clear - Hnorm Hc. apply Pos2Z.pos_lt_pos in Hc. lia. }
    destruct (to_Q_finite false mt et) as (v & Hv' & Hval).
    rewrite Hv' in HT. injection HT as <-. cbn [cond_Zopp] in Hval.
    destruct (one_minus_value mt et Hv Het) as (my & ey & Hy & Hmy & Hey & Hy1 & Hy2).
    destruct (one_plus_value mt et Hv Het) as (mz & ez & Hz & Hmz & Hez & Hz1 & Hz2).
    exists my, ey, mz, ez.
    split; [exact Hy|]. split; [exact Hz|].
    split; [done|]. split; [done|]. split; [done|]. split; [done|].
    rewrite Hval. done.
Qed.

(** The binary64 interval and the exact one differ by rounding only:
    every size that the exact interval, narrowed by one part in [2^50],
    holds is accepted, and every size outside the exact interval widened
    by as much is rejected. *)
Lemma verify_file_size_slack (fs : gmap string N) (p : string) (n : N) (E : Z)
    (t : float) (T : Q) :
  fs !! p = Some n ->
  (n < 2 ^ 53)%N ->
  0 < E < 2 ^ 53 ->
  valid_binary Float64.prec Float64.emax t = true ->
  Float64.leb (S754_zero false) t = true ->
  SFltb t (Float64.of_Z 1) = true ->
  Float64.to_Q t = Some T ->
  ((inject_Z E * (1 - T) * (1 + (1 # 1125899906842624)) <= size_in_MB n
    /\ size_in_MB n <= inject_Z E * (1 + T) * (1 - (1 # 1125899906842624)))%Q ->
   verify_file_size fs p E t = Ok true)
  /\ ((size_in_MB n < inject_Z E * (1 - T) * (1 - (1 # 1125899906842624))
       \/ inject_Z E * (1 + T) * (1 + (1 # 1125899906842624)) < size_in_MB n)%Q ->
      verify_file_size fs p E t = Ok false).
Proof.
  intros Hp Hn HE Hv Hpos Hlt HT.
  destruct (tolerance_values t T Hv Hpos Hlt HT)
    as (my & ey & mz & ez & Hy & Hz & Hmy & Hmz & Hey & Hez & Hy1 & Hy2 & Hz1 & Hz2).
  destruct E as [|E|E]; [lia| |lia].
  destruct (MiB_mantissa_spec E ltac:(lia)) as (HdE & HmE & HrE).
  set (mx := MiB_mantissa E) in *. set (ex := Zpos (digits2_pos E) - 53).
  assert (Hx : int_to_float (Zpos E) = Ok (S754_finite false mx ex))
    by (by apply int_to_float_exact; lia).
  assert (HX : (inject_Z (Zpos mx) * 2 ^ ex == inject_Z (Zpos E))%Q).
  { rewrite HmE. replace (53 - Zpos (digits2_pos E)) with (0 - ex) by (unfold ex; lia).
    rewrite pow2_split by (unfold ex; lia). change (2 ^ 0)%Q with 1%Q. ring. }
  destruct (mul_value mx my ex ey HrE Hmy ltac:(unfold ex; lia) ltac:(unfold ex; lia))
    as (ml & el & Hlo & Hml & Hl1 & Hl2).
  destruct (mul_value mx mz ex ez HrE Hmz ltac:(unfold ex; lia) ltac:(unfold ex; lia))
    as (mh & eh & Hhi & Hmh & Hh1 & Hh2).
  rewrite HX in Hl1, Hl2, Hh1, Hh2.
  pose proof (value_pos my ey) as Hypos. pose proof (value_pos mz ez) as Hzpos.
  assert (HEpos : (0 < inject_Z (Zpos E))%Q).
  { change 0%Q with (inject_Z 0). rewrite <- Zlt_Qlt. lia. }
  set (e := inject_Z (Zpos E)) in *.
  set (Y := (inject_Z (Zpos my) * 2 ^ ey)%Q) in *.
  set (Z' := (inject_Z (Zpos mz) * 2 ^ ez)%Q) in *.
  set (LO := (inject_Z (Zpos ml) * 2 ^ el)%Q) in *.
  set (HI := (inject_Z (Zpos mh) * 2 ^ eh)%Q) in *.
  assert (HT1 : (0 < 1 - T)%Q) by (clear - Hy2 Hypos; nra).
  assert (HT2 : (0 < 1 + T)%Q) by (clear - Hz2 Hzpos; nra).
  assert (HeY : (e * (1 - T) * (1 - (1 # 4503599627370496)) <= e * Y
                 /\ e * Y <= e * (1 - T) * (1 + (1 # 4503599627370496)))%Q)
    by (clear - Hy1 Hy2 HEpos; split; nra).
  assert (HeZ : (e * (1 + T) * (1 - (1 # 4503599627370496)) <= e * Z'
                 /\ e * Z' <= e * (1 + T) * (1 + (1 # 4503599627370496)))%Q)
    by (clear - Hz1 Hz2 HEpos; split; nra).
  assert (HP1 : (0 < e * (1 - T))%Q) by (by apply Qmult_lt_0_compat).
  assert (HP2 : (0 < e * (1 + T))%Q) by (by apply Qmult_lt_0_compat).
  destruct HeY as [HeY1 HeY2]. destruct HeZ as [HeZ1 HeZ2].
  set (P1 := (e * (1 - T))%Q) in *. set (P2 := (e * (1 + T))%Q) in *.
  set (EY := (e * Y)%Q) in *. set (EZ := (e * Z')%Q) in *.
  assert (HLO : (P1 * (1 - (1 # 1125899906842624)) <= LO
                 /\ LO <= P1 * (1 + (1 # 1125899906842624)))%Q).
  { clear - Hl1 Hl2 HeY1 HeY2 HP1. clearbody P1 EY LO. split; nra. }
  assert (HHI : (P2 * (1 - (1 # 1125899906842624)) <= HI
                 /\ HI <= P2 * (1 + (1 # 1125899906842624)))%Q).
  { clear - Hh1 Hh2 HeZ1 HeZ2 HP2. clearbody P2 EZ HI. split; nra. }
  destruct HLO as [HLO1 HLO2]. destruct HHI as [HHI1 HHI2].
  destruct n as [|n].
  - (* the empty file *)
    rewrite (verify_file_size_result fs p 0 (Zpos E) t (S754_zero false) _ Hp eq_refl Hx).
    rewrite Hy, Hlo. cbn [Float64.leb SFleb SFcompare andb].
    change (size_in_MB 0) with (0 # 1048576). split; [|done].
    intros [H1 _]. exfalso. clear - H1 HP1. clearbody P1.
    assert ((0 # 1048576) == 0)%Q by reflexivity. nra.
  - assert (Hn' : Zpos n < 2 ^ 53) by lia.
    destruct (MiB_mantissa_spec n Hn') as (_ & _ & Hra).
    pose proof (int_truediv_MiB n Hn') as Ha.
    destruct (int_truediv_MiB_value (Npos n) _ Hn Ha) as (va & Hva & HA).
    destruct (to_Q_finite false (MiB_mantissa n) (MiB_exponent n)) as (va' & Hva' & HA').
    rewrite Hva' in Hva. injection Hva as ->. cbn [cond_Zopp] in HA'. rewrite HA' in HA.
    rewrite (verify_file_size_result fs p (Npos n) (Zpos E) t _ _ Hp Ha Hx).
    rewrite Hy, Hz, Hlo, Hhi.
    pose proof (leb_value ml (MiB_mantissa n) el (MiB_exponent n) Hml Hra) as Hleb1.
    pose proof (leb_value (MiB_mantissa n) mh (MiB_exponent n) eh Hra Hmh) as Hleb2.
    fold LO in Hleb1. fold HI in Hleb2. rewrite HA in Hleb1, Hleb2.
    set (A := size_in_MB (N.pos n)) in *.
    split.
    + intros [H1 H2]. f_equal. apply andb_true_intro. split.
      * apply Hleb1. fold P1 in H1. clear - H1 HLO2. lra.
      * apply Hleb2. fold P2 in H2. clear - H2 HHI1. lra.
    + intros [H1 | H2]; f_equal.
      * apply andb_false_intro1. apply not_true_is_false. intros Hb.
        apply Hleb1 in Hb. fold P1 in H1. clear - H1 HLO1 Hb. lra.
      * apply andb_false_intro2. apply not_true_is_false. intros Hb.
        apply Hleb2 in Hb. fold P2 in H2. clear - H2 HHI2 Hb. lra.
Qed.

End Slack.

(** ** The contract, for every size and tolerance *)

(** C1, as amended.  A path with no file verifies false, as a result and
    not as an error, for every expected size and tolerance.  For a file
    that exists, the verifier returns true exactly when the size in
    megabytes lies between [E * (1 - t)] and [E * (1 + t)] as binary64
    computes the three numbers.  A file of exactly [E] megabytes verifies
    true for every expected size [E] whose float is finite and every
    tolerance [t >= 0], [t] finite when [E = 0]; when the float of [E] is
    not finite the verifier raises [OverflowError].  For every expected
    size from 1 up to [2^53], every tolerance [0 <= t < 1] and every byte
    count below [2^53], the binary64 interval is the exact one up to
    rounding: a size in the exact interval narrowed by one part in [2^50]
    at both ends verifies true, and a size outside the exact interval
    widened by as much verifies false.  For each catalog size [E] under
    the default tolerance and every byte count below [2^53] the binary64
    test agrees with the exact interval [[0.9 E, 1.1 E]], so that a file of
    [E * (1 + 1/10 + eps)] megabytes, [eps > 0], verifies false. *)
Theorem verify_file_size_contract (fs : gmap string N) (p : string) (n : N) (E : Z)
    (t : float) :
  (fs !! p = None -> verify_file_size fs p E t = Ok false)
  /\ (fs !! p = Some n ->
      (verify_file_size fs p E t = Ok true <->
       exists a lo hi,
         int_truediv (Z.of_N n) (1024 * 1024) = Ok a
         /\ int_mul_float E (Float64.sub (Float64.of_Z 1) t) = Ok lo
         /\ int_mul_float E (Float64.add (Float64.of_Z 1) t) = Ok hi
         /\ Float64.leb lo a = true /\ Float64.leb a hi = true))
  /\ (fs !! p = Some n ->
      Z.of_N n = E * 1048576 ->
      valid_binary Float64.prec Float64.emax t = true ->
      Float64.leb (S754_zero false) t = true ->
      (E = 0 -> Float64.is_infinity t = false) ->
      (convertible E -> verify_file_size fs p E t = Ok true)
      /\ (~ convertible E -> verify_file_size fs p E t = Raise OverflowError))
  /\ (fs !! p = Some n ->
      (n < 2 ^ 53)%N ->
      0 < E < 2 ^ 53 ->
      valid_binary Float64.prec Float64.emax t = true ->
      Float64.leb (S754_zero false) t = true ->
      SFltb t (Float64.of_Z 1) = true ->
      forall T : Q, Float64.to_Q t = Some T ->
      ((inject_Z E * (1 - T) * (1 + (1 # 1125899906842624)) <= size_in_MB n
        /\ size_in_MB n <= inject_Z E * (1 + T) * (1 - (1 # 1125899906842624)))%Q ->
       verify_file_size fs p E t = Ok true)
      /\ ((size_in_MB n < inject_Z E * (1 - T) * (1 - (1 # 1125899906842624))
           \/ inject_Z E * (1 + T) * (1 + (1 # 1125899906842624)) < size_in_MB n)%Q ->
          verify_file_size fs p E t = Ok false))
  /\ (fs !! p = Some n ->
      (n < 2 ^ 53)%N ->
      E ∈ catalog_sizes ->
      (exists b, verify_file_size fs p E default_tolerance = Ok b
                 /\ (b = true <-> within_tolerance E (1 # 10) n))
      /\ (forall eps : Q, (0 < eps)%Q ->
            (size_in_MB n == inject_Z E * (1 + (1 # 10) + eps))%Q ->
            verify_file_size fs p E default_tolerance = Ok false)).
Proof.
  split; [apply verify_file_size_missing|].
  split; [apply verify_file_size_present|].
  split; [|split; [intros Hp Hn HE Hv Hpos Hlt T HT;
                   by apply (verify_file_size_slack fs p n E t T)|]].
  - intros Hp Hn Hv Hpos Hfin. split.
    + intros HE. by apply (verify_file_size_exact fs p n).
    + intros Hno. unfold verify_file_size. rewrite Hp, Hn.
      destruct E as [|E|E]; [|  |lia].
      * exfalso. apply Hno. by eexists.
      * rewrite int_truediv_whole. unfold convertible, int_to_float in *.
        destruct (Float64.is_infinity (Float64.of_Z (Zpos E))); [done|].
        exfalso. apply Hno. by eexists.
  - intros Hp Hn HE.
    destruct (verify_file_size_catalog fs p n E HE Hp Hn) as (b & Hb & Hiff).
    assert (HEpos : 0 < E).
    { unfold catalog_sizes in HE. cbn in HE.
      repeat (apply elem_of_cons in HE as [-> | HE]); try lia. by apply elem_of_nil in HE. }
    split; [by exists b|].
    intros eps Heps Hsize. rewrite Hb. f_equal.
    destruct b; [|done]. exfalso.
    destruct (proj1 Hiff eq_refl) as [_ Hhi]. rewrite Hsize in Hhi.
    assert (HEq : (0 < inject_Z E)%Q) by (unfold Qlt; cbn; lia).
    apply Qmult_le_l in Hhi; [|done]. lra.
Qed.

Lemma verify_file_size_contract_witness :
  verify_file_size ∅ "ggml-tiny.en-q5_1.bin" 39 default_tolerance = Ok false
  /\ verify_file_size {[ "ggml-tiny.en-q5_1.bin" := 40894464%N ]}
       "ggml-tiny.en-q5_1.bin" 39 default_tolerance = Ok true
  /\ verify_file_size {[ "ggml-tiny.en-q5_1.bin" := 5242880%N ]}
       "ggml-tiny.en-q5_1.bin" 5 (Float64.of_Z 3) = Ok true
  /\ verify_file_size {[ "ggml-tiny.en-q5_1.bin" := 3145729%N ]}
       "ggml-tiny.en-q5_1.bin" 2 (S754_finite false 4503599627370496 (-53)) = Ok false
  /\ verify_file_size {[ "ggml-tiny.en-q5_1.bin" := 45000000%N ]}
       "ggml-tiny.en-q5_1.bin" 39 default_tolerance = Ok false.
Proof.
  split; [|split; [|split; [|split]]].
  - apply (proj1 (verify_file_size_contract ∅ "ggml-tiny.en-q5_1.bin" 0%N 39
                    default_tolerance)).
    reflexivity.
  - refine (proj1 (proj1 (proj2 (proj2
      (verify_file_size_contract {[ "ggml-tiny.en-q5_1.bin" := 40894464%N ]}
         "ggml-tiny.en-q5_1.bin" 40894464%N 39 default_tolerance))) _ _ _ _ _) _).
    + reflexivity.
    + reflexivity.
    + reflexivity.
    + reflexivity.
    + intros H. discriminate H.
    + eexists. reflexivity.
  - refine (proj1 (proj1 (proj2 (proj2
      (verify_file_size_contract {[ "ggml-tiny.en-q5_1.bin" := 5242880%N ]}
         "ggml-tiny.en-q5_1.bin" 5242880%N 5 (Float64.of_Z 3)))) _ _ _ _ _) _).
    + reflexivity.
    + reflexivity.
    + reflexivity.
    + reflexivity.
    + intros H. discriminate H.
    + eexists. reflexivity.
  - refine (proj2 (proj1 (proj2 (proj2 (proj2
      (verify_file_size_contract {[ "ggml-tiny.en-q5_1.bin" := 3145729%N ]}
         "ggml-tiny.en-q5_1.bin" 3145729%N 2
         (S754_finite false 4503599627370496 (-53))))))
      _ _ _ _ _ _ (4503599627370496 # 9007199254740992)%Q _) _).
    + reflexivity.
    + reflexivity.
    + split; reflexivity.
    + reflexivity.
    + reflexivity.
    + reflexivity.
    + reflexivity.
    + right. reflexivity.
  - refine (proj2 (proj2 (proj2 (proj2 (proj2
      (verify_file_size_contract {[ "ggml-tiny.en-q5_1.bin" := 45000000%N ]}
         "ggml-tiny.en-q5_1.bin" 45000000%N 39 default_tolerance)))) _ _ _)
      (160896 # 408944640)%Q _ _).
    + reflexivity.
    + reflexivity.
    + vm_compute. left.
    + reflexivity.
    + reflexivity.
Defined.

(** C1 as stated fails in four ways.  At [E = 0] the empty file has
    [0 * (1 + t + eps)] megabytes for every [eps > 0], and it verifies
    true.  The bounds are binary64 numbers: with [t = 2^-20 - 2^-73] the
    sum [1 + t] rounds up to [1 + 2^-20], and a file one byte above one
    megabyte, larger than [1 * (1 + t)], verifies true.  Under a negative
    tolerance a file of exactly [E] megabytes verifies false.  At [E = 0]
    under an infinite tolerance the bounds are not numbers, and the empty
    file, of exactly [E] megabytes, verifies false. *)
Lemma verify_file_size_contract_limits :
  ((0 < 1)%Q
   /\ (size_in_MB 0 == inject_Z 0 * (1 + (1 # 10) + 1))%Q
   /\ verify_file_size {[ "ggml-tiny.en-q5_1.bin" := 0%N ]}
        "ggml-tiny.en-q5_1.bin" 0 default_tolerance = Ok true)
  /\ (let t := S754_finite false 9007199254740991 (-73) in
      Float64.to_Q t = Some (9007199254740991 # 9444732965739290427392)%Q
      /\ (inject_Z 1 * (1 + (9007199254740991 # 9444732965739290427392))
          < size_in_MB 1048577)%Q
      /\ verify_file_size {[ "f" := 1048577%N ]} "f" 1 t = Ok true)
  /\ (let t := S754_finite true 4503599627370496 (-53) in
      Float64.to_Q t = Some (-4503599627370496 # 9007199254740992)%Q
      /\ (-4503599627370496 # 9007199254740992 == - (1 # 2))%Q
      /\ (size_in_MB 1048576 == inject_Z 1)%Q
      /\ verify_file_size {[ "f" := 1048576%N ]} "f" 1 t = Ok false)
  /\ ((size_in_MB 0 == inject_Z 0)%Q
      /\ verify_file_size {[ "f" := 0%N ]} "f" 0 (S754_infinity false) = Ok false).
Proof.
  split; [|split; [|split]].
  - split; [reflexivity|]. split; [reflexivity|]. vm_compute. reflexivity.
  - split; [reflexivity|]. split; [reflexivity|]. vm_compute. reflexivity.
  - split; [reflexivity|]. split; [reflexivity|]. split; [reflexivity|].
    vm_compute. reflexivity.
  - split; [reflexivity|]. vm_compute. reflexivity.
Qed.

(** ** Missing and empty files *)

Section Convertible.

(** [float(E)] is finite for every integer below [2^1023] in absolute
    value. *)
Lemma convertible_small (E : Z) : Z.abs E < 2 ^ 1023 -> convertible E.
Proof.
  intros HE. unfold convertible, int_to_float, Float64.of_Z, binary_normalize.
  destruct E as [|P|P]; [by eexists | |].
  - assert (Hd : 1 <= Zpos (digits2_pos P) <= 1023).
    { split; [lia|]. destruct (Z.leb_spec (Zpos (digits2_pos P)) 1023); [done|].
      pose proof (digits2_pos_bounds P) as [Hl _].
      assert (2 ^ 1023 <= 2 ^ (Zpos (digits2_pos P) - 1)) by (apply Z.pow_le_mono_r; lia).
      lia. }
    destruct (binary_round_normal false P 0 ltac:(lia)) as (m & e & -> & _ & He).
    replace (e <=? 971) with true by (symmetry; apply Z.leb_le; lia).
    by eexists.
  - assert (Hd : 1 <= Zpos (digits2_pos P) <= 1023).
    { split; [lia|]. destruct (Z.leb_spec (Zpos (digits2_pos P)) 1023); [done|].
      pose proof (digits2_pos_bounds P) as [Hl _].
      assert (2 ^ 1023 <= 2 ^ (Zpos (digits2_pos P) - 1)) by (apply Z.pow_le_mono_r; lia).
      lia. }
    destruct (binary_round_normal true P 0 ltac:(lia)) as (m & e & -> & _ & He).
    replace (e <=? 971) with true by (symmetry; apply Z.leb_le; lia).
    by eexists.
Qed.

End Convertible.

(** C2, as amended.  A missing file fails verification for every expected
    size and tolerance.  An empty file goes through the interval test
    like any other, with the size [0.0]: for an expected size [E] whose
    float is finite, as it is for every [E] below [2^1023] in absolute
    value, and a tolerance [t], it fails verification when [t] is not a
    number, when [0 < E] and [t < 1], when [E < 0] and [-1 < t], and when
    [E = 0] and [t] is an infinity; in every other case it passes.  When
    the float of [E] is not finite the verifier raises [OverflowError]. *)
Theorem verify_file_size_missing_or_empty (fs : gmap string N) (p : string)
    (E : Z) (t : float) :
  (fs !! p = None -> verify_file_size fs p E t = Ok false)
  /\ (Z.abs E < 2 ^ 1023 -> convertible E)
  /\ (fs !! p = Some 0%N ->
      valid_binary Float64.prec Float64.emax t = true ->
      (~ convertible E -> verify_file_size fs p E t = Raise OverflowError)
      /\ (convertible E ->
          t = S754_nan
          \/ (0 < E /\ SFltb t (Float64.of_Z 1) = true)
          \/ (E < 0 /\ SFltb (Float64.of_Z (-1)) t = true)
          \/ (E = 0 /\ Float64.is_infinity t = true) ->
          verify_file_size fs p E t = Ok false)
      /\ (convertible E ->
          t <> S754_nan ->
          ~ (0 < E /\ SFltb t (Float64.of_Z 1) = true) ->
          ~ (E < 0 /\ SFltb (Float64.of_Z (-1)) t = true) ->
          ~ (E = 0 /\ Float64.is_infinity t = true) ->
          verify_file_size fs p E t = Ok true)).
Proof.
  split; [apply verify_file_size_missing|].
  split; [apply convertible_small|].
  intros Hp Hv. split; [|split].
  - intros Hno. by apply (verify_file_size_overflow fs p 0 E t (S754_zero false)).
  - intros HE [Hnan | [Hpos | [Hneg | [-> Hinf]]]].
    + apply verify_file_size_empty; auto.
    + apply verify_file_size_empty; auto.
    + apply verify_file_size_empty; auto.
    + by apply verify_file_size_empty_nan.
  - intros HE Hnan Hpos Hneg Hzero. by apply verify_file_size_empty_passes.
Qed.

Lemma verify_file_size_missing_or_empty_witness :
  verify_file_size ∅ "ggml-base.en-q5_1.bin" 148 default_tolerance = Ok false
  /\ verify_file_size {[ "ggml-base.en-q5_1.bin" := 0%N ]}
       "ggml-base.en-q5_1.bin" 148 default_tolerance = Ok false
  /\ verify_file_size {[ "ggml-base.en-q5_1.bin" := 0%N ]}
       "ggml-base.en-q5_1.bin" 148 (Float64.of_Z 2) = Ok true.
Proof.
  split; [|split].
  - apply (proj1 (verify_file_size_missing_or_empty ∅ "ggml-base.en-q5_1.bin"
                    148 default_tolerance)).
    reflexivity.
  - refine (proj1 (proj2 (proj2 (proj2 (verify_file_size_missing_or_empty
                    {[ "ggml-base.en-q5_1.bin" := 0%N ]} "ggml-base.en-q5_1.bin"
                    148 default_tolerance)) _ _)) _ _).
    + reflexivity.
    + reflexivity.
    + eexists. reflexivity.
    + right. left. split; [lia | reflexivity].
  - refine (proj2 (proj2 (proj2 (proj2 (verify_file_size_missing_or_empty
                    {[ "ggml-base.en-q5_1.bin" := 0%N ]} "ggml-base.en-q5_1.bin"
                    148 (Float64.of_Z 2))) _ _)) _ _ _ _ _).
    + reflexivity.
    + reflexivity.
    + eexists. reflexivity.
    + discriminate.
    + intros [_ H]. discriminate H.
    + intros [H _]. lia.
    + intros [H _]. discriminate H.
Defined.

(** C2 as stated fails: an empty file passes against an expected size of 0,
    and against a positive expected size once the tolerance reaches 1. *)
Lemma verify_file_size_empty_file_passes :
  verify_file_size {[ "ggml-base.en-q5_1.bin" := 0%N ]}
    "ggml-base.en-q5_1.bin" 0 default_tolerance = Ok true
  /\ verify_file_size {[ "ggml-base.en-q5_1.bin" := 0%N ]}
       "ggml-base.en-q5_1.bin" 148 (Float64.of_Z 1) = Ok true.
Proof. split; vm_compute; reflexivity. Qed.

(** ** The size in megabytes of a manifest entry *)

Section TenthsOfMegabytes.

Lemma tenths_small (n : N) :
  (n < 2 ^ 53)%N -> 0 <= round_half_even (10 * Z.of_N n) 1048576 < 2 ^ 37.
Proof.
  intros Hn.
  pose proof (round_half_even_nearest (10 * Z.of_N n) 1048576 ltac:(lia)) as H.
  set (k := round_half_even (10 * Z.of_N n) 1048576) in *.
  assert (Z.of_N n < 9007199254740992) by lia.
  change (2 ^ 37) with 137438953472. lia.
Qed.

Lemma round_half_even_tie (a b : Z) :
  2 * (a mod b) = b -> Z.even (round_half_even a b) = true.
Proof.
  intros Htie. unfold round_half_even. rewrite Htie, Z.compare_refl.
  destruct (Z.even (a / b)) eqn:Hq; [done|].
  rewrite Z.even_add, Hq. reflexivity.
Qed.

(** The float that [round] returns for [k] tenths: [k / 10] to within one
    part in [2^52]. *)
Lemma decimal1_tenths (k : Z) :
  0 <= k < 2 ^ 37 ->
  decimal1 false k
  = (if k =? 0 then S754_zero false
     else SFdiv 53 1024 (S754_finite false (Z.to_pos k) 0)
            (S754_finite false 5629499534213120 (-49)))
  /\ exists q, Float64.to_Q (decimal1 false k) = Some q
               /\ (Qabs (q - (k # 10)) <= (k # 10) * (1 # 4503599627370496))%Q.
Proof.
  intros Hk. destruct k as [|k|k]; [| |lia].
  - split; [reflexivity|]. by exists 0%Q.
  - split; [reflexivity|]. apply decimal1_value. lia.
Qed.

End TenthsOfMegabytes.

(** C8.  Every entry of the manifest a run writes carries the byte count
    the file has on disk, and as [size_mb] the result of
    [round(size_bytes / 1048576, 1)].  The quotient is the binary64 value
    of [size_bytes / 1048576], which is exact for a file below [2^53]
    bytes.  [round] picks the number [k] of tenths nearest to it, the even
    one on a tie, so that [k / 10] is within one twentieth of the quotient,
    and returns the binary64 quotient of [k] by ten: zero for [k = 0], and
    otherwise a float within one part in [2^52] of [k / 10]. *)
Theorem manifest_size_mb (w : world) (m : Manifest.t) (name : string)
    (e : Manifest.entry) :
  world_ok w ->
  manifest_json (snd (run w)) = Some m ->
  Manifest.models m !! name = Some e ->
  fs (snd (run w)) !! Manifest.filename e = Some (Manifest.size_bytes e)
  /\ exists quotient k,
       int_truediv (Z.of_N (Manifest.size_bytes e)) (1024 * 1024) = Ok quotient
       /\ Manifest.size_mb e = round1 quotient
       /\ k = round_half_even (10 * Z.of_N (Manifest.size_bytes e)) 1048576
       /\ Manifest.size_mb e = decimal1 false k
       /\ (Qabs ((k # 10) - size_in_MB (Manifest.size_bytes e)) <= 1 # 20)%Q
       /\ (exists x, Float64.to_Q quotient = Some x
                     /\ (x == size_in_MB (Manifest.size_bytes e))%Q)
       /\ (2 * ((10 * Z.of_N (Manifest.size_bytes e)) mod 1048576) = 1048576 ->
           Z.even k = true)
       /\ Manifest.size_mb e
          = (if k =? 0 then S754_zero false
             else SFdiv 53 1024 (S754_finite false (Z.to_pos k) 0)
                    (S754_finite false 5629499534213120 (-49)))
       /\ exists q, Float64.to_Q (Manifest.size_mb e) = Some q
                    /\ (Qabs (q - (k # 10)) <= (k # 10) * (1 # 4503599627370496))%Q.
Proof.
  intros Hw Hman He.
  destruct (run_spec w Hw)
    as (m' & w' & Hrun & Hman' & _ & _ & _ & Hs & _ & _ & _ & Hother & Hentries).
  rewrite Hrun in *. cbn [snd] in *.
  assert (m' = m) by congruence. subst m'.
  destruct (decide (name ∈ fst <$> MODELS)) as [Hin | Hout].
  2:{ rewrite Hother in He by done. done. }
  destruct (MODELS_name_elem name Hin) as [info Hinfo].
  specialize (Hentries _ Hinfo). cbn [fst] in Hentries.
  destruct (fs w' !! item_path (name, info)) as [n|] eqn:Hfile.
  2:{ rewrite Hentries in He. done. }
  destruct Hentries as (mb & Hmb & Hentry).
  rewrite Hentry in He. injection He as <-. cbn.
  assert (Hn : (n < 2 ^ 53)%N) by (by eapply Hs).
  assert (Hround : round1 mb = decimal1 false (round_half_even (10 * Z.of_N n) 1048576))
    by (by apply round1_MiB).
  destruct (decimal1_tenths _ (tenths_small n Hn)) as [Hdiv Hval].
  split; [done|]. exists mb, (round_half_even (10 * Z.of_N n) 1048576).
  split; [done|]. split; [done|]. split; [done|]. split; [exact Hround|].
  split; [apply tenth_is_nearest|].
  split; [by apply int_truediv_MiB_value|].
  split; [apply round_half_even_tie|].
  rewrite Hround. split; [exact Hdiv | exact Hval].
Qed.

Lemma manifest_size_mb_witness :
  let w := fresh_world good_network ∅ in
  exists m e,
    manifest_json (snd (run w)) = Some m
    /\ Manifest.models m !! "tiny.en" = Some e
    /\ fs (snd (run w)) !! Manifest.filename e = Some (Manifest.size_bytes e)
    /\ Manifest.size_mb e
       = decimal1 false (round_half_even (10 * Z.of_N (Manifest.size_bytes e)) 1048576)
    /\ exists q, Float64.to_Q (Manifest.size_mb e) = Some q
         /\ (Qabs (q - (round_half_even (10 * Z.of_N (Manifest.size_bytes e)) 1048576 # 10))
             <= (round_half_even (10 * Z.of_N (Manifest.size_bytes e)) 1048576 # 10)
                * (1 # 4503599627370496))%Q.
Proof.
  intros w.
  assert (Hm : exists m, manifest_json (snd (run w)) = Some m).
  { vm_compute. eexists. reflexivity. }
  destruct Hm as [m Hm].
  assert (He : exists e, Manifest.models m !! "tiny.en" = Some e).
  { revert Hm. vm_compute. intros [= <-]. vm_compute. eexists. reflexivity. }
  destruct He as [e He].
  exists m, e. split; [exact Hm|]. split; [exact He|].
  destruct (manifest_size_mb w m "tiny.en" e)
    as (Hfile & q & k & _ & _ & Hk & Hmb & _ & _ & _ & _ & Hval).
  - apply world_ok_fresh; [apply sizes_ok_empty|].
    intros url r [= <-]. unfold body_size. cbn [chunks].
    repeat case_decide; vm_compute; reflexivity.
  - exact Hm.
  - exact He.
  - split; [exact Hfile|]. rewrite Hk in Hmb, Hval. split; [exact Hmb | exact Hval].
Defined.
